(** * mLRS transmitter: link core of [CommonTx/mlrs-tx.cpp]

    A shallow embedding of the transmitter main unit: the channel-order
    object, the deferred-task engine, the modem DIO interrupt handlers, the
    frame handling functions and the body of the super-loop of [main_main],
    followed by the properties of the link core stated over it. Three
    smaller units stand beside it: the base class of the JR pin5 bridge
    ([CommonTx/esp-jr_pin5_interface.h]), the MSP interface of the receiver
    ([CommonRx/msp_interface_rx.h]) and the busy wait of the SX1280 driver
    ([Common/sx1280_driver.h]).

    Conventions.
    - C unsigned integers are [Z] values; every arithmetic result that is
      stored is wrapped explicitly ([wrap8], [wrap16]).
    - C arrays are lists, read with [!!!] and written with [<[ i := v ]>].
    - Objects and functions declared in headers outside this unit (modem
      driver, serial ports, MAVLink handler, tx statistics, frame codec) are
      reached through the interface classes [Build] and [Collab]. *)

From Stdlib Require Import ZArith String.
From stdpp Require Import base numbers list strings.

Local Open Scope Z_scope.

(** ** Machine integers *)

Definition UINT8_MAX : Z := 255.

Definition wrap8 (x : Z) : Z := x mod 256.
Definition wrap16 (x : Z) : Z := x mod 65536.

(** C truth value of an integer. *)
Definition nonzero (x : Z) : bool := negb (x =? 0).

(** ** Channel order

    [class ChannelOrder]: a cached order id and a map of the first four
    channels. [tRcData] is declared outside the unit; only its channel array
    [ch] is used here, an array of at least four 16-bit values. *)

Definition tRcData := list Z.

(** Modelled from the spec: the enumerators of the channel order setting,
    [ChannelOrder: {AETR, TAER, ETAR}], numbered in that order. *)
Definition CHANNEL_ORDER_AETR : Z := 0.
Definition CHANNEL_ORDER_TAER : Z := 1.
Definition CHANNEL_ORDER_ETAR : Z := 2.

Module ChannelOrder.

Record t := mk {
  channel_order : Z;          (* uint8_t *)
  channel_map : list Z        (* uint8_t [4] *)
}.

(** The constructor. *)
Definition init : t :=
  {| channel_order := UINT8_MAX; channel_map := [0; 1; 2; 3] |}.

(** [Set]. The parameter is a [uint8_t]: whatever is passed arrives
    truncated to 8 bits. *)
Definition Set_ (new_channel_order : Z) (co : t) : t :=
  let new_channel_order := wrap8 new_channel_order in
  if new_channel_order =? channel_order co then co
  else
    let co := {| channel_order := new_channel_order;
                 channel_map := channel_map co |} in
    if channel_order co =? CHANNEL_ORDER_AETR then
      co (* nothing to do *)
    else if channel_order co =? CHANNEL_ORDER_TAER then
      co (* TODO *)
    else if channel_order co =? CHANNEL_ORDER_ETAR then
      {| channel_order := channel_order co;
         channel_map :=
           <[3%nat := 3]> (<[2%nat := 1]> (<[1%nat := 0]>
             (<[0%nat := 2]> (channel_map co)))) |}
    else co.

(** [Apply]: a copy of the first four channels is taken, then channel [n]
    receives the copy's entry [channel_map[n]], for [n = 0..3]. *)
Definition Apply (co : t) (rc : tRcData) : tRcData :=
  let ch := take 4 rc in
  foldl (λ rc n, <[n := ch !!! Z.to_nat (channel_map co !!! n)]> rc)
        rc (seq 0 4).

(** [Set] followed by [Apply], as every channel source does in the loop. *)
Definition SetApply (order : Z) (st : t * tRcData) : t * tRcData :=
  let co := Set_ order st.1 in (co, Apply co st.2).

End ChannelOrder.

(** The scenario "order AETR, then ETAR, then AETR again", each order set
    and applied to the channel data in turn, from the initial object; and a
    single ETAR reordering for comparison. *)
Definition aetr_etar_aetr (rc : tRcData) : ChannelOrder.t * tRcData :=
  ChannelOrder.SetApply CHANNEL_ORDER_AETR
    (ChannelOrder.SetApply CHANNEL_ORDER_ETAR
       (ChannelOrder.SetApply CHANNEL_ORDER_AETR (ChannelOrder.init, rc))).

Definition etar_once (rc : tRcData) : ChannelOrder.t * tRcData :=
  ChannelOrder.SetApply CHANNEL_ORDER_ETAR (ChannelOrder.init, rc).

(** ** While transmit/receive tasks

    The methods write to the global debug port [dbg]; each returns, next to
    the new object, the texts it has put there, in order. *)

Definition WHILE_TASK_NONE : Z := 0.
Definition WHILE_TASK_STORE_PARAMS : Z := 1.

(** The text ["\npost transmit task"]; 10 is the line feed. *)
Definition msg_post_transmit_task : string :=
  String (Ascii.ascii_of_nat 10) "post transmit task".

Definition msg_store : string := " store".

Module WhileTransmit.

Record t := mk {
  tasks : Z;                  (* uint8_t *)
  do_cnt : Z                  (* uint16_t *)
}.

Definition Init : t :=
  {| tasks := WHILE_TASK_NONE; do_cnt := 0 |}.

Definition Trigger (w : t) : t :=
  {| tasks := tasks w; do_cnt := 5 |}. (* postpone the action by few loops *)

Definition SetTask (task : Z) (w : t) : t :=
  {| tasks := wrap8 (Z.lor (tasks w) task); do_cnt := do_cnt w |}.

(** The store task is a stub in the source: it clears the request bit and
    reports [" store"]. *)
Definition handle_tasks (w : t) : t * list string :=
  if nonzero (Z.land (tasks w) WHILE_TASK_STORE_PARAMS) then
    ({| tasks := wrap8 (Z.land (tasks w) (Z.lnot WHILE_TASK_STORE_PARAMS));
        do_cnt := do_cnt w |},
     [msg_post_transmit_task; msg_store]) (* do just one task per cycle *)
  else (w, [msg_post_transmit_task]).

Definition Do (w : t) : t * list string :=
  if negb (nonzero (do_cnt w)) then (w, []) (* 0 = not triggered *)
  else
    let w := {| tasks := tasks w; do_cnt := wrap16 (do_cnt w - 1) |} in
    if nonzero (do_cnt w) then (w, []) (* we still postpone *)
    else if negb (nonzero (tasks w)) then (w, []) (* no task to do *)
    else handle_tasks w.

(** [n] successive calls of [Do], the debug output collected. *)
Fixpoint Do_n (n : nat) (w : t) : t * list string :=
  match n with
  | O => (w, [])
  | S n => let r := Do w in
           let r' := Do_n n r.1 in (r'.1, r.2 ++ r'.2)
  end.

(** Number of runs of the store task in a piece of debug output. *)
Definition stores (out : list string) : nat :=
  length (filter (λ str, str = msg_store) out).

End WhileTransmit.

(** ** Enumerations and plain data of the unit *)

Inductive CONNECT_STATE_ENUM :=
  | CONNECT_STATE_LISTEN
  | CONNECT_STATE_SYNC
  | CONNECT_STATE_CONNECTED.

Inductive LINK_STATE_ENUM :=
  | LINK_STATE_IDLE
  | LINK_STATE_TRANSMIT
  | LINK_STATE_TRANSMIT_WAIT
  | LINK_STATE_RECEIVE
  | LINK_STATE_RECEIVE_WAIT
  | LINK_STATE_RECEIVE_DONE.

Inductive TRANSMIT_FRAME_TYPE_ENUM :=
  | TRANSMIT_FRAME_TYPE_NORMAL
  | TRANSMIT_FRAME_TYPE_CMD_GET_RX_SETUPDATA
  | TRANSMIT_FRAME_TYPE_CMD_SET_RX_PARAMS
  | TRANSMIT_FRAME_TYPE_CMD_STORE_RX_PARAMS.

(** [RX_STATUS_ENUM]; the two status variables are [uint8_t] and are compared
    with [>], so the enumerators stay numbers. *)
Definition RX_STATUS_NONE : Z := 0.
Definition RX_STATUS_INVALID : Z := 1.
Definition RX_STATUS_VALID : Z := 2.

(** The two antenna ids, the only values the [antenna] arguments take. *)
Inductive ANTENNA_ENUM := ANTENNA_1 | ANTENNA_2.

#[global] Instance CONNECT_STATE_ENUM_eq_dec : EqDecision CONNECT_STATE_ENUM.
Proof. solve_decision. Defined.
#[global] Instance LINK_STATE_ENUM_eq_dec : EqDecision LINK_STATE_ENUM.
Proof. solve_decision. Defined.
#[global] Instance TRANSMIT_FRAME_TYPE_ENUM_eq_dec : EqDecision TRANSMIT_FRAME_TYPE_ENUM.
Proof. solve_decision. Defined.
#[global] Instance ANTENNA_ENUM_eq_dec : EqDecision ANTENNA_ENUM.
Proof. solve_decision. Defined.

(** Modelled from the spec: the enumerations of the settings, declared in
    the setup headers outside the unit:
    [SerialDestination: {mBridge, SerialPort, None}],
    [ChannelsSource: {mBridge, CRSF, InPort}],
    [SerialLinkMode: {Transparent, MAVLink}]. The enumerator names are the
    ones the unit uses. *)
Inductive SERIAL_DESTINATION_ENUM :=
  | SERIAL_DESTINATION_MBRDIGE
  | SERIAL_DESTINATION_SERIAL_PORT
  | SERIAL_DESTINATION_NONE.

Inductive CHANNEL_SOURCE_ENUM :=
  | CHANNEL_SOURCE_MBRIDGE
  | CHANNEL_SOURCE_CRSF
  | CHANNEL_SOURCE_INPORT.

Inductive SERIAL_LINK_MODE_ENUM :=
  | SERIAL_LINK_MODE_TRANSPARENT
  | SERIAL_LINK_MODE_MAVLINK.

#[global] Instance CHANNEL_SOURCE_ENUM_eq_dec : EqDecision CHANNEL_SOURCE_ENUM.
Proof. solve_decision. Defined.

(** Modelled from the spec: the fields of the globals [Setup] and [Config]
    that the unit reads, from the configuration surface ([SerialDestination],
    [ChannelsSource], [ChannelOrder], [SerialLinkMode] on either side;
    [FrameSyncWord: u16], [FhssNum], [FhssSeed], [frame_rate_ms],
    [LQAveragingPeriod]). *)
Record tSetup := mkSetup {
  Tx_SerialDestination : SERIAL_DESTINATION_ENUM;
  Tx_ChannelsSource : CHANNEL_SOURCE_ENUM;
  Tx_ChannelOrder : Z;
  Tx_SerialLinkMode : SERIAL_LINK_MODE_ENUM;
  Rx_SerialLinkMode : SERIAL_LINK_MODE_ENUM
}.

Record tConfig := mkConfig {
  FrameSyncWord : Z;            (* uint16_t *)
  FhssNum : Z;
  FhssSeed : Z;
  frame_rate_ms : Z;
  frame_rate_hz : Z;
  LQAveragingPeriod : Z
}.

(** Modelled from the spec: the received frame [tRxFrame], declared in the
    frame headers outside the unit, with the status fields of the
    over-the-air frame (frame type, sequence number, ack bit, antenna ids,
    RSSI u7, LQ, LQ of serial data, payload length) and the payload bytes. *)
Module FrameStatus.
Record t := mk {
  seq_no : Z;
  ack : Z;
  frame_type : Z;
  antenna : Z;
  transmit_antenna : Z;
  rssi_u7 : Z;
  LQ : Z;
  LQ_serial_data : Z;
  payload_len : Z
}.
End FrameStatus.

Record tRxFrame := mkRxFrame {
  status : FrameStatus.t;
  rx_payload : list Z           (* [payload] of the frame, uint8_t [] *)
}.

(** [tFrameStats], declared outside the unit; the fields are the ones
    [process_transmit_frame] assigns. *)
Module FrameStats.
Record t := mk {
  seq_no : Z;
  ack : Z;
  antenna : ANTENNA_ENUM;
  transmit_antenna : ANTENNA_ENUM;
  rssi : Z;
  LQ : Z;
  LQ_serial_data : Z
}.
End FrameStats.

(** The transmit frame buffer. The packing functions live in the frame
    codec; the buffer holds the record of the last packing call, that is,
    which function filled it and from which arguments. *)
Inductive tTxFrame :=
  | txFrame_unset
  | pack_tx_frame (frame_stats : FrameStats.t) (rc : tRcData)
                  (payload : list Z) (payload_len : Z)
  | pack_txcmd_cmd_frame (frame_stats : FrameStats.t) (rc : tRcData) (cmd : Z)
  | pack_txcmd_set_rxparams_frame (frame_stats : FrameStats.t) (rc : tRcData).

Definition is_cmd_frame (f : tTxFrame) : bool :=
  match f with
  | pack_txcmd_cmd_frame _ _ _ | pack_txcmd_set_rxparams_frame _ _ => true
  | _ => false
  end.

(** Modelled from the spec: the link statistics [stats] (per-antenna RSSI
    and SNR as [i8], last sequence number and ack, antenna ids), declared
    outside the unit; the fields are the ones the unit reads or writes.
    [transmit_seq_no] is an 8-bit counter like [received_seq_no_last], whose
    "none" value in the unit is [UINT8_MAX]. *)
Record tStats := mkStats {
  transmit_seq_no : Z;          (* uint8_t *)
  last_tx_antenna : ANTENNA_ENUM;
  last_rx_antenna : ANTENNA_ENUM;
  received_seq_no_last : Z;
  received_ack_last : Z;
  last_rx_rssi1 : Z;            (* int8_t *)
  last_rx_snr1 : Z;
  last_rx_rssi2 : Z;
  last_rx_snr2 : Z;
  received_antenna : Z;
  received_transmit_antenna : Z;
  received_rssi : Z;
  received_LQ : Z;
  received_LQ_serial_data : Z
}.

(** Field updates of [stats]. *)
Definition set_transmit_seq_no (v : Z) (st : tStats) : tStats :=
  {| transmit_seq_no := v; last_tx_antenna := last_tx_antenna st;
     last_rx_antenna := last_rx_antenna st;
     received_seq_no_last := received_seq_no_last st;
     received_ack_last := received_ack_last st;
     last_rx_rssi1 := last_rx_rssi1 st; last_rx_snr1 := last_rx_snr1 st;
     last_rx_rssi2 := last_rx_rssi2 st; last_rx_snr2 := last_rx_snr2 st;
     received_antenna := received_antenna st;
     received_transmit_antenna := received_transmit_antenna st;
     received_rssi := received_rssi st; received_LQ := received_LQ st;
     received_LQ_serial_data := received_LQ_serial_data st |}.
Definition set_last_tx_antenna (v : ANTENNA_ENUM) (st : tStats) : tStats :=
  {| transmit_seq_no := transmit_seq_no st; last_tx_antenna := v;
     last_rx_antenna := last_rx_antenna st;
     received_seq_no_last := received_seq_no_last st;
     received_ack_last := received_ack_last st;
     last_rx_rssi1 := last_rx_rssi1 st; last_rx_snr1 := last_rx_snr1 st;
     last_rx_rssi2 := last_rx_rssi2 st; last_rx_snr2 := last_rx_snr2 st;
     received_antenna := received_antenna st;
     received_transmit_antenna := received_transmit_antenna st;
     received_rssi := received_rssi st; received_LQ := received_LQ st;
     received_LQ_serial_data := received_LQ_serial_data st |}.
Definition set_last_rx_antenna (v : ANTENNA_ENUM) (st : tStats) : tStats :=
  {| transmit_seq_no := transmit_seq_no st;
     last_tx_antenna := last_tx_antenna st; last_rx_antenna := v;
     received_seq_no_last := received_seq_no_last st;
     received_ack_last := received_ack_last st;
     last_rx_rssi1 := last_rx_rssi1 st; last_rx_snr1 := last_rx_snr1 st;
     last_rx_rssi2 := last_rx_rssi2 st; last_rx_snr2 := last_rx_snr2 st;
     received_antenna := received_antenna st;
     received_transmit_antenna := received_transmit_antenna st;
     received_rssi := received_rssi st; received_LQ := received_LQ st;
     received_LQ_serial_data := received_LQ_serial_data st |}.
Definition set_received_seq_no_last (v : Z) (st : tStats) : tStats :=
  {| transmit_seq_no := transmit_seq_no st;
     last_tx_antenna := last_tx_antenna st;
     last_rx_antenna := last_rx_antenna st; received_seq_no_last := v;
     received_ack_last := received_ack_last st;
     last_rx_rssi1 := last_rx_rssi1 st; last_rx_snr1 := last_rx_snr1 st;
     last_rx_rssi2 := last_rx_rssi2 st; last_rx_snr2 := last_rx_snr2 st;
     received_antenna := received_antenna st;
     received_transmit_antenna := received_transmit_antenna st;
     received_rssi := received_rssi st; received_LQ := received_LQ st;
     received_LQ_serial_data := received_LQ_serial_data st |}.
Definition set_received_ack_last (v : Z) (st : tStats) : tStats :=
  {| transmit_seq_no := transmit_seq_no st;
     last_tx_antenna := last_tx_antenna st;
     last_rx_antenna := last_rx_antenna st;
     received_seq_no_last := received_seq_no_last st; received_ack_last := v;
     last_rx_rssi1 := last_rx_rssi1 st; last_rx_snr1 := last_rx_snr1 st;
     last_rx_rssi2 := last_rx_rssi2 st; last_rx_snr2 := last_rx_snr2 st;
     received_antenna := received_antenna st;
     received_transmit_antenna := received_transmit_antenna st;
     received_rssi := received_rssi st; received_LQ := received_LQ st;
     received_LQ_serial_data := received_LQ_serial_data st |}.
Definition set_last_rx_rssi1 (v : Z) (st : tStats) : tStats :=
  {| transmit_seq_no := transmit_seq_no st;
     last_tx_antenna := last_tx_antenna st;
     last_rx_antenna := last_rx_antenna st;
     received_seq_no_last := received_seq_no_last st;
     received_ack_last := received_ack_last st; last_rx_rssi1 := v;
     last_rx_snr1 := last_rx_snr1 st; last_rx_rssi2 := last_rx_rssi2 st;
     last_rx_snr2 := last_rx_snr2 st;
     received_antenna := received_antenna st;
     received_transmit_antenna := received_transmit_antenna st;
     received_rssi := received_rssi st; received_LQ := received_LQ st;
     received_LQ_serial_data := received_LQ_serial_data st |}.
Definition set_last_rx_snr1 (v : Z) (st : tStats) : tStats :=
  {| transmit_seq_no := transmit_seq_no st;
     last_tx_antenna := last_tx_antenna st;
     last_rx_antenna := last_rx_antenna st;
     received_seq_no_last := received_seq_no_last st;
     received_ack_last := received_ack_last st;
     last_rx_rssi1 := last_rx_rssi1 st; last_rx_snr1 := v;
     last_rx_rssi2 := last_rx_rssi2 st; last_rx_snr2 := last_rx_snr2 st;
     received_antenna := received_antenna st;
     received_transmit_antenna := received_transmit_antenna st;
     received_rssi := received_rssi st; received_LQ := received_LQ st;
     received_LQ_serial_data := received_LQ_serial_data st |}.
Definition set_last_rx_rssi2 (v : Z) (st : tStats) : tStats :=
  {| transmit_seq_no := transmit_seq_no st;
     last_tx_antenna := last_tx_antenna st;
     last_rx_antenna := last_rx_antenna st;
     received_seq_no_last := received_seq_no_last st;
     received_ack_last := received_ack_last st;
     last_rx_rssi1 := last_rx_rssi1 st; last_rx_snr1 := last_rx_snr1 st;
     last_rx_rssi2 := v; last_rx_snr2 := last_rx_snr2 st;
     received_antenna := received_antenna st;
     received_transmit_antenna := received_transmit_antenna st;
     received_rssi := received_rssi st; received_LQ := received_LQ st;
     received_LQ_serial_data := received_LQ_serial_data st |}.
Definition set_last_rx_snr2 (v : Z) (st : tStats) : tStats :=
  {| transmit_seq_no := transmit_seq_no st;
     last_tx_antenna := last_tx_antenna st;
     last_rx_antenna := last_rx_antenna st;
     received_seq_no_last := received_seq_no_last st;
     received_ack_last := received_ack_last st;
     last_rx_rssi1 := last_rx_rssi1 st; last_rx_snr1 := last_rx_snr1 st;
     last_rx_rssi2 := last_rx_rssi2 st; last_rx_snr2 := v;
     received_antenna := received_antenna st;
     received_transmit_antenna := received_transmit_antenna st;
     received_rssi := received_rssi st; received_LQ := received_LQ st;
     received_LQ_serial_data := received_LQ_serial_data st |}.
Definition set_received_antenna (v : Z) (st : tStats) : tStats :=
  {| transmit_seq_no := transmit_seq_no st;
     last_tx_antenna := last_tx_antenna st;
     last_rx_antenna := last_rx_antenna st;
     received_seq_no_last := received_seq_no_last st;
     received_ack_last := received_ack_last st;
     last_rx_rssi1 := last_rx_rssi1 st; last_rx_snr1 := last_rx_snr1 st;
     last_rx_rssi2 := last_rx_rssi2 st; last_rx_snr2 := last_rx_snr2 st;
     received_antenna := v;
     received_transmit_antenna := received_transmit_antenna st;
     received_rssi := received_rssi st; received_LQ := received_LQ st;
     received_LQ_serial_data := received_LQ_serial_data st |}.
Definition set_received_transmit_antenna (v : Z) (st : tStats) : tStats :=
  {| transmit_seq_no := transmit_seq_no st;
     last_tx_antenna := last_tx_antenna st;
     last_rx_antenna := last_rx_antenna st;
     received_seq_no_last := received_seq_no_last st;
     received_ack_last := received_ack_last st;
     last_rx_rssi1 := last_rx_rssi1 st; last_rx_snr1 := last_rx_snr1 st;
     last_rx_rssi2 := last_rx_rssi2 st; last_rx_snr2 := last_rx_snr2 st;
     received_antenna := received_antenna st; received_transmit_antenna := v;
     received_rssi := received_rssi st; received_LQ := received_LQ st;
     received_LQ_serial_data := received_LQ_serial_data st |}.
Definition set_received_rssi (v : Z) (st : tStats) : tStats :=
  {| transmit_seq_no := transmit_seq_no st;
     last_tx_antenna := last_tx_antenna st;
     last_rx_antenna := last_rx_antenna st;
     received_seq_no_last := received_seq_no_last st;
     received_ack_last := received_ack_last st;
     last_rx_rssi1 := last_rx_rssi1 st; last_rx_snr1 := last_rx_snr1 st;
     last_rx_rssi2 := last_rx_rssi2 st; last_rx_snr2 := last_rx_snr2 st;
     received_antenna := received_antenna st;
     received_transmit_antenna := received_transmit_antenna st;
     received_rssi := v; received_LQ := received_LQ st;
     received_LQ_serial_data := received_LQ_serial_data st |}.
Definition set_received_LQ (v : Z) (st : tStats) : tStats :=
  {| transmit_seq_no := transmit_seq_no st;
     last_tx_antenna := last_tx_antenna st;
     last_rx_antenna := last_rx_antenna st;
     received_seq_no_last := received_seq_no_last st;
     received_ack_last := received_ack_last st;
     last_rx_rssi1 := last_rx_rssi1 st; last_rx_snr1 := last_rx_snr1 st;
     last_rx_rssi2 := last_rx_rssi2 st; last_rx_snr2 := last_rx_snr2 st;
     received_antenna := received_antenna st;
     received_transmit_antenna := received_transmit_antenna st;
     received_rssi := received_rssi st; received_LQ := v;
     received_LQ_serial_data := received_LQ_serial_data st |}.
Definition set_received_LQ_serial_data (v : Z) (st : tStats) : tStats :=
  {| transmit_seq_no := transmit_seq_no st;
     last_tx_antenna := last_tx_antenna st;
     last_rx_antenna := last_rx_antenna st;
     received_seq_no_last := received_seq_no_last st;
     received_ack_last := received_ack_last st;
     last_rx_rssi1 := last_rx_rssi1 st; last_rx_snr1 := last_rx_snr1 st;
     last_rx_rssi2 := last_rx_rssi2 st; last_rx_snr2 := last_rx_snr2 st;
     received_antenna := received_antenna st;
     received_transmit_antenna := received_transmit_antenna st;
     received_rssi := received_rssi st; received_LQ := received_LQ st;
     received_LQ_serial_data := v |}.

(** Modelled from the spec: the FHSS sequencer of [fhss.h], with state
    [(num, table, curr_i)]; [hop_to_next()] advances
    [curr_i = (curr_i+1) mod num], [start_tx()] positions at index 0 and
    [get_current_freq()] returns the table entry at [curr_i]. *)
Module Fhss.
Record t := mk {
  num : Z;
  table : list Z;
  curr_i : Z
}.

(** [init(num, seed)]: the table is the permutation the sequencer derives
    from the seed, passed here as [tbl]. *)
Definition Init (n : Z) (tbl : list Z) (f : t) : t :=
  {| num := n; table := tbl; curr_i := curr_i f |}.

Definition StartTx (f : t) : t :=
  {| num := num f; table := table f; curr_i := 0 |}.

Definition HopToNext (f : t) : t :=
  {| num := num f; table := table f; curr_i := (curr_i f + 1) mod num f |}.

Definition GetCurrFreq (f : t) : Z := table f !!! Z.to_nat (curr_i f).
End Fhss.

(** The commands of the handset bridge that the loop dispatches on, by the
    names the unit uses; any other command is [MBRIDGE_CMD_other]. *)
Inductive MBRIDGE_CMD_ENUM :=
  | MBRIDGE_CMD_DEVICE_REQUEST_ITEMS
  | MBRIDGE_CMD_PARAM_REQUEST_LIST
  | MBRIDGE_CMD_REQUEST_CMD
  | MBRIDGE_CMD_PARAM_SET
  | MBRIDGE_CMD_PARAM_STORE
  | MBRIDGE_CMD_other.

(** ** Interfaces to what lies outside the unit *)

(** Constants, macros and compile-time switches taken from the common
    headers. *)
Class Build := {
  USE_ANTENNA1 : bool;
  USE_ANTENNA2 : bool;
  USE_MBRIDGE : bool;
  DEVICE_HAS_IN : bool;
  USE_CRSF : bool;
  CONNECT_SYNC_CNT : Z;
  CONNECT_TMO_SYSTICKS : Z;
  SX12xx_IRQ_ALL : Z;
  SX12xx_IRQ_RX_DONE : Z;
  SX12xx_IRQ_TX_DONE : Z;
  SX12xx_IRQ_TIMEOUT : Z;
  FRAME_TX_PAYLOAD_LEN : nat;
  FRAME_TX_RX_LEN : Z;
  SEND_FRAME_TMO : Z;
  FRAME_TYPE_RX : Z;
  FRAME_CMD_RX_SETUPDATA : Z;
  FRAME_CMD_RX_ACK : Z;
  FRAME_CMD_GET_RX_SETUPDATA : Z;
  FRAME_CMD_STORE_RX_PARAMS : Z;
  CHECK_OK : Z;
  CHECK_ERROR_SYNCWORD : Z;
  (** [DECc(x, period)]: the new value of the down-counter [x]. *)
  DECc : Z → Z → Z;
  SYSTICK_DELAY_MS : Z → Z
}.

(** The collaborating objects: modem driver ([sx], [sx2]), the serial port
    behind [serialport], the MAVLink handler, the tx statistics, the
    counters inside [stats], and the frame checks. Each object is a state of
    an abstract type; a method maps the state to the new state and, when it
    returns something, to the returned value. *)
Class Collab := {
  Sx : Type;
  sx_GetAndClearIrqStatus : Z → Sx → Z * Sx;
  sx_ReadBuffer : Z → Z → Sx → list Z * Sx;
  sx_SetRfFrequency : Z → Sx → Sx;
  sx_SendFrame : tTxFrame → Z → Z → Sx → Sx;
  sx_SetToRx : Z → Sx → Sx;
  sx_ReadFrame : Z → Sx → tRxFrame * Sx;
  sx_GetPacketStatus : Sx → (Z * Z) * Sx;
  sx_isOk : Sx → bool;
  sx_StartUp : Sx → Sx;
  Serial : Type;
  serial_available : Serial → bool;
  serial_getc : Serial → Z * Serial;
  serial_putc : Z → Serial → Serial;
  Mavlink : Type;
  mavlink_available : Mavlink → bool;
  mavlink_getc : Mavlink → Z * Mavlink;
  mavlink_putc : Z → Mavlink → Mavlink;
  mavlink_flush : Mavlink → Mavlink;
  mavlink_Do : Mavlink → Mavlink;
  mavlink_Init : Mavlink → Mavlink;
  TxStats : Type;
  txstats_Init : Z → TxStats → TxStats;
  txstats_doValidFrameReceived : TxStats → TxStats;
  txstats_doFrameReceived : TxStats → TxStats;
  txstats_Update1Hz : TxStats → TxStats;
  txstats_Next : TxStats → TxStats;
  txstats_GetLQ : TxStats → Z;
  txstats_GetLQ_serial_data : TxStats → Z;
  txstats_set_fhss_curr_i : Z → TxStats → TxStats;
  txstats_set_rx1_valid : bool → TxStats → TxStats;
  txstats_set_rx2_valid : bool → TxStats → TxStats;
  StatsCounters : Type;
  bytes_transmitted_Add : Z → StatsCounters → StatsCounters;
  fresh_serial_data_transmitted_Inc : StatsCounters → StatsCounters;
  bytes_received_Add : Z → StatsCounters → StatsCounters;
  fresh_serial_data_received_Inc : StatsCounters → StatsCounters;
  stats_Clear : tStats * StatsCounters → tStats * StatsCounters;
  stats_GetLastRxRssi : tStats → Z;
  check_rx_frame : tRxFrame → Z;
  rssi_i8_from_u7 : Z → Z;
  fhss_generate : Z → Z → list Z;
  unpack_rxcmd_rxsetupdata_frame : tRxFrame → tSetup → tSetup
}.

(** ** The state of the unit *)

Section Tx.
Context {B : Build} {C : Collab}.

Record tSched := mkSched {
  doSysTask : bool;
  led_blink : Z;
  tick_1hz : Z;
  tx_tick : Z;
  tick_1hz_commensurate : Z;
  doPreTransmit : bool
}.

Definition set_doSysTask (v : bool) (c : tSched) : tSched :=
  {| doSysTask := v; led_blink := led_blink c; tick_1hz := tick_1hz c;
     tx_tick := tx_tick c; tick_1hz_commensurate := tick_1hz_commensurate c;
     doPreTransmit := doPreTransmit c |}.
Definition set_led_blink (v : Z) (c : tSched) : tSched :=
  {| doSysTask := doSysTask c; led_blink := v; tick_1hz := tick_1hz c;
     tx_tick := tx_tick c; tick_1hz_commensurate := tick_1hz_commensurate c;
     doPreTransmit := doPreTransmit c |}.
Definition set_tick_1hz (v : Z) (c : tSched) : tSched :=
  {| doSysTask := doSysTask c; led_blink := led_blink c; tick_1hz := v;
     tx_tick := tx_tick c; tick_1hz_commensurate := tick_1hz_commensurate c;
     doPreTransmit := doPreTransmit c |}.
Definition set_tx_tick (v : Z) (c : tSched) : tSched :=
  {| doSysTask := doSysTask c; led_blink := led_blink c;
     tick_1hz := tick_1hz c; tx_tick := v;
     tick_1hz_commensurate := tick_1hz_commensurate c;
     doPreTransmit := doPreTransmit c |}.
Definition set_tick_1hz_commensurate (v : Z) (c : tSched) : tSched :=
  {| doSysTask := doSysTask c; led_blink := led_blink c;
     tick_1hz := tick_1hz c; tx_tick := tx_tick c;
     tick_1hz_commensurate := v; doPreTransmit := doPreTransmit c |}.
Definition set_doPreTransmit (v : bool) (c : tSched) : tSched :=
  {| doSysTask := doSysTask c; led_blink := led_blink c;
     tick_1hz := tick_1hz c; tx_tick := tx_tick c;
     tick_1hz_commensurate := tick_1hz_commensurate c; doPreTransmit := v |}.

Record tLink := mkLink {
  link_state : LINK_STATE_ENUM;
  link_rx1_status : Z;
  link_rx2_status : Z;
  irq_status : Z;
  irq2_status : Z
}.

Definition set_link_state (v : LINK_STATE_ENUM) (l : tLink) : tLink :=
  {| link_state := v; link_rx1_status := link_rx1_status l;
     link_rx2_status := link_rx2_status l; irq_status := irq_status l;
     irq2_status := irq2_status l |}.
Definition set_link_rx1_status (v : Z) (l : tLink) : tLink :=
  {| link_state := link_state l; link_rx1_status := v;
     link_rx2_status := link_rx2_status l; irq_status := irq_status l;
     irq2_status := irq2_status l |}.
Definition set_link_rx2_status (v : Z) (l : tLink) : tLink :=
  {| link_state := link_state l; link_rx1_status := link_rx1_status l;
     link_rx2_status := v; irq_status := irq_status l;
     irq2_status := irq2_status l |}.
Definition set_irq_status (v : Z) (l : tLink) : tLink :=
  {| link_state := link_state l; link_rx1_status := link_rx1_status l;
     link_rx2_status := link_rx2_status l; irq_status := v;
     irq2_status := irq2_status l |}.
Definition set_irq2_status (v : Z) (l : tLink) : tLink :=
  {| link_state := link_state l; link_rx1_status := link_rx1_status l;
     link_rx2_status := link_rx2_status l; irq_status := irq_status l;
     irq2_status := v |}.

Record tConnect := mkConnect {
  connect_state : CONNECT_STATE_ENUM;
  connect_tmo_cnt : Z;
  connect_sync_cnt : Z
}.

Definition set_connect_state (v : CONNECT_STATE_ENUM) (c : tConnect) : tConnect :=
  {| connect_state := v; connect_tmo_cnt := connect_tmo_cnt c;
     connect_sync_cnt := connect_sync_cnt c |}.
Definition set_connect_tmo_cnt (v : Z) (c : tConnect) : tConnect :=
  {| connect_state := connect_state c; connect_tmo_cnt := v;
     connect_sync_cnt := connect_sync_cnt c |}.
Definition set_connect_sync_cnt (v : Z) (c : tConnect) : tConnect :=
  {| connect_state := connect_state c; connect_tmo_cnt := connect_tmo_cnt c;
     connect_sync_cnt := v |}.

Record tFrames := mkFrames {
  transmit_frame_type : TRANSMIT_FRAME_TYPE_ENUM;
  setup_rx_param_changed : bool;
  payload : list Z;
  payload_len : Z;
  txFrame : tTxFrame;
  rxFrame : tRxFrame;
  rxFrame2 : tRxFrame
}.

Definition set_transmit_frame_type (v : TRANSMIT_FRAME_TYPE_ENUM) (f : tFrames) : tFrames :=
  {| transmit_frame_type := v;
     setup_rx_param_changed := setup_rx_param_changed f;
     payload := payload f; payload_len := payload_len f;
     txFrame := txFrame f; rxFrame := rxFrame f; rxFrame2 := rxFrame2 f |}.
Definition set_setup_rx_param_changed (v : bool) (f : tFrames) : tFrames :=
  {| transmit_frame_type := transmit_frame_type f;
     setup_rx_param_changed := v; payload := payload f;
     payload_len := payload_len f; txFrame := txFrame f;
     rxFrame := rxFrame f; rxFrame2 := rxFrame2 f |}.
Definition set_payload (v : list Z) (f : tFrames) : tFrames :=
  {| transmit_frame_type := transmit_frame_type f;
     setup_rx_param_changed := setup_rx_param_changed f; payload := v;
     payload_len := payload_len f; txFrame := txFrame f;
     rxFrame := rxFrame f; rxFrame2 := rxFrame2 f |}.
Definition set_payload_len (v : Z) (f : tFrames) : tFrames :=
  {| transmit_frame_type := transmit_frame_type f;
     setup_rx_param_changed := setup_rx_param_changed f;
     payload := payload f; payload_len := v; txFrame := txFrame f;
     rxFrame := rxFrame f; rxFrame2 := rxFrame2 f |}.
Definition set_txFrame (v : tTxFrame) (f : tFrames) : tFrames :=
  {| transmit_frame_type := transmit_frame_type f;
     setup_rx_param_changed := setup_rx_param_changed f;
     payload := payload f; payload_len := payload_len f; txFrame := v;
     rxFrame := rxFrame f; rxFrame2 := rxFrame2 f |}.
Definition set_rxFrame (v : tRxFrame) (f : tFrames) : tFrames :=
  {| transmit_frame_type := transmit_frame_type f;
     setup_rx_param_changed := setup_rx_param_changed f;
     payload := payload f; payload_len := payload_len f;
     txFrame := txFrame f; rxFrame := v; rxFrame2 := rxFrame2 f |}.
Definition set_rxFrame2 (v : tRxFrame) (f : tFrames) : tFrames :=
  {| transmit_frame_type := transmit_frame_type f;
     setup_rx_param_changed := setup_rx_param_changed f;
     payload := payload f; payload_len := payload_len f;
     txFrame := txFrame f; rxFrame := rxFrame f; rxFrame2 := v |}.

Record tDevices := mkDevices {
  sx : Sx;
  sx2 : Sx;
  serialport : option Serial;
  mavlink : Mavlink;
  txstats : TxStats;
  stats_counters : StatsCounters
}.

Definition set_sx (v : Sx) (d : tDevices) : tDevices :=
  {| sx := v; sx2 := sx2 d; serialport := serialport d; mavlink := mavlink d;
     txstats := txstats d; stats_counters := stats_counters d |}.
Definition set_sx2 (v : Sx) (d : tDevices) : tDevices :=
  {| sx := sx d; sx2 := v; serialport := serialport d; mavlink := mavlink d;
     txstats := txstats d; stats_counters := stats_counters d |}.
Definition set_serialport (v : option Serial) (d : tDevices) : tDevices :=
  {| sx := sx d; sx2 := sx2 d; serialport := v; mavlink := mavlink d;
     txstats := txstats d; stats_counters := stats_counters d |}.
Definition set_mavlink (v : Mavlink) (d : tDevices) : tDevices :=
  {| sx := sx d; sx2 := sx2 d; serialport := serialport d; mavlink := v;
     txstats := txstats d; stats_counters := stats_counters d |}.
Definition set_txstats (v : TxStats) (d : tDevices) : tDevices :=
  {| sx := sx d; sx2 := sx2 d; serialport := serialport d;
     mavlink := mavlink d; txstats := v; stats_counters := stats_counters d |}.
Definition set_stats_counters (v : StatsCounters) (d : tDevices) : tDevices :=
  {| sx := sx d; sx2 := sx2 d; serialport := serialport d;
     mavlink := mavlink d; txstats := txstats d; stats_counters := v |}.

Record tTx := mkTx {
  sched : tSched;
  link : tLink;
  conn : tConnect;
  frames : tFrames;
  stats : tStats;
  fhss : Fhss.t;
  whileTransmit : WhileTransmit.t;
  channelOrder : ChannelOrder.t;
  rcData : tRcData;
  dbg : list string;
  dev : tDevices;
  Setup : tSetup;
  Config : tConfig
}.

Definition set_sched (v : tSched) (s : tTx) : tTx :=
  {| sched := v; link := link s; conn := conn s; frames := frames s;
     stats := stats s; fhss := fhss s; whileTransmit := whileTransmit s;
     channelOrder := channelOrder s; rcData := rcData s; dbg := dbg s;
     dev := dev s; Setup := Setup s; Config := Config s |}.
Definition set_link (v : tLink) (s : tTx) : tTx :=
  {| sched := sched s; link := v; conn := conn s; frames := frames s;
     stats := stats s; fhss := fhss s; whileTransmit := whileTransmit s;
     channelOrder := channelOrder s; rcData := rcData s; dbg := dbg s;
     dev := dev s; Setup := Setup s; Config := Config s |}.
Definition set_conn (v : tConnect) (s : tTx) : tTx :=
  {| sched := sched s; link := link s; conn := v; frames := frames s;
     stats := stats s; fhss := fhss s; whileTransmit := whileTransmit s;
     channelOrder := channelOrder s; rcData := rcData s; dbg := dbg s;
     dev := dev s; Setup := Setup s; Config := Config s |}.
Definition set_frames (v : tFrames) (s : tTx) : tTx :=
  {| sched := sched s; link := link s; conn := conn s; frames := v;
     stats := stats s; fhss := fhss s; whileTransmit := whileTransmit s;
     channelOrder := channelOrder s; rcData := rcData s; dbg := dbg s;
     dev := dev s; Setup := Setup s; Config := Config s |}.
Definition set_stats (v : tStats) (s : tTx) : tTx :=
  {| sched := sched s; link := link s; conn := conn s; frames := frames s;
     stats := v; fhss := fhss s; whileTransmit := whileTransmit s;
     channelOrder := channelOrder s; rcData := rcData s; dbg := dbg s;
     dev := dev s; Setup := Setup s; Config := Config s |}.
Definition set_fhss (v : Fhss.t) (s : tTx) : tTx :=
  {| sched := sched s; link := link s; conn := conn s; frames := frames s;
     stats := stats s; fhss := v; whileTransmit := whileTransmit s;
     channelOrder := channelOrder s; rcData := rcData s; dbg := dbg s;
     dev := dev s; Setup := Setup s; Config := Config s |}.
Definition set_whileTransmit (v : WhileTransmit.t) (s : tTx) : tTx :=
  {| sched := sched s; link := link s; conn := conn s; frames := frames s;
     stats := stats s; fhss := fhss s; whileTransmit := v;
     channelOrder := channelOrder s; rcData := rcData s; dbg := dbg s;
     dev := dev s; Setup := Setup s; Config := Config s |}.
Definition set_channelOrder (v : ChannelOrder.t) (s : tTx) : tTx :=
  {| sched := sched s; link := link s; conn := conn s; frames := frames s;
     stats := stats s; fhss := fhss s; whileTransmit := whileTransmit s;
     channelOrder := v; rcData := rcData s; dbg := dbg s; dev := dev s;
     Setup := Setup s; Config := Config s |}.
Definition set_rcData (v : tRcData) (s : tTx) : tTx :=
  {| sched := sched s; link := link s; conn := conn s; frames := frames s;
     stats := stats s; fhss := fhss s; whileTransmit := whileTransmit s;
     channelOrder := channelOrder s; rcData := v; dbg := dbg s; dev := dev s;
     Setup := Setup s; Config := Config s |}.
Definition set_dbg (v : list string) (s : tTx) : tTx :=
  {| sched := sched s; link := link s; conn := conn s; frames := frames s;
     stats := stats s; fhss := fhss s; whileTransmit := whileTransmit s;
     channelOrder := channelOrder s; rcData := rcData s; dbg := v;
     dev := dev s; Setup := Setup s; Config := Config s |}.
Definition set_dev (v : tDevices) (s : tTx) : tTx :=
  {| sched := sched s; link := link s; conn := conn s; frames := frames s;
     stats := stats s; fhss := fhss s; whileTransmit := whileTransmit s;
     channelOrder := channelOrder s; rcData := rcData s; dbg := dbg s;
     dev := v; Setup := Setup s; Config := Config s |}.
Definition set_Setup (v : tSetup) (s : tTx) : tTx :=
  {| sched := sched s; link := link s; conn := conn s; frames := frames s;
     stats := stats s; fhss := fhss s; whileTransmit := whileTransmit s;
     channelOrder := channelOrder s; rcData := rcData s; dbg := dbg s;
     dev := dev s; Setup := v; Config := Config s |}.
Definition set_Config (v : tConfig) (s : tTx) : tTx :=
  {| sched := sched s; link := link s; conn := conn s; frames := frames s;
     stats := stats s; fhss := fhss s; whileTransmit := whileTransmit s;
     channelOrder := channelOrder s; rcData := rcData s; dbg := dbg s;
     dev := dev s; Setup := Setup s; Config := v |}.

(** A field group updated in place. *)
Definition upd_sched (f : tSched → tSched) (s : tTx) : tTx := set_sched (f (sched s)) s.
Definition upd_link (f : tLink → tLink) (s : tTx) : tTx := set_link (f (link s)) s.
Definition upd_conn (f : tConnect → tConnect) (s : tTx) : tTx := set_conn (f (conn s)) s.
Definition upd_frames (f : tFrames → tFrames) (s : tTx) : tTx := set_frames (f (frames s)) s.
Definition upd_stats (f : tStats → tStats) (s : tTx) : tTx := set_stats (f (stats s)) s.
Definition upd_dev (f : tDevices → tDevices) (s : tTx) : tTx := set_dev (f (dev s)) s.

(** The modem object of an antenna, its IRQ slot and its rx status. *)
Definition sx_of (a : ANTENNA_ENUM) (s : tTx) : Sx :=
  match a with ANTENNA_1 => sx (dev s) | ANTENNA_2 => sx2 (dev s) end.

Definition set_sx_of (a : ANTENNA_ENUM) (v : Sx) (s : tTx) : tTx :=
  match a with
  | ANTENNA_1 => upd_dev (set_sx v) s
  | ANTENNA_2 => upd_dev (set_sx2 v) s
  end.

Definition irq_of (a : ANTENNA_ENUM) (s : tTx) : Z :=
  match a with ANTENNA_1 => irq_status (link s) | ANTENNA_2 => irq2_status (link s) end.

Definition set_irq_of (a : ANTENNA_ENUM) (v : Z) (s : tTx) : tTx :=
  match a with
  | ANTENNA_1 => upd_link (set_irq_status v) s
  | ANTENNA_2 => upd_link (set_irq2_status v) s
  end.

Definition link_rx_status_of (a : ANTENNA_ENUM) (s : tTx) : Z :=
  match a with
  | ANTENNA_1 => link_rx1_status (link s)
  | ANTENNA_2 => link_rx2_status (link s)
  end.

Definition set_link_rx_status_of (a : ANTENNA_ENUM) (v : Z) (s : tTx) : tTx :=
  match a with
  | ANTENNA_1 => upd_link (set_link_rx1_status v) s
  | ANTENNA_2 => upd_link (set_link_rx2_status v) s
  end.

(** ** SX12xx: the DIO interrupt handlers *)

(** A [uint16_t] read from two buffer bytes through a byte pointer, low byte
    first. *)
Definition u16_of_bytes (b : list Z) : Z :=
  wrap8 (b !!! 0%nat) + 256 * wrap8 (b !!! 1%nat).

(** [SX_DIO_EXTI_IRQHandler] for [ANTENNA_1], [SX2_DIO_EXTI_IRQHandler] for
    [ANTENNA_2]: the two handlers differ in the modem object and the slot
    only. Clearing the EXTI line flag acts on the interrupt controller and
    has no counterpart in the state. *)
Definition DIO_EXTI_IRQHandler (a : ANTENNA_ENUM) (s : tTx) : tTx :=
  let r := sx_GetAndClearIrqStatus SX12xx_IRQ_ALL (sx_of a s) in
  let s := set_sx_of a r.2 s in
  let s := set_irq_of a (wrap16 r.1) s in
  if nonzero (Z.land (irq_of a s) SX12xx_IRQ_RX_DONE) then
    let b := sx_ReadBuffer 0 2 (sx_of a s) in
    let s := set_sx_of a b.2 s in
    let sync_word := u16_of_bytes b.1 in
    if negb (sync_word =? FrameSyncWord (Config s))
    then set_irq_of a 0 s (* not for us, so ignore it *)
    else s
  else s.

Definition SX_DIO_EXTI_IRQHandler : tTx → tTx := DIO_EXTI_IRQHandler ANTENNA_1.
Definition SX2_DIO_EXTI_IRQHandler : tTx → tTx := DIO_EXTI_IRQHandler ANTENNA_2.

(** ** Connection state *)

Definition connected (s : tTx) : bool :=
  bool_decide (connect_state (conn s) = CONNECT_STATE_CONNECTED).

(** The part of the SysTask block that concerns the connection. *)
Definition connect_tick (c : tConnect) : tConnect :=
  if nonzero (connect_tmo_cnt c)
  then set_connect_tmo_cnt (wrap16 (connect_tmo_cnt c - 1)) c
  else c.

(** The connection part of the pre-transmit block. *)
Definition connect_update (valid_frame_received : bool) (c : tConnect) : tConnect :=
  let c :=
    if valid_frame_received then
      let c :=
        match connect_state c with
        | CONNECT_STATE_LISTEN =>
            set_connect_sync_cnt 0 (set_connect_state CONNECT_STATE_SYNC c)
        | CONNECT_STATE_SYNC =>
            let c := set_connect_sync_cnt (wrap8 (connect_sync_cnt c + 1)) c in
            if CONNECT_SYNC_CNT <=? connect_sync_cnt c
            then set_connect_state CONNECT_STATE_CONNECTED c
            else c
        | CONNECT_STATE_CONNECTED =>
            set_connect_state CONNECT_STATE_CONNECTED c
        end in
      set_connect_tmo_cnt (wrap16 CONNECT_TMO_SYSTICKS) c
    else c in
  let c :=
    if bool_decide (connect_state c = CONNECT_STATE_CONNECTED)
       && negb (nonzero (connect_tmo_cnt c))
    then set_connect_state CONNECT_STATE_LISTEN c
    else c in
  (* we didn't receive a valid frame *)
  if bool_decide (connect_state c = CONNECT_STATE_CONNECTED)
     && negb valid_frame_received
  then set_connect_sync_cnt 0 c
  else c.

(** A run of the connection state machine: system ticks and pre-transmit
    steps in any order. *)
Inductive tConnectEvent :=
  | SysTick
  | PreTransmit (valid_frame_received : bool).

Definition connect_step (c : tConnect) (e : tConnectEvent) : tConnect :=
  match e with
  | SysTick => connect_tick c
  | PreTransmit v => connect_update v c
  end.

Definition connect_run (evs : list tConnectEvent) (c : tConnect) : tConnect :=
  foldl connect_step c evs.

Definition is_pre_transmit (e : tConnectEvent) : bool :=
  match e with PreTransmit _ => true | SysTick => false end.

Definition is_invalid_or_tick (e : tConnectEvent) : bool :=
  match e with PreTransmit v => negb v | SysTick => true end.

Definition is_valid_or_tick (e : tConnectEvent) : bool :=
  match e with PreTransmit v => v | SysTick => true end.

Definition is_tick (e : tConnectEvent) : bool :=
  match e with SysTick => true | PreTransmit _ => false end.

Fixpoint count_if {A} (p : A → bool) (l : list A) : nat :=
  match l with
  | [] => 0
  | x :: l => (if p x then 1 else 0) + count_if p l
  end.

(** Valid pre-transmit steps still missing until [Connected]. *)
Definition valid_frames_needed (c : tConnect) : Z :=
  match connect_state c with
  | CONNECT_STATE_LISTEN => CONNECT_SYNC_CNT + 1
  | CONNECT_STATE_SYNC => CONNECT_SYNC_CNT - connect_sync_cnt c
  | CONNECT_STATE_CONNECTED => 0
  end.

(** In [Sync] the counter is below the threshold. *)
Definition connect_inv (c : tConnect) : Prop :=
  connect_state c = CONNECT_STATE_SYNC →
  0 ≤ connect_sync_cnt c < CONNECT_SYNC_CNT.

(** ** Tx/Rx cmd frame handling *)

Definition process_received_cmd_rx_frame (frame : tRxFrame) (s : tTx) : tTx :=
  let cmd := rx_payload frame !!! 0%nat in
  if cmd =? FRAME_CMD_RX_SETUPDATA then
    (* got rx setup data *)
    let s := set_Setup (unpack_rxcmd_rxsetupdata_frame frame (Setup s)) s in
    upd_frames (set_transmit_frame_type TRANSMIT_FRAME_TYPE_NORMAL) s
  else if cmd =? FRAME_CMD_RX_ACK then
    (* got rx ack *)
    upd_frames (set_transmit_frame_type TRANSMIT_FRAME_TYPE_NORMAL) s
  else s.

Definition pack_tx_cmd_frame (frame_stats : FrameStats.t) (s : tTx) : tTx :=
  match transmit_frame_type (frames s) with
  | TRANSMIT_FRAME_TYPE_CMD_GET_RX_SETUPDATA =>
      upd_frames (set_txFrame
        (pack_txcmd_cmd_frame frame_stats (rcData s) FRAME_CMD_GET_RX_SETUPDATA)) s
  | TRANSMIT_FRAME_TYPE_CMD_SET_RX_PARAMS =>
      upd_frames (set_txFrame
        (pack_txcmd_set_rxparams_frame frame_stats (rcData s))) s
  | TRANSMIT_FRAME_TYPE_CMD_STORE_RX_PARAMS =>
      upd_frames (set_txFrame
        (pack_txcmd_cmd_frame frame_stats (rcData s) FRAME_CMD_STORE_RX_PARAMS)) s
  | TRANSMIT_FRAME_TYPE_NORMAL => s
  end.

(** ** Normal Tx, Rx frames handling *)

(** The [for] loop of [process_transmit_frame] with [n] rounds left: one
    byte per round from the MAVLink handler or from the serial port, until
    the source has none. It runs under [if (serialport)]. *)
Fixpoint read_serial_payload (n : nat) (s : tTx) : tTx :=
  match n with
  | O => s
  | S n =>
      match Rx_SerialLinkMode (Setup s) with
      | SERIAL_LINK_MODE_MAVLINK =>
          if negb (mavlink_available (mavlink (dev s))) then s
          else
            let r := mavlink_getc (mavlink (dev s)) in
            let s := upd_dev (set_mavlink r.2) s in
            let s := upd_frames (λ f, set_payload
                       (<[Z.to_nat (payload_len f) := wrap8 r.1]> (payload f)) f) s in
            let s := upd_frames (λ f, set_payload_len (wrap8 (payload_len f + 1)) f) s in
            read_serial_payload n s
      | SERIAL_LINK_MODE_TRANSPARENT =>
          match serialport (dev s) with
          | None => s
          | Some sp =>
              if negb (serial_available sp) then s
              else
                let r := serial_getc sp in
                let s := upd_dev (set_serialport (Some r.2)) s in
                let s := upd_frames (λ f, set_payload
                           (<[Z.to_nat (payload_len f) := wrap8 r.1]> (payload f)) f) s in
                let s := upd_frames (λ f, set_payload_len (wrap8 (payload_len f + 1)) f) s in
                read_serial_payload n s
          end
      end
  end.

(** The first statement of [process_transmit_frame]: a pending parameter
    change takes the slot when it is free. *)
Definition latch_set_rx_params (s : tTx) : tTx :=
  if setup_rx_param_changed (frames s)
     && bool_decide (transmit_frame_type (frames s) = TRANSMIT_FRAME_TYPE_NORMAL)
  then
    let s := upd_frames (set_setup_rx_param_changed false) s in
    upd_frames (set_transmit_frame_type TRANSMIT_FRAME_TYPE_CMD_SET_RX_PARAMS) s
  else s.

(** The second statement: the serial payload of a normal frame. *)
Definition collect_payload (s : tTx) : tTx :=
  if bool_decide (transmit_frame_type (frames s) = TRANSMIT_FRAME_TYPE_NORMAL) then
    let s := upd_frames (set_payload (replicate FRAME_TX_PAYLOAD_LEN 0)) s in
    let s := upd_frames (set_payload_len 0) s in
    (* read data from serial port *)
    if connected s then
      let s :=
        match serialport (dev s) with
        | Some _ => read_serial_payload FRAME_TX_PAYLOAD_LEN s
        | None => s
        end in
      let s := upd_dev (λ d, set_stats_counters
                 (bytes_transmitted_Add (payload_len (frames s)) (stats_counters d)) d) s in
      upd_dev (λ d, set_stats_counters
                 (fresh_serial_data_transmitted_Inc (stats_counters d)) d) s
    else
      match serialport (dev s) with
      | Some _ => upd_dev (λ d, set_mavlink (mavlink_flush (mavlink d)) d) s
      | None => s
      end
  else s.

(** The rest of the function: the frame is given its stats, packed and
    handed to the modem of the transmit antenna. *)
Definition pack_and_send_frame (antenna : ANTENNA_ENUM) (ack : Z) (s : tTx) : tTx :=
  let s := upd_stats (set_last_tx_antenna antenna) s in
  let frame_stats :=
    {| FrameStats.seq_no := transmit_seq_no (stats s);
       FrameStats.ack := ack;
       FrameStats.antenna := last_rx_antenna (stats s);
       FrameStats.transmit_antenna := antenna;
       FrameStats.rssi := stats_GetLastRxRssi (stats s);
       FrameStats.LQ := txstats_GetLQ (txstats (dev s));
       FrameStats.LQ_serial_data := txstats_GetLQ_serial_data (txstats (dev s)) |} in
  let s :=
    if bool_decide (transmit_frame_type (frames s) = TRANSMIT_FRAME_TYPE_NORMAL)
    then upd_frames (λ f, set_txFrame
           (pack_tx_frame frame_stats (rcData s) (payload f) (payload_len f)) f) s
    else pack_tx_cmd_frame frame_stats s in
  set_sx_of antenna
    (sx_SendFrame (txFrame (frames s)) FRAME_TX_RX_LEN SEND_FRAME_TMO (sx_of antenna s)) s.

Definition process_transmit_frame (antenna : ANTENNA_ENUM) (ack : Z) (s : tTx) : tTx :=
  let s := latch_set_rx_params s in
  let s := collect_payload s in
  pack_and_send_frame antenna ack s.

(** One received payload byte put to the serial side. *)
Definition put_serial_byte (s : tTx) (c : Z) : tTx :=
  match Tx_SerialLinkMode (Setup s) with
  | SERIAL_LINK_MODE_MAVLINK =>
      upd_dev (λ d, set_mavlink (mavlink_putc c (mavlink d)) d) s
  | SERIAL_LINK_MODE_TRANSPARENT =>
      upd_dev (λ d, set_serialport (serial_putc c <$> serialport d) d) s
  end.

Definition process_received_frame (do_payload : bool) (frame : tRxFrame) (s : tTx) : tTx :=
  let st := status frame in
  let s := upd_stats (set_received_antenna (FrameStatus.antenna st)) s in
  let s := upd_stats (set_received_transmit_antenna (FrameStatus.transmit_antenna st)) s in
  let s := upd_stats (set_received_rssi (rssi_i8_from_u7 (FrameStatus.rssi_u7 st))) s in
  let s := upd_stats (set_received_LQ (FrameStatus.LQ st)) s in
  let s := upd_stats (set_received_LQ_serial_data (FrameStatus.LQ_serial_data st)) s in
  if negb do_payload then s
  else if negb (FrameStatus.frame_type st =? FRAME_TYPE_RX) then
    process_received_cmd_rx_frame frame s
  else
    (* output data on serial *)
    let s :=
      match serialport (dev s) with
      | Some _ =>
          foldl put_serial_byte s
            ((λ i, rx_payload frame !!! i) <$> seq 0 (Z.to_nat (FrameStatus.payload_len st)))
      | None => s
      end in
    let s := upd_dev (λ d, set_stats_counters
               (bytes_received_Add (FrameStatus.payload_len st) (stats_counters d)) d) s in
    upd_dev (λ d, set_stats_counters
               (fresh_serial_data_received_Inc (stats_counters d)) d) s.

(** The receive buffer of an antenna: [rxFrame] or [rxFrame2]. *)
Definition rxFrame_of (a : ANTENNA_ENUM) (s : tTx) : tRxFrame :=
  match a with
  | ANTENNA_1 => rxFrame (frames s)
  | ANTENNA_2 => rxFrame2 (frames s)
  end.

Definition handle_receive (antenna : ANTENNA_ENUM) (s : tTx) : tTx :=
  let rx_status := link_rx_status_of antenna s in
  let frame := rxFrame_of antenna s in
  let s :=
    if negb (rx_status =? RX_STATUS_INVALID) then
      let do_payload := true in
      let s := process_received_frame do_payload frame s in
      let s := upd_dev (λ d, set_txstats (txstats_doValidFrameReceived (txstats d)) d) s in
      let s := upd_stats (set_received_seq_no_last (FrameStatus.seq_no (status frame))) s in
      upd_stats (set_received_ack_last (FrameStatus.ack (status frame))) s
    else
      let s := upd_stats (set_received_seq_no_last UINT8_MAX) s in
      upd_stats (set_received_ack_last 0) s in
  (* we set it for all received frames *)
  let s := upd_stats (set_last_rx_antenna antenna) s in
  (* we count all received frames *)
  upd_dev (λ d, set_txstats (txstats_doFrameReceived (txstats d)) d) s.

Definition handle_receive_none (s : tTx) : tTx :=
  let s := upd_stats (set_received_seq_no_last UINT8_MAX) s in
  upd_stats (set_received_ack_last 0) s.

Definition do_transmit (antenna : ANTENNA_ENUM) (s : tTx) : tTx :=
  let ack := 1 in
  let s := upd_stats (λ st, set_transmit_seq_no (wrap8 (transmit_seq_no st + 1)) st) s in
  process_transmit_frame antenna ack s.

Definition do_receive (antenna : ANTENNA_ENUM) (s : tTx) : Z * tTx :=
  let rx_status := RX_STATUS_INVALID in
  let r := sx_ReadFrame FRAME_TX_RX_LEN (sx_of antenna s) in
  let s := set_sx_of antenna r.2 s in
  let s :=
    match antenna with
    | ANTENNA_1 => upd_frames (set_rxFrame r.1) s
    | ANTENNA_2 => upd_frames (set_rxFrame2 r.1) s
    end in
  let res := check_rx_frame r.1 in
  if res =? CHECK_ERROR_SYNCWORD then (0, s) (* return false *)
  else
    let rx_status := if res =? CHECK_OK then RX_STATUS_VALID else rx_status in
    (* we want to have it even if it's a bad packet *)
    let p := sx_GetPacketStatus (sx_of antenna s) in
    let s := set_sx_of antenna p.2 s in
    let s :=
      match antenna with
      | ANTENNA_1 => upd_stats (set_last_rx_snr1 p.1.2) (upd_stats (set_last_rx_rssi1 p.1.1) s)
      | ANTENNA_2 => upd_stats (set_last_rx_snr2 p.1.2) (upd_stats (set_last_rx_rssi2 p.1.1) s)
      end in
    (rx_status, s).

(** ** MAIN routine *)

(** The loop body either runs to its end or enters one of the
    blink-forever loops, which it never leaves. *)
Inductive Outcome :=
  | Running (s : tTx)
  | Halted (s : tTx).

Definition state_of (o : Outcome) : tTx :=
  match o with Running s | Halted s => s end.

Definition and_then (o : Outcome) (k : tTx → Outcome) : Outcome :=
  match o with
  | Running s => k s
  | Halted s => Halted s
  end.

Notation "'do' s ← o ; k" := (and_then o (λ s, k))
  (at level 10, s name, o at level 100, k at level 200).

(** *** SysTask handling (LED output left out) *)

Definition sys_task (s : tTx) : tTx :=
  if doSysTask (sched s) then
    let s := upd_sched (set_doSysTask false) s in
    let s := upd_conn connect_tick s in
    let s := upd_sched (λ c, set_led_blink
               (DECc (led_blink c)
                     (SYSTICK_DELAY_MS (if connected s then 500 else 200))) c) s in
    let s := upd_sched (λ c, set_tick_1hz
               (DECc (tick_1hz c) (SYSTICK_DELAY_MS 1000)) c) s in
    let s := upd_sched (λ c, set_tx_tick
               (DECc (tx_tick c) (SYSTICK_DELAY_MS (frame_rate_ms (Config s)))) c) s in
    if negb (nonzero (tx_tick (sched s)))
    then upd_sched (set_doPreTransmit true) s (* trigger next cycle *)
    else s
  else s.

(** *** SX handling *)

Definition link_state_transmit (s : tTx) : tTx :=
  let s := set_fhss (Fhss.HopToNext (fhss s)) s in
  let s := upd_dev (λ d, set_sx
             (sx_SetRfFrequency (Fhss.GetCurrFreq (fhss s)) (sx d)) d) s in
  let s := upd_dev (λ d, set_sx2
             (sx_SetRfFrequency (Fhss.GetCurrFreq (fhss s)) (sx2 d)) d) s in
  let s := do_transmit (if USE_ANTENNA1 then ANTENNA_1 else ANTENNA_2) s in
  let s := upd_link (set_link_state LINK_STATE_TRANSMIT_WAIT) s in
  let s := upd_link (set_irq_status 0) s in
  let s := upd_link (set_irq2_status 0) s in
  set_whileTransmit (WhileTransmit.Trigger (whileTransmit s)) s.

Definition link_state_receive (s : tTx) : tTx :=
  let s := if USE_ANTENNA1
           then upd_dev (λ d, set_sx (sx_SetToRx 0 (sx d)) d) s else s in
  let s := if USE_ANTENNA2
           then upd_dev (λ d, set_sx2 (sx_SetToRx 0 (sx2 d)) d) s else s in
  let s := upd_link (set_link_state LINK_STATE_RECEIVE_WAIT) s in
  let s := upd_link (set_irq_status 0) s in
  upd_link (set_irq2_status 0) s.

(** [switch (link_state)]. *)
Definition link_state_switch (s : tTx) : tTx :=
  match link_state (link s) with
  | LINK_STATE_IDLE | LINK_STATE_RECEIVE_DONE => s
  | LINK_STATE_TRANSMIT => link_state_transmit s
  | LINK_STATE_RECEIVE => link_state_receive s
  | LINK_STATE_TRANSMIT_WAIT | LINK_STATE_RECEIVE_WAIT => s
  end.

(** The [if (irq_status) { .. }] block for [ANTENNA_1] and the
    [if (irq2_status) { .. }] block for [ANTENNA_2], in its three parts: the
    completion of the awaited transfer, the timeout, and the causes left
    over, which end in a blink loop. *)
Definition irq_done_handling (a : ANTENNA_ENUM) (s : tTx) : tTx :=
  if bool_decide (link_state (link s) = LINK_STATE_TRANSMIT_WAIT) then
    if nonzero (Z.land (irq_of a s) SX12xx_IRQ_TX_DONE) then
      let s := set_irq_of a 0 s in
      upd_link (set_link_state LINK_STATE_RECEIVE) s
    else s
  else if bool_decide (link_state (link s) = LINK_STATE_RECEIVE_WAIT) then
    if nonzero (Z.land (irq_of a s) SX12xx_IRQ_RX_DONE) then
      let s := set_irq_of a 0 s in
      let r := do_receive a s in
      set_link_rx_status_of a r.1 r.2
    else s
  else s.

Definition irq_timeout_handling (a : ANTENNA_ENUM) (s : tTx) : tTx :=
  if nonzero (Z.land (irq_of a s) SX12xx_IRQ_TIMEOUT) then
    let s := set_irq_of a 0 s in
    let s := upd_link (set_link_state LINK_STATE_IDLE) s in
    let s := upd_link (set_link_rx1_status RX_STATUS_NONE) s in
    upd_link (set_link_rx2_status RX_STATUS_NONE) s
  else s.

Definition irq_unexpected (a : ANTENNA_ENUM) (s : tTx) : Outcome :=
  if nonzero (Z.land (irq_of a s) SX12xx_IRQ_RX_DONE) then Halted s
  else if nonzero (Z.land (irq_of a s) SX12xx_IRQ_TX_DONE) then Halted s
  else Running s.

Definition irq_block (a : ANTENNA_ENUM) (s : tTx) : Outcome :=
  if nonzero (irq_of a s) then
    let s := irq_done_handling a s in
    let s := irq_timeout_handling a s in
    irq_unexpected a s
  else Running s.

Definition sx_handling (s : tTx) : Outcome :=
  let s := link_state_switch s in
  do s ← (if USE_ANTENNA1 then irq_block ANTENNA_1 s else Running s);
  if USE_ANTENNA2 then irq_block ANTENNA_2 s else Running s.

(** *** Pre-transmit *)

Definition frame_received (s : tTx) : bool :=
  if USE_ANTENNA1 && USE_ANTENNA2 then
    (link_rx1_status (link s) >? RX_STATUS_NONE)
    || (link_rx2_status (link s) >? RX_STATUS_NONE)
  else if USE_ANTENNA1 then link_rx1_status (link s) >? RX_STATUS_NONE
  else if USE_ANTENNA2 then link_rx2_status (link s) >? RX_STATUS_NONE
  else false.

Definition valid_frame_received (s : tTx) : bool :=
  if USE_ANTENNA1 && USE_ANTENNA2 then
    (link_rx1_status (link s) >? RX_STATUS_INVALID)
    || (link_rx2_status (link s) >? RX_STATUS_INVALID)
  else if USE_ANTENNA1 then link_rx1_status (link s) >? RX_STATUS_INVALID
  else if USE_ANTENNA2 then link_rx2_status (link s) >? RX_STATUS_INVALID
  else false.

(** Work out which antenna we choose. *)
Definition select_antenna (s : tTx) : ANTENNA_ENUM :=
  let antenna := ANTENNA_1 in
  if USE_ANTENNA1 && USE_ANTENNA2 then
    if link_rx1_status (link s) =? link_rx2_status (link s) then
      (* we can choose either antenna, so select the one with the better rssi *)
      if last_rx_rssi1 (stats s) >? last_rx_rssi2 (stats s)
      then ANTENNA_1 else ANTENNA_2
    else if link_rx1_status (link s) =? RX_STATUS_VALID then ANTENNA_1
    else if link_rx2_status (link s) =? RX_STATUS_VALID then ANTENNA_2
    else
      if last_rx_rssi1 (stats s) >? last_rx_rssi2 (stats s)
      then ANTENNA_1 else ANTENNA_2
  else if USE_ANTENNA2 then ANTENNA_2
  else antenna.

(** The first part of the block: the received frame is handed on. *)
Definition pre_transmit_receive (s : tTx) : tTx :=
  if frame_received s then handle_receive (select_antenna s) s
  else handle_receive_none s.

(** The end of the block: the 1 Hz statistics, the clearing of [stats]
    while not connected, and the next statistics slot. *)
Definition pre_transmit_finish (s : tTx) : tTx :=
  let s := upd_sched (λ c, set_tick_1hz_commensurate
             (DECc (tick_1hz_commensurate c) (frame_rate_hz (Config s))) c) s in
  let s := if negb (nonzero (tick_1hz_commensurate (sched s)))
           then upd_dev (λ d, set_txstats (txstats_Update1Hz (txstats d)) d) s
           else s in
  let s := if negb (connected s) then
             let r := stats_Clear (stats s, stats_counters (dev s)) in
             upd_dev (set_stats_counters r.2) (set_stats r.1 s)
           else s in
  upd_dev (λ d, set_txstats (txstats_Next (txstats d)) d) s.

Definition pre_transmit (s : tTx) : tTx :=
  let s := upd_sched (set_doPreTransmit false) s in
  let valid := valid_frame_received s in
  let s := pre_transmit_receive s in
  let s := upd_dev (λ d, set_txstats
             (txstats_set_fhss_curr_i (Fhss.curr_i (fhss s)) (txstats d)) d) s in
  let s := upd_dev (λ d, set_txstats
             (txstats_set_rx1_valid (link_rx1_status (link s) >? RX_STATUS_INVALID)
                (txstats d)) d) s in
  let s := upd_dev (λ d, set_txstats
             (txstats_set_rx2_valid (link_rx2_status (link s) >? RX_STATUS_INVALID)
                (txstats d)) d) s in
  let s := upd_conn (connect_update valid) s in
  let s := upd_link (set_link_state LINK_STATE_TRANSMIT) s in
  let s := upd_link (set_link_rx1_status RX_STATUS_NONE) s in
  let s := upd_link (set_link_rx2_status RX_STATUS_NONE) s in
  pre_transmit_finish s.

(** *** Update channels, MBridge handling, Crsf handling, In handling *)

(** Modelled from the spec: what the handset objects, which lie outside the
    unit, answer in one pass of the loop. A channel source ("a shared
    [update(&rc) -> bool] contract") answers with the channel data it has
    written to [rcData], or with nothing new; the bridge answers with a
    command or none; [rx_param_changed] says whether the parameter handler
    run on [MBRIDGE_CMD_PARAM_SET] has changed a receiver parameter
    ("[SET_RX_PARAMS] is latched when any user parameter changes
    ([setup_rx_param_changed])"). Telemetry towards the handset is left
    out. *)
Record tHandsetIn := mkHandsetIn {
  mbridge_ChannelsUpdated : option tRcData;
  mbridge_CommandReceived : option MBRIDGE_CMD_ENUM;
  in_Update : option tRcData;
  crsf_Update : option tRcData;
  rx_param_changed : bool
}.

Definition channel_order_set_apply (s : tTx) : tTx :=
  let co := ChannelOrder.Set_ (Tx_ChannelOrder (Setup s)) (channelOrder s) in
  let s := set_channelOrder co s in
  set_rcData (ChannelOrder.Apply (channelOrder s) (rcData s)) s.

Definition mbridge_handling (i : tHandsetIn) (s : tTx) : tTx :=
  let s :=
    match mbridge_ChannelsUpdated i with
    | Some rc =>
        let s := set_rcData rc s in
        match Tx_ChannelsSource (Setup s) with
        | CHANNEL_SOURCE_MBRIDGE => channel_order_set_apply s
        | _ => s
        end
    | None => s
    end in
  match mbridge_CommandReceived i with
  | Some MBRIDGE_CMD_PARAM_SET =>
      upd_frames (λ f, set_setup_rx_param_changed
                   (setup_rx_param_changed f || rx_param_changed i) f) s
  | Some MBRIDGE_CMD_PARAM_STORE =>
      let s := upd_frames
                 (set_transmit_frame_type TRANSMIT_FRAME_TYPE_CMD_STORE_RX_PARAMS) s in
      set_whileTransmit
        (WhileTransmit.SetTask WHILE_TASK_STORE_PARAMS (whileTransmit s)) s
  | _ => s
  end.

Definition channel_source_handling
    (src : CHANNEL_SOURCE_ENUM) (upd : option tRcData) (s : tTx) : tTx :=
  if bool_decide (Tx_ChannelsSource (Setup s) = src) then
    match upd with
    | Some rc => channel_order_set_apply (set_rcData rc s)
    | None => s
    end
  else s.

Definition handset_handling (i : tHandsetIn) (s : tTx) : tTx :=
  let s := if USE_MBRIDGE then mbridge_handling i s else s in
  let s := if DEVICE_HAS_IN
           then channel_source_handling CHANNEL_SOURCE_INPORT (in_Update i) s else s in
  if USE_CRSF
  then channel_source_handling CHANNEL_SOURCE_CRSF (crsf_Update i) s else s.

(** *** One pass of the [while (1)] loop *)

Definition while_transmit_do (s : tTx) : tTx :=
  let r := WhileTransmit.Do (whileTransmit s) in
  set_dbg (dbg s ++ r.2) (set_whileTransmit r.1 s).

(** [if (doPreTransmit) { .. }]. *)
Definition pre_transmit_step (s : tTx) : tTx :=
  if doPreTransmit (sched s) then pre_transmit s else s.

(** The loop body after the SX handling. *)
Definition loop_tail (i : tHandsetIn) (s : tTx) : tTx :=
  let s := pre_transmit_step s in
  let s := handset_handling i s in
  let s := upd_dev (λ d, set_mavlink (mavlink_Do (mavlink d)) d) s in
  while_transmit_do s.

Definition main_loop (i : tHandsetIn) (s : tTx) : Outcome :=
  let s := sys_task s in
  do s ← sx_handling s;
  Running (loop_tail i s).

(** *** Start-up: the statements of [main_main] before the loop

    [boot] is the state left by [init], [mbridge_port] and [serial_port] the
    two objects [init_serialport] chooses from. *)
Definition init_serialport (mbridge_port serial_port : Serial) (s : tTx) : tTx :=
  match Tx_SerialDestination (Setup s) with
  | SERIAL_DESTINATION_MBRDIGE => upd_dev (set_serialport (Some mbridge_port)) s
  | SERIAL_DESTINATION_SERIAL_PORT => upd_dev (set_serialport (Some serial_port)) s
  | SERIAL_DESTINATION_NONE => upd_dev (set_serialport None) s
  end.

Definition main_init (mbridge_port serial_port : Serial) (boot : tTx) : Outcome :=
  let s := init_serialport mbridge_port serial_port boot in
  (* start up sx *)
  if negb (sx_isOk (sx (dev s))) then Halted s
  else if negb (sx_isOk (sx2 (dev s))) then Halted s
  else
    let s := if USE_ANTENNA1
             then upd_dev (λ d, set_sx (sx_StartUp (sx d)) d) s else s in
    let s := if USE_ANTENNA2
             then upd_dev (λ d, set_sx2 (sx_StartUp (sx2 d)) d) s else s in
    let s := set_fhss (Fhss.Init (FhssNum (Config s))
               (fhss_generate (FhssNum (Config s)) (FhssSeed (Config s))) (fhss s)) s in
    let s := set_fhss (Fhss.StartTx (fhss s)) s in
    let s := upd_dev (λ d, set_sx
               (sx_SetRfFrequency (Fhss.GetCurrFreq (fhss s)) (sx d)) d) s in
    let s := upd_dev (λ d, set_sx2
               (sx_SetRfFrequency (Fhss.GetCurrFreq (fhss s)) (sx2 d)) d) s in
    let s := upd_sched (set_tx_tick 0) s in
    let s := upd_sched (set_doPreTransmit false) s in
    let s := set_link {| link_state := LINK_STATE_IDLE;
                         link_rx1_status := RX_STATUS_NONE;
                         link_rx2_status := RX_STATUS_NONE;
                         irq_status := irq_status (link s);
                         irq2_status := irq2_status (link s) |} s in
    let s := set_conn {| connect_state := CONNECT_STATE_LISTEN;
                         connect_tmo_cnt := 0;
                         connect_sync_cnt := 0 |} s in
    (* we start with wanting to get rx setup data *)
    let s := upd_frames
               (set_transmit_frame_type TRANSMIT_FRAME_TYPE_CMD_GET_RX_SETUPDATA) s in
    let s := upd_dev (λ d, set_txstats
               (txstats_Init (LQAveragingPeriod (Config s)) (txstats d)) d) s in
    let s := upd_dev (λ d, set_mavlink (mavlink_Init (mavlink d)) d) s in
    let s := set_whileTransmit WhileTransmit.Init s in
    let s := upd_sched (set_led_blink 0) s in
    let s := upd_sched (set_tick_1hz 0) s in
    let s := upd_sched (set_tick_1hz_commensurate 0) s in
    let s := upd_sched (set_doSysTask false) s in
    Running s.

End Tx.

(** ** A concrete build with concrete collaborators

    Used to run the model on inputs. The modem is a buffer with a pending
    IRQ word, the serial side a pair of byte queues, the statistics a log of
    the calls made. *)
Module Demo.

Definition build (sync_cnt : Z) (antenna1 antenna2 : bool) : Build :=
  {| USE_ANTENNA1 := antenna1;
     USE_ANTENNA2 := antenna2;
     USE_MBRIDGE := true;
     DEVICE_HAS_IN := false;
     USE_CRSF := false;
     CONNECT_SYNC_CNT := sync_cnt;
     CONNECT_TMO_SYSTICKS := 500;
     SX12xx_IRQ_ALL := 65535;
     SX12xx_IRQ_RX_DONE := 2;
     SX12xx_IRQ_TX_DONE := 1;
     SX12xx_IRQ_TIMEOUT := 16384;
     FRAME_TX_PAYLOAD_LEN := 8;
     FRAME_TX_RX_LEN := 91;
     SEND_FRAME_TMO := 10;
     FRAME_TYPE_RX := 0;
     FRAME_CMD_RX_SETUPDATA := 3;
     FRAME_CMD_RX_ACK := 5;
     FRAME_CMD_GET_RX_SETUPDATA := 1;
     FRAME_CMD_STORE_RX_PARAMS := 4;
     CHECK_OK := 0;
     CHECK_ERROR_SYNCWORD := 1;
     DECc := λ x period, if x =? 0 then period - 1 else x - 1;
     SYSTICK_DELAY_MS := λ ms, ms |}.

(** Both antennas in use, [CONNECT_SYNC_CNT = 2]. *)
Definition diversity : Build := build 2 true true.

Record modem := mkModem {
  pending_irq : Z;
  buffer : list Z;
  frame : tRxFrame;
  packet_status : Z * Z;
  freq : Z;
  sent : list tTxFrame
}.

Record port := mkPort {
  rx_fifo : list Z;
  tx_fifo : list Z
}.

Definition port_getc (p : port) : Z * port :=
  (hd 0 (rx_fifo p), {| rx_fifo := tl (rx_fifo p); tx_fifo := tx_fifo p |}).

Definition port_putc (c : Z) (p : port) : port :=
  {| rx_fifo := rx_fifo p; tx_fifo := tx_fifo p ++ [c] |}.

Definition collab : Collab :=
  {| Sx := modem;
     sx_GetAndClearIrqStatus := λ mask m,
       (Z.land (pending_irq m) mask,
        mkModem (Z.land (pending_irq m) (Z.lnot mask)) (buffer m) (frame m)
                (packet_status m) (freq m) (sent m));
     sx_ReadBuffer := λ offset len m,
       (take (Z.to_nat len) (drop (Z.to_nat offset) (buffer m)), m);
     sx_SetRfFrequency := λ f m,
       mkModem (pending_irq m) (buffer m) (frame m)
               (packet_status m) f (sent m);
     sx_SendFrame := λ data len tmo m,
       mkModem (pending_irq m) (buffer m) (frame m)
               (packet_status m) (freq m) (sent m ++ [data]);
     sx_SetToRx := λ tmo m, m;
     sx_ReadFrame := λ len m, (frame m, m);
     sx_GetPacketStatus := λ m, (packet_status m, m);
     sx_isOk := λ m, true;
     sx_StartUp := λ m, m;
     Serial := port;
     serial_available := λ p, bool_decide (rx_fifo p ≠ []);
     serial_getc := port_getc;
     serial_putc := port_putc;
     Mavlink := port;
     mavlink_available := λ p, bool_decide (rx_fifo p ≠ []);
     mavlink_getc := port_getc;
     mavlink_putc := port_putc;
     mavlink_flush := λ p, {| rx_fifo := []; tx_fifo := tx_fifo p |};
     mavlink_Do := λ p, p;
     mavlink_Init := λ p, p;
     TxStats := list string;
     txstats_Init := λ period t, [];
     txstats_doValidFrameReceived := λ t, t ++ ["doValidFrameReceived"%string];
     txstats_doFrameReceived := λ t, t ++ ["doFrameReceived"%string];
     txstats_Update1Hz := λ t, t ++ ["Update1Hz"%string];
     txstats_Next := λ t, t ++ ["Next"%string];
     txstats_GetLQ := λ t, 100;
     txstats_GetLQ_serial_data := λ t, 100;
     txstats_set_fhss_curr_i := λ i t, t;
     txstats_set_rx1_valid := λ b t, t;
     txstats_set_rx2_valid := λ b t, t;
     StatsCounters := list string;
     bytes_transmitted_Add := λ n c, c ++ ["bytes_transmitted.Add"%string];
     fresh_serial_data_transmitted_Inc := λ c,
       c ++ ["fresh_serial_data_transmitted.Inc"%string];
     bytes_received_Add := λ n c, c ++ ["bytes_received.Add"%string];
     fresh_serial_data_received_Inc := λ c,
       c ++ ["fresh_serial_data_received.Inc"%string];
     stats_Clear := λ p, p;
     stats_GetLastRxRssi := λ st,
       match last_rx_antenna st with
       | ANTENNA_1 => last_rx_rssi1 st
       | ANTENNA_2 => last_rx_rssi2 st
       end;
     check_rx_frame := λ f,
       if FrameStatus.payload_len (status f) <=? Z.of_nat (length (rx_payload f))
       then 0 else 2;
     rssi_i8_from_u7 := λ u, - u;
     fhss_generate := λ n seed, (λ i : nat, 2400 + Z.of_nat i) <$> seq 0 (Z.to_nat n);
     unpack_rxcmd_rxsetupdata_frame := λ f su, su |}.

Definition no_frame : tRxFrame :=
  {| status := FrameStatus.mk 0 0 0 0 0 0 0 0 0; rx_payload := replicate 8 0 |}.

Definition modem0 : modem := mkModem 0 [] no_frame (0, 0) 0 [].
Definition port0 : port := mkPort [] [].

(** The state after [init] and the start-up of [main_main], with sync word
    [0x1234], 12 hop channels and a frame every 20 ms. *)
Definition boot (co : ChannelOrder.t) : tTx (C := collab) :=
  {| sched := mkSched false 0 0 0 0 false;
     link := mkLink LINK_STATE_IDLE 0 0 0 0;
     conn := mkConnect CONNECT_STATE_LISTEN 0 0;
     frames := mkFrames TRANSMIT_FRAME_TYPE_NORMAL false
                 (replicate 8 0) 0 txFrame_unset no_frame no_frame;
     stats := mkStats 0 ANTENNA_1 ANTENNA_1 0 0 0 0 0 0 0 0 0 0 0;
     fhss := Fhss.mk 0 [] 0;
     whileTransmit := WhileTransmit.Init;
     channelOrder := co;
     rcData := [1000; 1200; 1400; 1600; 1500; 1500];
     dbg := [];
     dev := mkDevices (C := collab) modem0 modem0 None port0 [] [];
     Setup := mkSetup SERIAL_DESTINATION_SERIAL_PORT CHANNEL_SOURCE_MBRIDGE
                CHANNEL_ORDER_AETR SERIAL_LINK_MODE_TRANSPARENT
                SERIAL_LINK_MODE_TRANSPARENT;
     Config := mkConfig 4660 12 7 20 50 8 |}.

Definition idle_handset : tHandsetIn := mkHandsetIn None None None None false.

Definition started : tTx (C := collab) := boot ChannelOrder.init.

(** Waiting for the end of the transmission, the slot of antenna 1 holding
    TX_DONE together with the timeout cause ([0x4001]). *)
Definition tx_done_and_timeout : tTx (C := collab) :=
  set_link (mkLink LINK_STATE_TRANSMIT_WAIT 0 0 16385 0) started.

(** The same with the timeout cause alone ([0x4000]). *)
Definition tx_timeout : tTx (C := collab) :=
  set_link (mkLink LINK_STATE_TRANSMIT_WAIT 0 0 16384 0) started.

(** The modem of antenna 1 reports RX_DONE for a frame that starts with
    the bytes [0x34 0x13], which is not the sync word [0x1234]. *)
Definition foreign_frame : tTx (C := collab) :=
  upd_dev (C := collab)
    (set_sx (C := collab) (mkModem 2 [52; 19; 0; 0] no_frame (0, 0) 0 []))
    started.

(** Both antennas Valid, at -70 dBm and -65 dBm. *)
Definition diversity_tie : tTx (C := collab) :=
  set_stats (mkStats 0 ANTENNA_1 ANTENNA_1 0 0 (-70) 0 (-65) 0 0 0 0 0 0)
    (set_link (mkLink LINK_STATE_RECEIVE_WAIT 2 2 0 0) started).

(** Antenna 1 has received a frame that failed its check. *)
Definition invalid_frame : tTx (C := collab) :=
  set_link (mkLink LINK_STATE_RECEIVE_WAIT 1 0 0 0) started.

(** The receiver's ack of a command is in the buffer of antenna 1 while
    the store request is in the slot, at the frame tick. *)
Definition ack_frame : tRxFrame :=
  {| status := FrameStatus.mk 7 1 1 0 0 40 100 100 1;
     rx_payload := [5; 0; 0; 0; 0; 0; 0; 0] |}.

Definition ack_received : tTx (C := collab) :=
  set_sched (mkSched false 0 0 0 0 true)
    (set_frames (mkFrames TRANSMIT_FRAME_TYPE_CMD_STORE_RX_PARAMS false
                   (replicate 8 0) 0 txFrame_unset ack_frame no_frame)
       (set_link (mkLink LINK_STATE_RECEIVE_WAIT 2 0 0 0) started)).

(** About to transmit, hop index at the end of the table. *)
Definition about_to_transmit : tTx (C := collab) :=
  set_fhss (Fhss.mk 12 (fhss_generate (Collab := collab) 12 7) 11)
    (set_stats (mkStats 255 ANTENNA_1 ANTENNA_1 0 0 0 0 0 0 0 0 0 0 0)
       (set_link (mkLink LINK_STATE_TRANSMIT 0 0 0 0) started)).

End Demo.

(** ** Runs of the objects of the unit

    Sequences of calls as the loop makes them over time, and readings of
    the state used to state what the loop keeps. *)

(** [channelOrder.Set] called with one order after the other. *)
Definition ChannelOrder_Set_all (orders : list Z) (co : ChannelOrder.t) : ChannelOrder.t :=
  foldl (λ co order, ChannelOrder.Set_ order co) co orders.

(** The calls the loop makes on [whileTransmit]: [Trigger] when a frame is
    sent, [SetTask] on a store request, [Do] at the end of every pass. *)
Inductive tWhileTransmitCall :=
  | CallTrigger
  | CallSetTask (task : Z)
  | CallDo.

Definition WhileTransmit_call (w : WhileTransmit.t) (c : tWhileTransmitCall)
    : WhileTransmit.t * list string :=
  match c with
  | CallTrigger => (WhileTransmit.Trigger w, [])
  | CallSetTask task => (WhileTransmit.SetTask task w, [])
  | CallDo => WhileTransmit.Do w
  end.

Fixpoint WhileTransmit_calls (cs : list tWhileTransmitCall) (w : WhileTransmit.t)
    : WhileTransmit.t * list string :=
  match cs with
  | [] => (w, [])
  | c :: cs => let r := WhileTransmit_call w c in
               let r' := WhileTransmit_calls cs r.1 in (r'.1, r.2 ++ r'.2)
  end.

Definition is_trigger (c : tWhileTransmitCall) : bool :=
  match c with CallTrigger => true | _ => false end.

Definition is_set_task (c : tWhileTransmitCall) : bool :=
  match c with CallSetTask _ => true | _ => false end.

(** A pre-transmit step in which a valid frame had been received. *)
Definition is_valid_pre_transmit (e : tConnectEvent) : bool :=
  match e with PreTransmit v => v | SysTick => false end.

Definition other_antenna (a : ANTENNA_ENUM) : ANTENNA_ENUM :=
  match a with ANTENNA_1 => ANTENNA_2 | ANTENNA_2 => ANTENNA_1 end.

(** The frame stats a packing call was given. *)
Definition frame_stats_of (f : tTxFrame) : option FrameStats.t :=
  match f with
  | txFrame_unset => None
  | pack_tx_frame frame_stats _ _ _ => Some frame_stats
  | pack_txcmd_cmd_frame frame_stats _ _ => Some frame_stats
  | pack_txcmd_set_rxparams_frame frame_stats _ => Some frame_stats
  end.

(** Both rx statuses hold one of [RX_STATUS_NONE], [RX_STATUS_INVALID],
    [RX_STATUS_VALID]. *)
Definition is_rx_status (x : Z) : bool :=
  (x =? RX_STATUS_NONE) || (x =? RX_STATUS_INVALID) || (x =? RX_STATUS_VALID).

Definition rx_status_ok {C : Collab} (s : tTx) : bool :=
  is_rx_status (link_rx1_status (link s)) && is_rx_status (link_rx2_status (link s)).

(** The RSSI and SNR [stats] holds for an antenna. *)
Definition last_rx_rssi_of (a : ANTENNA_ENUM) (st : tStats) : Z :=
  match a with ANTENNA_1 => last_rx_rssi1 st | ANTENNA_2 => last_rx_rssi2 st end.

Definition last_rx_snr_of (a : ANTENNA_ENUM) (st : tStats) : Z :=
  match a with ANTENNA_1 => last_rx_snr1 st | ANTENNA_2 => last_rx_snr2 st end.

(** ** JR pin5 bridge, [CommonTx/esp-jr_pin5_interface.h]

    [class tPin5BridgeBase]. The two pure virtual methods belong to the
    derived bridge; they may change every field of the object, and
    [transmit_start] also answers whether a transmission waits. [Derived]
    stands for the fields the derived class adds. *)

Module Pin5Bridge.

(** [STATE_ENUM], held in the [uint8_t state]. *)
Definition STATE_IDLE : Z := 0.
Definition STATE_RECEIVE_MBRIDGE_STX2 : Z := 1.
Definition STATE_RECEIVE_MBRIDGE_LEN : Z := 2.
Definition STATE_RECEIVE_MBRIDGE_SERIALPACKET : Z := 3.
Definition STATE_RECEIVE_MBRIDGE_CHANNELPACKET : Z := 4.
Definition STATE_RECEIVE_MBRIDGE_COMMANDPACKET : Z := 5.
Definition STATE_RECEIVE_CRSF_LEN : Z := 6.
Definition STATE_RECEIVE_CRSF_PAYLOAD : Z := 7.
Definition STATE_RECEIVE_CRSF_CRC : Z := 8.
Definition STATE_TRANSMIT_START : Z := 9.
Definition STATE_TRANSMITING : Z := 10.

Record t {Derived : Type} := mk {
  telemetry_start_next_tick : bool;
  telemetry_state : Z;          (* uint16_t *)
  state : Z;                    (* uint8_t *)
  len : Z;                      (* uint8_t *)
  cnt : Z;                      (* uint8_t *)
  tlast_us : Z;                 (* uint16_t *)
  nottransmiting_tlast_ms : Z;  (* uint32_t *)
  derived : Derived
}.
Arguments t : clear implicits.

Definition set_state {Derived : Type} (v : Z) (b : t Derived) : t Derived :=
  {| telemetry_start_next_tick := telemetry_start_next_tick b;
     telemetry_state := telemetry_state b;
     state := v;
     len := len b;
     cnt := cnt b;
     tlast_us := tlast_us b;
     nottransmiting_tlast_ms := nottransmiting_tlast_ms b;
     derived := derived b |}.

Class Virtual := {
  Derived : Type;
  parse_nextchar : Z → t Derived → t Derived;
  transmit_start : t Derived → bool * t Derived
}.

Section Bridge.
Context {V : Virtual}.

Definition tBridge : Type := t Derived.

Definition Init (b : tBridge) : tBridge :=
  {| telemetry_start_next_tick := false;
     telemetry_state := 0;
     state := STATE_IDLE;
     len := 0;
     cnt := 0;
     tlast_us := 0;
     nottransmiting_tlast_ms := 0;
     derived := derived b |}.

Definition TelemetryStart (b : tBridge) : tBridge :=
  {| telemetry_start_next_tick := true;
     telemetry_state := telemetry_state b;
     state := state b;
     len := len b;
     cnt := cnt b;
     tlast_us := tlast_us b;
     nottransmiting_tlast_ms := nottransmiting_tlast_ms b;
     derived := derived b |}.

(** Interface to the uart hardware peripheral; the bodies are empty. *)
Definition pin5_tx_start (b : tBridge) : tBridge := b.

Definition pin5_tx_enable (enable_flag : bool) (b : tBridge) : tBridge :=
  b. (* nothing to do for full duplex *)

Definition uart_rx_callback (c : Z) (b : tBridge) : tBridge :=
  let b := parse_nextchar c b in
  if state b <? STATE_TRANSMIT_START then b (* we are in receiving *)
  else if negb (state b =? STATE_TRANSMIT_START) then
    (* we are in transmitting, should not happen! *)
    set_state STATE_IDLE b
  else
    let r := transmit_start b in
    let b := r.2 in
    if r.1 then
      let b := pin5_tx_enable true b in
      let b := set_state STATE_TRANSMITING b in
      pin5_tx_start b
    else set_state STATE_IDLE b.

Definition uart_tc_callback (b : tBridge) : tBridge :=
  let b := pin5_tx_enable false b in (* switches on rx *)
  set_state STATE_IDLE b.

Definition CheckAndRescue (b : tBridge) : tBridge := b.

(** The calls made on the object over time: by the owner ([Init],
    [TelemetryStart], [CheckAndRescue]) and by the uart interrupt. *)
Inductive tCall :=
  | CallInit
  | CallTelemetryStart
  | CallCheckAndRescue
  | CallUartRx (c : Z)
  | CallUartTc.

Definition call (b : tBridge) (c : tCall) : tBridge :=
  match c with
  | CallInit => Init b
  | CallTelemetryStart => TelemetryStart b
  | CallCheckAndRescue => CheckAndRescue b
  | CallUartRx c => uart_rx_callback c b
  | CallUartTc => uart_tc_callback b
  end.

Definition calls (cs : list tCall) (b : tBridge) : tBridge := foldl call b cs.

End Bridge.

(** A derived bridge for running the model: a byte [2] starts a frame, the
    byte after it ends the frame and asks for the transmit slot; the reply
    waits when [derived] holds bytes. *)
Definition demo_virtual : Virtual :=
  {| Derived := list Z;
     parse_nextchar := λ c b,
       if state b =? STATE_IDLE then
         if c =? 2 then set_state STATE_RECEIVE_MBRIDGE_STX2 b else b
       else set_state STATE_TRANSMIT_START b;
     transmit_start := λ b, (bool_decide (derived b ≠ []), b) |}.

Definition demo_bridge : t (list Z) := mk (list Z) false 0 0 0 0 0 0 [7; 8].

End Pin5Bridge.

(** ** MSP interface of the receiver, [CommonRx/msp_interface_rx.h]

    [class tRxMsp] of the [USE_FEATURE_MAVLINKX] build. The MSP parser and
    encoder ([mspx.h]), the fifo ([fifo.h]) and the macro [INCc] lie
    outside the file. The serial port is the pair of the bytes waiting to be
    read and the bytes written, the debug port the list of the texts
    written. [millis32()] and [connected()] are read once per call; their
    values are arguments. *)

Definition wrap32 (x : Z) : Z := x mod 4294967296.

(** The text of one character. *)
Definition char_string (c : Z) : string :=
  String (Ascii.ascii_of_N (Z.to_N (wrap8 c))) EmptyString.

Module RxMsp.

Class Env := {
  msp_status_t : Type;
  msp_message_t : Type;
  (** The value-initialised status, [status = {}]. *)
  msp_status_zero : msp_status_t;
  (** [msp_parse_to_msg(&msg, &status, c)]: whether a message is complete,
      the message and the status. *)
  msp_parse_to_msg : msp_message_t → msp_status_t → Z → bool * msp_message_t * msp_status_t;
  msp_parse_reset : msp_status_t → msp_status_t;
  (** The bytes written to the buffer; their number is the returned [len]. *)
  msp_msg_to_frame_buf : msp_message_t → list Z;
  msp_generate_request_to_frame_buf : Z → Z → list Z;
  msp_msg_type : msp_message_t → Z;
  msp_function_str_from_msg : msp_message_t → string;
  msp_function_str : Z → string;
  MSP_TYPE_REQUEST : Z;
  MSP_ATTITUDE : Z;
  MSP_ALTITUDE : Z;
  MSP_INAV_STATUS : Z;
  MSP_FRAME_LEN_MAX : Z;
  (** [INCc(x, period)]: the new value of the counter [x]. *)
  INCc : Z → Z → Z;
  Fifo : Type;
  fifo_Init : Fifo → Fifo;
  fifo_Flush : Fifo → Fifo;
  fifo_HasSpace : Z → Fifo → bool;
  fifo_PutBuf : list Z → Fifo → Fifo;
  fifo_Available : Fifo → bool;
  fifo_Get : Fifo → Z * Fifo
}.

Section Msp.
Context {E : Env}.

Record t := mk {
  (* fields for link in -> parser -> serial out *)
  status_link_in : msp_status_t;
  msp_msg_link_in : msp_message_t;
  (* fields for serial in -> parser -> link out *)
  status_ser_in : msp_status_t;
  msp_msg_ser_in : msp_message_t;
  status_link_out : msp_status_t;
  msp_msg_link_out : msp_message_t;
  fifo_link_out : Fifo;
  (* to inject requests if no requests from a gcs *)
  msp_request_tlast_ms : Z;     (* uint32_t *)
  tick_tlast_ms : Z;            (* uint32_t *)
  tick : Z;                     (* uint8_t *)
  (* the serial port and the debug port *)
  serial_rx : list Z;
  serial_tx : list Z;
  dbg_out : list string
}.

Definition set_status_link_in (v : msp_status_t) (m : t) : t :=
  {| status_link_in := v;
     msp_msg_link_in := msp_msg_link_in m;
     status_ser_in := status_ser_in m;
     msp_msg_ser_in := msp_msg_ser_in m;
     status_link_out := status_link_out m;
     msp_msg_link_out := msp_msg_link_out m;
     fifo_link_out := fifo_link_out m;
     msp_request_tlast_ms := msp_request_tlast_ms m;
     tick_tlast_ms := tick_tlast_ms m;
     tick := tick m;
     serial_rx := serial_rx m;
     serial_tx := serial_tx m;
     dbg_out := dbg_out m |}.

Definition set_msp_msg_link_in (v : msp_message_t) (m : t) : t :=
  {| status_link_in := status_link_in m;
     msp_msg_link_in := v;
     status_ser_in := status_ser_in m;
     msp_msg_ser_in := msp_msg_ser_in m;
     status_link_out := status_link_out m;
     msp_msg_link_out := msp_msg_link_out m;
     fifo_link_out := fifo_link_out m;
     msp_request_tlast_ms := msp_request_tlast_ms m;
     tick_tlast_ms := tick_tlast_ms m;
     tick := tick m;
     serial_rx := serial_rx m;
     serial_tx := serial_tx m;
     dbg_out := dbg_out m |}.

Definition set_status_ser_in (v : msp_status_t) (m : t) : t :=
  {| status_link_in := status_link_in m;
     msp_msg_link_in := msp_msg_link_in m;
     status_ser_in := v;
     msp_msg_ser_in := msp_msg_ser_in m;
     status_link_out := status_link_out m;
     msp_msg_link_out := msp_msg_link_out m;
     fifo_link_out := fifo_link_out m;
     msp_request_tlast_ms := msp_request_tlast_ms m;
     tick_tlast_ms := tick_tlast_ms m;
     tick := tick m;
     serial_rx := serial_rx m;
     serial_tx := serial_tx m;
     dbg_out := dbg_out m |}.

Definition set_msp_msg_ser_in (v : msp_message_t) (m : t) : t :=
  {| status_link_in := status_link_in m;
     msp_msg_link_in := msp_msg_link_in m;
     status_ser_in := status_ser_in m;
     msp_msg_ser_in := v;
     status_link_out := status_link_out m;
     msp_msg_link_out := msp_msg_link_out m;
     fifo_link_out := fifo_link_out m;
     msp_request_tlast_ms := msp_request_tlast_ms m;
     tick_tlast_ms := tick_tlast_ms m;
     tick := tick m;
     serial_rx := serial_rx m;
     serial_tx := serial_tx m;
     dbg_out := dbg_out m |}.

Definition set_fifo_link_out (v : Fifo) (m : t) : t :=
  {| status_link_in := status_link_in m;
     msp_msg_link_in := msp_msg_link_in m;
     status_ser_in := status_ser_in m;
     msp_msg_ser_in := msp_msg_ser_in m;
     status_link_out := status_link_out m;
     msp_msg_link_out := msp_msg_link_out m;
     fifo_link_out := v;
     msp_request_tlast_ms := msp_request_tlast_ms m;
     tick_tlast_ms := tick_tlast_ms m;
     tick := tick m;
     serial_rx := serial_rx m;
     serial_tx := serial_tx m;
     dbg_out := dbg_out m |}.

Definition set_msp_request_tlast_ms (v : Z) (m : t) : t :=
  {| status_link_in := status_link_in m;
     msp_msg_link_in := msp_msg_link_in m;
     status_ser_in := status_ser_in m;
     msp_msg_ser_in := msp_msg_ser_in m;
     status_link_out := status_link_out m;
     msp_msg_link_out := msp_msg_link_out m;
     fifo_link_out := fifo_link_out m;
     msp_request_tlast_ms := v;
     tick_tlast_ms := tick_tlast_ms m;
     tick := tick m;
     serial_rx := serial_rx m;
     serial_tx := serial_tx m;
     dbg_out := dbg_out m |}.

Definition set_tick_tlast_ms (v : Z) (m : t) : t :=
  {| status_link_in := status_link_in m;
     msp_msg_link_in := msp_msg_link_in m;
     status_ser_in := status_ser_in m;
     msp_msg_ser_in := msp_msg_ser_in m;
     status_link_out := status_link_out m;
     msp_msg_link_out := msp_msg_link_out m;
     fifo_link_out := fifo_link_out m;
     msp_request_tlast_ms := msp_request_tlast_ms m;
     tick_tlast_ms := v;
     tick := tick m;
     serial_rx := serial_rx m;
     serial_tx := serial_tx m;
     dbg_out := dbg_out m |}.

Definition set_tick (v : Z) (m : t) : t :=
  {| status_link_in := status_link_in m;
     msp_msg_link_in := msp_msg_link_in m;
     status_ser_in := status_ser_in m;
     msp_msg_ser_in := msp_msg_ser_in m;
     status_link_out := status_link_out m;
     msp_msg_link_out := msp_msg_link_out m;
     fifo_link_out := fifo_link_out m;
     msp_request_tlast_ms := msp_request_tlast_ms m;
     tick_tlast_ms := tick_tlast_ms m;
     tick := v;
     serial_rx := serial_rx m;
     serial_tx := serial_tx m;
     dbg_out := dbg_out m |}.

Definition set_serial_rx (v : list Z) (m : t) : t :=
  {| status_link_in := status_link_in m;
     msp_msg_link_in := msp_msg_link_in m;
     status_ser_in := status_ser_in m;
     msp_msg_ser_in := msp_msg_ser_in m;
     status_link_out := status_link_out m;
     msp_msg_link_out := msp_msg_link_out m;
     fifo_link_out := fifo_link_out m;
     msp_request_tlast_ms := msp_request_tlast_ms m;
     tick_tlast_ms := tick_tlast_ms m;
     tick := tick m;
     serial_rx := v;
     serial_tx := serial_tx m;
     dbg_out := dbg_out m |}.

Definition set_serial_tx (v : list Z) (m : t) : t :=
  {| status_link_in := status_link_in m;
     msp_msg_link_in := msp_msg_link_in m;
     status_ser_in := status_ser_in m;
     msp_msg_ser_in := msp_msg_ser_in m;
     status_link_out := status_link_out m;
     msp_msg_link_out := msp_msg_link_out m;
     fifo_link_out := fifo_link_out m;
     msp_request_tlast_ms := msp_request_tlast_ms m;
     tick_tlast_ms := tick_tlast_ms m;
     tick := tick m;
     serial_rx := serial_rx m;
     serial_tx := v;
     dbg_out := dbg_out m |}.

Definition set_dbg_out (v : list string) (m : t) : t :=
  {| status_link_in := status_link_in m;
     msp_msg_link_in := msp_msg_link_in m;
     status_ser_in := status_ser_in m;
     msp_msg_ser_in := msp_msg_ser_in m;
     status_link_out := status_link_out m;
     msp_msg_link_out := msp_msg_link_out m;
     fifo_link_out := fifo_link_out m;
     msp_request_tlast_ms := msp_request_tlast_ms m;
     tick_tlast_ms := tick_tlast_ms m;
     tick := tick m;
     serial_rx := serial_rx m;
     serial_tx := serial_tx m;
     dbg_out := v |}.

(** [Init]; [msp_init()] acts on the parser library only. *)
Definition Init (m : t) : t :=
  {| status_link_in := msp_status_zero;
     msp_msg_link_in := msp_msg_link_in m;
     status_ser_in := msp_status_zero;
     msp_msg_ser_in := msp_msg_ser_in m;
     status_link_out := msp_status_zero;
     msp_msg_link_out := msp_msg_link_out m;
     fifo_link_out := fifo_Init (fifo_link_out m);
     msp_request_tlast_ms := 0;
     tick_tlast_ms := 0;
     tick := 0;
     serial_rx := serial_rx m;
     serial_tx := serial_tx m;
     dbg_out := dbg_out m |}.

(** The text ["\ndo"], ["\nputc"] and ["\n"]; 10 is the line feed. *)
Definition msg_do : string := String (Ascii.ascii_of_nat 10) "do".
Definition msg_putc : string := String (Ascii.ascii_of_nat 10) "putc".
Definition msg_lf : string := String (Ascii.ascii_of_nat 10) EmptyString.

(** [while (serial.available()) { .. }] of [Do], over the bytes waiting at
    the serial port: each byte is taken from the port and parsed, every
    completed message goes as a frame to the link fifo. *)
Fixpoint parse_serial_in (pending : list Z) (m : t) : t :=
  match pending with
  | [] => m
  | c :: pending =>
      let m := set_serial_rx pending m in
      let r := msp_parse_to_msg (msp_msg_ser_in m) (status_ser_in m) c in
      let m := set_msp_msg_ser_in r.1.2 m in
      let m := set_status_ser_in r.2 m in
      let m :=
        if r.1.1 then
          let m := set_fifo_link_out
                     (fifo_PutBuf (msp_msg_to_frame_buf (msp_msg_ser_in m))
                        (fifo_link_out m)) m in
          set_dbg_out (dbg_out m ++ [msg_do; char_string (msp_msg_type (msp_msg_ser_in m));
                                     msp_function_str_from_msg (msp_msg_ser_in m)]) m
        else m in
      parse_serial_in pending m
  end.

(** The first half of [Do]: the link fifo is emptied while not connected,
    and the serial input is parsed when the fifo has space for a full MSP
    message. *)
Definition Do_serial_in (connected : bool) (m : t) : t :=
  let m := if negb connected
           then set_fifo_link_out (fifo_Flush (fifo_link_out m)) m else m in
  if fifo_HasSpace (MSP_FRAME_LEN_MAX + 16) (fifo_link_out m)
  then parse_serial_in (serial_rx m) m
  else m.

(** [ticked], and the tick counter advanced every 100 ms. *)
Definition Do_ticked (tnow_ms : Z) (m : t) : bool :=
  100 <=? wrap32 (tnow_ms - tick_tlast_ms m).

Definition Do_tick (tnow_ms : Z) (m : t) : t :=
  if Do_ticked tnow_ms m then
    let m := set_tick_tlast_ms tnow_ms m in
    set_tick (INCc (tick m) 20) m
  else m.

Definition inject_request (function : Z) (with_dbg : bool) (m : t) : t :=
  let m := set_serial_tx
             (serial_tx m ++ msp_generate_request_to_frame_buf MSP_TYPE_REQUEST function) m in
  if with_dbg
  then set_dbg_out (dbg_out m ++ [msg_lf; msp_function_str function]) m
  else m.

(** The second half of [Do], after the tick: a request is put to the
    serial port when none came from a ground station for a while. *)
Definition Do_inject (ticked : bool) (tnow_ms : Z) (m : t) : t :=
  if 1500 <? wrap32 (tnow_ms - msp_request_tlast_ms m) then
    (* didn't got a request for a while *)
    if ticked then
      if (tick m =? 0) || (tick m =? 5) || (tick m =? 10) || (tick m =? 15) then
        inject_request MSP_ATTITUDE false m
      else if (tick m =? 2) || (tick m =? 6) || (tick m =? 11) || (tick m =? 16) then
        inject_request MSP_ALTITUDE true m
      else if (tick m =? 3) || (tick m =? 7) || (tick m =? 12) || (tick m =? 17) then
        inject_request MSP_INAV_STATUS true m
      else m
    else m
  else m.

Definition Do (tnow_ms : Z) (connected : bool) (m : t) : t :=
  let m := Do_serial_in connected m in
  let ticked := Do_ticked tnow_ms m in
  let m := Do_tick tnow_ms m in
  Do_inject ticked tnow_ms m.

Definition FrameLost (m : t) : t :=
  set_status_link_in (msp_parse_reset (status_link_in m)) m.

(** [putc]; [tnow_ms] is what [millis32()] answers when it is read. *)
Definition putc (tnow_ms : Z) (c : Z) (m : t) : t :=
  (* parse link in -> serial out *)
  let r := msp_parse_to_msg (msp_msg_link_in m) (status_link_in m) c in
  let m := set_msp_msg_link_in r.1.2 m in
  let m := set_status_link_in r.2 m in
  if r.1.1 then
    let m := set_serial_tx (serial_tx m ++ msp_msg_to_frame_buf (msp_msg_link_in m)) m in
    let m := if msp_msg_type (msp_msg_link_in m) =? MSP_TYPE_REQUEST
             then set_msp_request_tlast_ms tnow_ms m else m in
    set_dbg_out (dbg_out m ++ [msg_putc; char_string (msp_msg_type (msp_msg_link_in m));
                               msp_function_str_from_msg (msp_msg_link_in m)]) m
  else m.

Definition available (m : t) : bool := fifo_Available (fifo_link_out m).

Definition getc (m : t) : Z * t :=
  let r := fifo_Get (fifo_link_out m) in
  (r.1, set_fifo_link_out r.2 m).

Definition flush (m : t) : t :=
  set_fifo_link_out (fifo_Flush (fifo_link_out m)) m.

(** The parser of the serial input fed one byte: message and status. *)
Definition parse_step (p : msp_message_t * msp_status_t) (c : Z)
    : msp_message_t * msp_status_t :=
  let r := msp_parse_to_msg p.1 p.2 c in (r.1.2, r.2).

End Msp.

(** A parser and a fifo for running the model: a message is a line of
    bytes ended by the byte [10], its type is its first byte; the fifo is
    a list of at most 1024 bytes. *)
Definition demo_env : Env :=
  {| msp_status_t := list Z;
     msp_message_t := list Z;
     msp_status_zero := [];
     msp_parse_to_msg := λ msg st c,
       if c =? 10 then (true, st, []) else (false, msg, st ++ [c]);
     msp_parse_reset := λ st, [];
     msp_msg_to_frame_buf := λ msg, msg ++ [10];
     msp_generate_request_to_frame_buf := λ type function, [type; function; 10];
     msp_msg_type := λ msg, hd 0 msg;
     msp_function_str_from_msg := λ msg, "function"%string;
     msp_function_str := λ function, "function"%string;
     MSP_TYPE_REQUEST := 60;
     MSP_ATTITUDE := 108;
     MSP_ALTITUDE := 109;
     MSP_INAV_STATUS := 8192;
     MSP_FRAME_LEN_MAX := 270;
     INCc := λ x period, if period <=? x + 1 then 0 else x + 1;
     Fifo := list Z;
     fifo_Init := λ f, [];
     fifo_Flush := λ f, [];
     fifo_HasSpace := λ n f, Z.of_nat (length f) + n <=? 1024;
     fifo_PutBuf := λ buf f, f ++ buf;
     fifo_Available := λ f, bool_decide (f ≠ []);
     fifo_Get := λ f, (hd 0 f, tl f) |}.

(** The object after [Init], with nothing at the serial port. *)
Definition demo_msp : t (E := demo_env) :=
  mk (E := demo_env) [] [] [] [] [] [] [] 0 0 0 [] [] [].

(** The same with the tick counter at 4, so that the next tick is one on
    which MSP_ATTITUDE is requested. *)
Definition demo_msp_due : t (E := demo_env) :=
  mk (E := demo_env) [] [] [] [] [] [] [] 0 0 4 [] [] [].

(** The link input holds the bytes of a request for MSP_ATTITUDE; the byte
    [10] will complete the message. *)
Definition demo_msp_request_coming : t (E := demo_env) :=
  mk (E := demo_env) [60; 108] [] [] [] [] [] [] 0 0 4 [] [] [].

End RxMsp.

(** ** SX1280 driver, [Common/sx1280_driver.h]: the busy wait

    [class SxDriver] of a board without a busy pin times the modem with
    the cycle counter [DWT->CYCCNT]: [SetDelay] notes a delay and the
    counter value, [WaitOnBusy] spins until the delay has passed. The
    counter is read once per test of the loop; the readings are given as a
    list, in the order they are made. The other methods of the class are
    sequences of commands of [SxDriverBase], which lies outside the file. *)

Module SxDriver.

Record t := mk {
  timer_us_tmo : Z;             (* uint32_t *)
  timer_us_start_tick : Z       (* uint32_t *)
}.

(** [SetDelay(tmo_us)], with the value of [SystemCoreClock] and the counter
    value it reads. The parameter is a [uint16_t]. *)
Definition SetDelay (SystemCoreClock : Z) (tmo_us : Z) (cyccnt : Z) (d : t) : t :=
  let tmo_us := wrap16 tmo_us in
  {| timer_us_tmo := wrap32 (tmo_us * (SystemCoreClock / 1000000));
     timer_us_start_tick := cyccnt |}.

(** [while ((DWT->CYCCNT - timer_us_start_tick) < timer_us_tmo) { __NOP(); }]:
    the readings left when the loop ends, nothing when the readings run out
    before. *)
Fixpoint wait_loop (cyccnt : list Z) (d : t) : option (list Z) :=
  match cyccnt with
  | [] => None
  | c :: cyccnt =>
      if wrap32 (c - timer_us_start_tick d) <? timer_us_tmo d
      then wait_loop cyccnt d
      else Some cyccnt
  end.

Definition WaitOnBusy (cyccnt : list Z) (d : t) : option (list Z * t) :=
  if nonzero (timer_us_tmo d) then
    match wait_loop cyccnt d with
    | Some cyccnt =>
        Some (cyccnt, {| timer_us_tmo := 0;
                         timer_us_start_tick := timer_us_start_tick d |})
    | None => None
    end
  else Some (cyccnt, d).

End SxDriver.

(** ** Further states of the concrete build *)

Module Scenario.

(** Connected with 500 ticks of the timeout left, a valid frame in the
    buffer of antenna 1, at the frame tick. *)
Definition connected_valid_frame : tTx (C := Demo.collab) :=
  set_sched (mkSched false 0 0 0 0 true)
    (set_conn (mkConnect CONNECT_STATE_CONNECTED 500 2)
       (set_link (mkLink LINK_STATE_RECEIVE_WAIT 2 0 0 0) Demo.started)).

(** Waiting for the frame, the slot of antenna 1 holding RX_DONE, the
    modem of antenna 1 holding the ack frame with packet status (-70, 9). *)
Definition rx_done_pending : tTx (C := Demo.collab) :=
  upd_dev (C := Demo.collab)
    (set_sx (C := Demo.collab)
       (Demo.mkModem 0 [52; 18; 0; 0] Demo.ack_frame (-70, 9) 0 []))
    (set_link (mkLink LINK_STATE_RECEIVE_WAIT 0 0 2 0) Demo.started).

(** Antenna 1 without a frame, antenna 2 with a frame that failed its
    check, the RSSI stored for antenna 1 being the higher one. *)
Definition none_and_invalid : tTx (C := Demo.collab) :=
  set_stats (mkStats 0 ANTENNA_1 ANTENNA_1 0 0 (-60) 0 (-80) 0 0 0 0 0 0)
    (set_link (mkLink LINK_STATE_RECEIVE_WAIT 0 1 0 0) Demo.started).

(** Connected, the store request in the slot, at the frame tick. Antenna 1
    has received nothing in this cycle, and [rxFrame] still holds the ack of
    an earlier command; antenna 2 has received a frame that failed its
    check; the RSSI stored for antenna 1 is the higher one. No interrupt
    cause is pending. *)
Definition stale_ack : tTx (C := Demo.collab) :=
  set_sched (mkSched false 0 0 0 0 true)
    (set_conn (mkConnect CONNECT_STATE_CONNECTED 500 2)
       (set_stats (mkStats 0 ANTENNA_1 ANTENNA_1 0 0 (-60) 0 (-80) 0 0 0 0 0 0)
          (set_frames (mkFrames TRANSMIT_FRAME_TYPE_CMD_STORE_RX_PARAMS false
                         (replicate 8 0) 0 txFrame_unset Demo.ack_frame Demo.no_frame)
             (set_link (mkLink LINK_STATE_RECEIVE_WAIT 0 1 0 0) Demo.started)))).

(** A normal frame of the receiver with three payload bytes, and a state
    whose serial destination is the serial port. *)
Definition serial_frame : tRxFrame :=
  {| status := FrameStatus.mk 7 1 0 0 0 40 100 100 3;
     rx_payload := [65; 66; 67; 0; 0; 0; 0; 0] |}.

Definition serial_open : tTx (C := Demo.collab) :=
  upd_dev (C := Demo.collab) (set_serialport (C := Demo.collab) (Some Demo.port0))
    Demo.started.

(** Connected, ten bytes waiting on the serial port, while the payload
    buffer of the build takes eight. *)
Definition serial_waiting : tTx (C := Demo.collab) :=
  upd_dev (C := Demo.collab)
    (set_serialport (C := Demo.collab)
       (Some (Demo.mkPort [1; 2; 3; 4; 5; 6; 7; 8; 9; 10] [])))
    (set_conn (mkConnect CONNECT_STATE_CONNECTED 500 2) Demo.started).

(** A parameter change is pending while the slot is free. *)
Definition param_change_pending : tTx (C := Demo.collab) :=
  upd_frames (C := Demo.collab) (set_setup_rx_param_changed true) Demo.started.

(** Idle, with TX_DONE in the slot of antenna 1. *)
Definition stray_tx_done : tTx (C := Demo.collab) :=
  set_link (mkLink LINK_STATE_IDLE 0 0 1 0) Demo.started.

(** Waiting for the end of the transmission, TX_DONE in the slot of
    antenna 1. *)
Definition tx_done : tTx (C := Demo.collab) :=
  set_link (mkLink LINK_STATE_TRANSMIT_WAIT 0 0 1 0) Demo.started.

(** *** A run in which a store request is lost

    The surroundings of the loop in this run: the system tick, which sets
    [doSysTask] from outside the unit, the two interrupt handlers, the
    modems, whose pending cause, buffer and frame change when a transfer
    ends, and the handset. *)

Definition tick (s : tTx (C := Demo.collab)) : tTx (C := Demo.collab) :=
  upd_sched (C := Demo.collab) (set_doSysTask true) s.

Definition pass (i : tHandsetIn) (s : tTx (C := Demo.collab))
    : tTx (C := Demo.collab) :=
  state_of (main_loop (B := Demo.diversity) i s).

Definition store_command : tHandsetIn :=
  mkHandsetIn None (Some MBRIDGE_CMD_PARAM_STORE) None None false.

(** A frame whose check fails on the demo build: its payload length exceeds
    the buffer. *)
Definition failed_frame : tRxFrame :=
  {| status := FrameStatus.mk 3 1 0 0 0 40 100 100 9;
     rx_payload := replicate 8 0 |}.

(** The modem of antenna 1 ends its transmission. *)
Definition modem1_tx_done (s : tTx (C := Demo.collab)) : tTx (C := Demo.collab) :=
  upd_dev (C := Demo.collab)
    (λ d, set_sx (C := Demo.collab)
            (Demo.mkModem 1 (Demo.buffer (sx d)) (Demo.frame (sx d))
               (Demo.packet_status (sx d)) (Demo.freq (sx d)) (Demo.sent (sx d)))
            d) s.

(** The modem of antenna 2 receives, at -80 dBm, a frame with the sync word
    of the link that fails its check. *)
Definition modem2_rx_failed (s : tTx (C := Demo.collab)) : tTx (C := Demo.collab) :=
  upd_dev (C := Demo.collab)
    (λ d, set_sx2 (C := Demo.collab)
            (Demo.mkModem 2 [52; 18; 0; 0] failed_frame (-80, 3)
               (Demo.freq (sx2 d)) (Demo.sent (sx2 d)))
            d) s.

(** Connected and waiting for the answer to a first store request, one tick
    before the frame tick; the modem of antenna 1 has received the
    receiver's ack at -60 dBm. *)
Definition first_ack_arrives : tTx (C := Demo.collab) :=
  upd_dev (C := Demo.collab)
    (set_sx (C := Demo.collab)
       (Demo.mkModem 2 [52; 18; 0; 0] Demo.ack_frame (-60, 9) 0 []))
    (set_sched (mkSched false 0 0 1 0 false)
       (set_conn (mkConnect CONNECT_STATE_CONNECTED 500 2)
          (set_frames (mkFrames TRANSMIT_FRAME_TYPE_CMD_STORE_RX_PARAMS false
                         (replicate 8 0) 0 txFrame_unset Demo.no_frame Demo.no_frame)
             (set_link (mkLink LINK_STATE_RECEIVE_WAIT 0 0 0 0) Demo.started)))).

(** The ack is read, and accepted at the frame tick, which frees the slot.
    The pass that sends the next frame, a normal one, gets a second store
    command from the handset. *)
Definition second_store_requested : tTx (C := Demo.collab) :=
  pass store_command
    (pass Demo.idle_handset
       (tick (pass Demo.idle_handset
                (DIO_EXTI_IRQHandler (B := Demo.diversity) ANTENNA_1
                   first_ack_arrives)))).

(** That transmission ends and the receive window opens; antenna 2 receives
    the frame that fails its check, antenna 1 nothing; 19 ticks go by, so
    that the next tick is the frame tick. *)
Definition second_store_unanswered : tTx (C := Demo.collab) :=
  Nat.iter 19 (λ s, pass Demo.idle_handset (tick s))
    (pass Demo.idle_handset
       (DIO_EXTI_IRQHandler (B := Demo.diversity) ANTENNA_2
          (modem2_rx_failed
             (pass Demo.idle_handset
                (pass Demo.idle_handset
                   (DIO_EXTI_IRQHandler (B := Demo.diversity) ANTENNA_1
                      (modem1_tx_done second_store_requested))))))).

End Scenario.



(** * Properties *)

(** ** Proof tools *)

Create HintDb tx_unfold.

#[global] Hint Unfold
  set_transmit_seq_no set_last_tx_antenna set_last_rx_antenna
  set_received_seq_no_last set_received_ack_last set_last_rx_rssi1
  set_last_rx_snr1 set_last_rx_rssi2 set_last_rx_snr2 set_received_antenna
  set_received_transmit_antenna set_received_rssi set_received_LQ
  set_received_LQ_serial_data set_doSysTask set_led_blink set_tick_1hz
  set_tx_tick set_tick_1hz_commensurate set_doPreTransmit set_link_state
  set_link_rx1_status set_link_rx2_status set_irq_status set_irq2_status
  set_connect_state set_connect_tmo_cnt set_connect_sync_cnt
  set_transmit_frame_type set_setup_rx_param_changed set_payload
  set_payload_len set_txFrame set_rxFrame set_rxFrame2 set_sx set_sx2
  set_serialport set_mavlink set_txstats set_stats_counters set_sched
  set_link set_conn set_frames set_stats set_fhss set_whileTransmit
  set_channelOrder set_rcData set_dbg set_dev set_Setup set_Config
  upd_sched upd_link upd_conn upd_frames upd_stats upd_dev set_sx_of
  set_irq_of set_link_rx_status_of
  : tx_unfold.

Arguments wrap8 : simpl never.
Arguments wrap16 : simpl never.
Arguments nonzero : simpl never.

(** Equality tests settled from the context. *)
Ltac tx_decide :=
  repeat match goal with
  | |- context [bool_decide (?x = ?y)] =>
      first [ rewrite (bool_decide_eq_true_2 (x = y))
                by first [reflexivity | assumption]
            | rewrite (bool_decide_eq_false_2 (x = y))
                by first [assumption | discriminate] ]
  end.

(** Projections of updated states computed by call-by-need reduction of
    the field updates and projections only. *)
Ltac tx_red :=
  cbn beta iota zeta delta [
      set_transmit_seq_no set_last_tx_antenna set_last_rx_antenna
      set_received_seq_no_last set_received_ack_last set_last_rx_rssi1
      set_last_rx_snr1 set_last_rx_rssi2 set_last_rx_snr2
      set_received_antenna set_received_transmit_antenna
      set_received_rssi set_received_LQ set_received_LQ_serial_data
      set_doSysTask set_led_blink set_tick_1hz set_tx_tick
      set_tick_1hz_commensurate set_doPreTransmit set_link_state
      set_link_rx1_status set_link_rx2_status set_irq_status
      set_irq2_status set_connect_state set_connect_tmo_cnt
      set_connect_sync_cnt set_transmit_frame_type
      set_setup_rx_param_changed set_payload set_payload_len set_txFrame
      set_rxFrame set_rxFrame2 set_sx set_sx2 set_serialport set_mavlink
      set_txstats set_stats_counters set_sched set_link set_conn
      set_frames set_stats set_fhss set_whileTransmit set_channelOrder
      set_rcData set_dbg set_dev set_Setup set_Config upd_sched upd_link
      upd_conn upd_frames upd_stats upd_dev set_sx_of set_irq_of
      set_link_rx_status_of doSysTask led_blink tick_1hz tx_tick
      tick_1hz_commensurate doPreTransmit link_state link_rx1_status
      link_rx2_status irq_status irq2_status connect_state
      connect_tmo_cnt connect_sync_cnt transmit_frame_type
      setup_rx_param_changed payload payload_len txFrame rxFrame
      rxFrame2 sx sx2 serialport mavlink txstats stats_counters sched
      link conn frames stats fhss whileTransmit channelOrder rcData dbg
      dev Setup Config transmit_seq_no last_tx_antenna last_rx_antenna
      received_seq_no_last received_ack_last last_rx_rssi1 last_rx_snr1
      last_rx_rssi2 last_rx_snr2 received_antenna
      received_transmit_antenna received_rssi received_LQ
      received_LQ_serial_data irq_of sx_of link_rx_status_of rxFrame_of
      state_of and_then fst snd ].

(** Field updates unfolded and tests settled, for equations between small
    records. *)
Ltac tx_unfold_simpl :=
  repeat (progress (autounfold with tx_unfold; cbn; tx_decide;
                    rewrite ?andb_true_r, ?andb_false_r, ?orb_true_r, ?orb_false_r)).

(** ** The model on concrete inputs *)

(** A pass of the loop in Transmit: the sequence number 255 and the hop
    index 11 of 12 both wrap to 0, the frame is handed to the modem of
    antenna 1 and the deferred-task engine is triggered and has counted
    once. *)
Example main_loop_transmit_pass :
  let s := state_of (main_loop (B := Demo.diversity) Demo.idle_handset
                       Demo.about_to_transmit) in
  (link_state (link s), transmit_seq_no (stats s), Fhss.curr_i (fhss s),
   WhileTransmit.do_cnt (whileTransmit s), length (Demo.sent (sx (dev s))),
   length (Demo.sent (sx2 (dev s))))
  = (LINK_STATE_TRANSMIT_WAIT, 0, 0, 4, 1%nat, 0%nat).
Proof. reflexivity. Qed.

(** A pass that meets the timeout cause while waiting for TX_DONE. *)
Example main_loop_tx_timeout_pass :
  link (state_of (main_loop (B := Demo.diversity) Demo.idle_handset Demo.tx_timeout))
  = mkLink LINK_STATE_IDLE RX_STATUS_NONE RX_STATUS_NONE 0 0.
Proof. reflexivity. Qed.

(** The pre-transmit block on the receiver's ack: the store request leaves
    the slot, the connection goes from Listen to Sync, the link to
    Transmit. *)
Example main_loop_ack_pass :
  let s := state_of (main_loop (B := Demo.diversity) Demo.idle_handset
                       Demo.ack_received) in
  (transmit_frame_type (frames s), connect_state (conn s), link_state (link s),
   received_seq_no_last (stats s), txstats (dev s))
  = (TRANSMIT_FRAME_TYPE_NORMAL, CONNECT_STATE_SYNC, LINK_STATE_TRANSMIT, 7,
     ["doValidFrameReceived"; "doFrameReceived"; "Next"]%string).
Proof. reflexivity. Qed.

(** The same block with nothing received on antenna 1 and an invalid frame
    on antenna 2, while [rxFrame] holds the ack of an earlier command: the
    store request leaves the slot, a valid frame is counted in the
    statistics, and the sequence number of the old ack is taken. *)
Example main_loop_stale_ack_pass :
  let s := state_of (main_loop (B := Demo.diversity) Demo.idle_handset
                       Scenario.stale_ack) in
  (valid_frame_received (B := Demo.diversity) Scenario.stale_ack,
   transmit_frame_type (frames s), rxFrame (frames s), link_state (link s),
   received_seq_no_last (stats s), txstats (dev s))
  = (false, TRANSMIT_FRAME_TYPE_NORMAL, Demo.ack_frame, LINK_STATE_TRANSMIT, 7,
     ["doValidFrameReceived"; "doFrameReceived"; "Next"]%string).
Proof. reflexivity. Qed.

(** A state of this kind arises in a run. After the ack of a first store
    request a second one is latched; in the next cycle antenna 1 receives
    nothing and antenna 2 a frame that fails its check. At the frame tick
    the request is in the slot, the only frame sent so far is the normal
    one, [rxFrame] still holds the first ack, and no valid frame counts as
    received; the pass ends with the slot free, and no command frame has
    been sent. *)
Example second_store_request_is_lost :
  let s := Scenario.second_store_unanswered in
  let s' := Scenario.pass Demo.idle_handset (Scenario.tick s) in
  (transmit_frame_type (frames s), link_state (link s),
   link_rx1_status (link s), link_rx2_status (link s),
   last_rx_rssi1 (stats s), last_rx_rssi2 (stats s), rxFrame (frames s),
   is_cmd_frame <$> Demo.sent (sx (dev s)),
   valid_frame_received (B := Demo.diversity)
     (sys_task (B := Demo.diversity) (Scenario.tick s)))
  = (TRANSMIT_FRAME_TYPE_CMD_STORE_RX_PARAMS, LINK_STATE_RECEIVE_WAIT,
     RX_STATUS_NONE, RX_STATUS_INVALID, -60, -80, Demo.ack_frame, [false], false)
  ∧ (transmit_frame_type (frames s'), link_state (link s'),
     is_cmd_frame <$> Demo.sent (sx (dev s')))
    = (TRANSMIT_FRAME_TYPE_NORMAL, LINK_STATE_TRANSMIT, [false]).
Proof. split; vm_compute; reflexivity. Qed.

(** A store command from the handset latches the request and the task. *)
Example main_loop_param_store :
  let s := state_of (main_loop (B := Demo.diversity)
                       (mkHandsetIn None (Some MBRIDGE_CMD_PARAM_STORE) None None false)
                       Demo.started) in
  (transmit_frame_type (frames s), WhileTransmit.tasks (whileTransmit s))
  = (TRANSMIT_FRAME_TYPE_CMD_STORE_RX_PARAMS, WHILE_TASK_STORE_PARAMS).
Proof. reflexivity. Qed.

(** The interrupt handler on a frame with a foreign sync word, and on one
    with the sync word of the link ([0x34 0x12] is [0x1234], low byte
    first). *)
Example isr_foreign_sync_word :
  irq_status (link (SX_DIO_EXTI_IRQHandler (B := Demo.diversity) Demo.foreign_frame))
  = 0.
Proof. reflexivity. Qed.

Example isr_own_sync_word :
  irq_status
    (link (SX_DIO_EXTI_IRQHandler (B := Demo.diversity)
             (upd_dev (C := Demo.collab)
                (set_sx (C := Demo.collab)
                   (Demo.mkModem 2 [52; 18; 0; 0] Demo.no_frame (0, 0) 0 []))
                Demo.started)))
  = 2.
Proof. reflexivity. Qed.

(** Start-up of the demo build. *)
Example main_init_demo :
  let s := state_of (main_init (B := Demo.diversity) (C := Demo.collab)
                       Demo.port0 Demo.port0 Demo.started) in
  (transmit_frame_type (frames s), link_state (link s), connect_state (conn s),
   Fhss.num (fhss s), Fhss.GetCurrFreq (fhss s))
  = (TRANSMIT_FRAME_TYPE_CMD_GET_RX_SETUPDATA, LINK_STATE_IDLE,
     CONNECT_STATE_LISTEN, 12, 2400).
Proof. reflexivity. Qed.

(** With [CONNECT_SYNC_CNT = 2]: Sync after one and after two valid frames,
    Connected after three. *)
Example connect_run_demo :
  (λ n, connect_state
          (connect_run (B := Demo.diversity) (replicate n (PreTransmit true))
             (mkConnect CONNECT_STATE_LISTEN 0 0))) <$> [0; 1; 2; 3; 4]%nat
  = [CONNECT_STATE_LISTEN; CONNECT_STATE_SYNC; CONNECT_STATE_SYNC;
     CONNECT_STATE_CONNECTED; CONNECT_STATE_CONNECTED].
Proof. reflexivity. Qed.

(** ** Machine integers *)

Lemma wrap8_small x : 0 ≤ x < 256 → wrap8 x = x.
Proof. intros. unfold wrap8. by rewrite Z.mod_small. Qed.

Lemma wrap16_small x : 0 ≤ x < 65536 → wrap16 x = x.
Proof. intros. unfold wrap16. by rewrite Z.mod_small. Qed.

Lemma nonzero_true x : nonzero x = true ↔ x ≠ 0.
Proof. unfold nonzero. rewrite negb_true_iff, Z.eqb_neq. done. Qed.

Lemma nonzero_false x : nonzero x = false ↔ x = 0.
Proof. unfold nonzero. rewrite negb_false_iff, Z.eqb_eq. done. Qed.

(** ** Channel order *)

(** With the map at its initial value, [Apply] changes nothing. *)
Lemma ChannelOrder_Apply_init ch0 ch1 ch2 ch3 rest :
  ChannelOrder.Apply ChannelOrder.init (ch0 :: ch1 :: ch2 :: ch3 :: rest)
  = ch0 :: ch1 :: ch2 :: ch3 :: rest.
Proof. reflexivity. Qed.

(** Order ETAR from the initial object: elevator, throttle, aileron. *)
Lemma ChannelOrder_etar_once ch0 ch1 ch2 ch3 rest :
  etar_once (ch0 :: ch1 :: ch2 :: ch3 :: rest)
  = (ChannelOrder.mk CHANNEL_ORDER_ETAR [2; 0; 1; 3],
     ch2 :: ch0 :: ch1 :: ch3 :: rest).
Proof. reflexivity. Qed.

(** [Set] sees its argument as an 8-bit value: 258 arrives as 2, which is
    ETAR. *)
Example ChannelOrder_Set_truncates :
  ChannelOrder.Set_ 258 ChannelOrder.init
  = ChannelOrder.mk CHANNEL_ORDER_ETAR [2; 0; 1; 3].
Proof. reflexivity. Qed.

(** [Set] back to AETR stores the order id and keeps the ETAR map, so the
    third [Apply] permutes once more. *)
Lemma ChannelOrder_aetr_etar_aetr ch0 ch1 ch2 ch3 rest :
  aetr_etar_aetr (ch0 :: ch1 :: ch2 :: ch3 :: rest)
  = (ChannelOrder.mk CHANNEL_ORDER_AETR [2; 0; 1; 3],
     ch1 :: ch2 :: ch0 :: ch3 :: rest).
Proof. reflexivity. Qed.

(** C4, evaluated on the code: for the channel vector
    [1000, 1200, 1400, 1600] the sequence set AETR / apply, set ETAR / apply,
    set AETR / apply ends in [1200, 1400, 1000, 1600] with the ETAR map still
    in place, whereas one ETAR reordering gives [1400, 1000, 1200, 1600]: the
    last application under order AETR is not the identity. *)
Theorem C4_aetr_after_etar_keeps_etar_map :
  aetr_etar_aetr [1000; 1200; 1400; 1600]
    = (ChannelOrder.mk CHANNEL_ORDER_AETR [2; 0; 1; 3], [1200; 1400; 1000; 1600])
  ∧ (etar_once [1000; 1200; 1400; 1600]).2 = [1400; 1000; 1200; 1600]
  ∧ (aetr_etar_aetr [1000; 1200; 1400; 1600]).2
      ≠ (etar_once [1000; 1200; 1400; 1600]).2.
Proof. repeat split. intros Heq. discriminate Heq. Qed.

(** ** While transmit tasks *)

Lemma land_1_mod x : Z.land x 1 = x mod 2.
Proof. change 1 with (Z.ones 1). by rewrite Z.land_ones. Qed.

Lemma wrap8_bit0 x : Z.land (wrap8 x) 1 = Z.land x 1.
Proof.
  rewrite !land_1_mod. unfold wrap8.
  apply Z.mod_mod_divide. by exists 128.
Qed.

Lemma lor_1_bit0 x : Z.land (Z.lor x 1) 1 = 1.
Proof.
  rewrite land_1_mod, <- Z.bit0_mod, Z.lor_spec.
  by rewrite orb_true_r.
Qed.

Lemma clear_bit0 x : Z.land (Z.land x (Z.lnot 1)) 1 = 0.
Proof.
  rewrite land_1_mod, <- Z.bit0_mod, Z.land_spec.
  by rewrite andb_false_r.
Qed.

Lemma WhileTransmit_SetTask_latched w :
  nonzero (Z.land (WhileTransmit.tasks
             (WhileTransmit.SetTask WHILE_TASK_STORE_PARAMS w))
           WHILE_TASK_STORE_PARAMS) = true.
Proof.
  unfold WhileTransmit.SetTask, WHILE_TASK_STORE_PARAMS. simpl.
  by rewrite wrap8_bit0, lor_1_bit0.
Qed.

Lemma nonzero_land_nonzero x m : nonzero (Z.land x m) = true → nonzero x = true.
Proof.
  rewrite !nonzero_true. intros Hx ->. by rewrite Z.land_0_l in Hx.
Qed.

(** Not triggered, or already run down: [Do] does nothing. *)
Lemma WhileTransmit_Do_idle w :
  WhileTransmit.do_cnt w = 0 → WhileTransmit.Do w = (w, []).
Proof. intros Hc. unfold WhileTransmit.Do. by rewrite Hc. Qed.

Lemma WhileTransmit_Do_n_idle n w :
  WhileTransmit.do_cnt w = 0 → WhileTransmit.Do_n n w = (w, []).
Proof.
  intros Hc. induction n as [|n IH]; [done|].
  simpl. rewrite (WhileTransmit_Do_idle w Hc). simpl. by rewrite IH.
Qed.

Lemma WhileTransmit_Do_n_add n m w :
  WhileTransmit.Do_n (n + m) w
  = let r := WhileTransmit.Do_n n w in
    let r' := WhileTransmit.Do_n m r.1 in (r'.1, r.2 ++ r'.2).
Proof.
  revert w. induction n as [|n IH]; intros w; simpl.
  - by destruct (WhileTransmit.Do_n m w).
  - rewrite IH. simpl. by rewrite app_assoc.
Qed.

(** While [do_cnt] is above the number of calls made, nothing is run and
    every call counts down by one. *)
Lemma WhileTransmit_Do_n_postpone n w :
  Z.of_nat n < WhileTransmit.do_cnt w < 65536 →
  WhileTransmit.Do_n n w
  = (WhileTransmit.mk (WhileTransmit.tasks w) (WhileTransmit.do_cnt w - Z.of_nat n), []).
Proof.
  revert w. induction n as [|n IH]; intros [t c] Hc; simpl in *.
  - by rewrite Z.sub_0_r.
  - unfold WhileTransmit.Do; simpl.
    assert (nonzero c = true) as -> by (apply nonzero_true; lia). simpl.
    rewrite wrap16_small by lia.
    assert (nonzero (c - 1) = true) as -> by (apply nonzero_true; lia). simpl.
    rewrite IH by (simpl; lia). simpl. do 2 f_equal. lia.
Qed.

(** The call that brings [do_cnt] from 1 to 0 runs a latched store task
    and clears its request bit. *)
Lemma WhileTransmit_Do_last w :
  WhileTransmit.do_cnt w = 1 →
  nonzero (Z.land (WhileTransmit.tasks w) WHILE_TASK_STORE_PARAMS) = true →
  WhileTransmit.Do w
  = (WhileTransmit.mk
       (wrap8 (Z.land (WhileTransmit.tasks w) (Z.lnot WHILE_TASK_STORE_PARAMS))) 0,
     [msg_post_transmit_task; msg_store]).
Proof.
  intros Hc Ht. unfold WhileTransmit.Do. rewrite Hc. simpl.
  rewrite (nonzero_land_nonzero _ _ Ht). simpl.
  unfold WhileTransmit.handle_tasks. simpl. by rewrite Ht.
Qed.

Lemma WhileTransmit_stores_app out1 out2 :
  WhileTransmit.stores (out1 ++ out2)
  = (WhileTransmit.stores out1 + WhileTransmit.stores out2)%nat.
Proof. unfold WhileTransmit.stores. by rewrite filter_app, length_app. Qed.

Lemma WhileTransmit_stores_store :
  WhileTransmit.stores [msg_post_transmit_task; msg_store] = 1%nat.
Proof. by vm_compute. Qed.

Lemma WhileTransmit_stores_no_store :
  WhileTransmit.stores [msg_post_transmit_task] = 0%nat.
Proof. by vm_compute. Qed.

(** The call that brings [do_cnt] from 1 to 0 leaves no store request
    behind, whether it has run the store task or not. *)
Lemma WhileTransmit_Do_last_clears w :
  WhileTransmit.do_cnt w = 1 →
  WhileTransmit.do_cnt (WhileTransmit.Do w).1 = 0
  ∧ nonzero (Z.land (WhileTransmit.tasks (WhileTransmit.Do w).1)
                    WHILE_TASK_STORE_PARAMS) = false.
Proof.
  intros Hc. unfold WhileTransmit.Do. rewrite Hc.
  change (nonzero 1) with true. cbn [negb WhileTransmit.do_cnt WhileTransmit.tasks].
  change (nonzero (wrap16 (1 - 1))) with false. cbv iota.
  destruct (nonzero (WhileTransmit.tasks w)) eqn:Ht; cbn [negb].
  - unfold WhileTransmit.handle_tasks.
    cbn [WhileTransmit.do_cnt WhileTransmit.tasks].
    destruct (nonzero (Z.land (WhileTransmit.tasks w) WHILE_TASK_STORE_PARAMS))
      eqn:Hb; cbn [fst WhileTransmit.do_cnt WhileTransmit.tasks].
    + split; [done|]. unfold WHILE_TASK_STORE_PARAMS.
      by rewrite wrap8_bit0, clear_bit0.
    + by split.
  - cbn [fst WhileTransmit.do_cnt WhileTransmit.tasks]. split; [done|].
    apply nonzero_false in Ht. by rewrite Ht.
Qed.

(** Five or more calls after a trigger leave no store request behind. *)
Lemma WhileTransmit_window_clears k w :
  (5 ≤ k)%nat →
  nonzero (Z.land (WhileTransmit.tasks
                     (WhileTransmit.Do_n k (WhileTransmit.Trigger w)).1)
                  WHILE_TASK_STORE_PARAMS) = false.
Proof.
  intros Hk. replace k with (4 + (1 + (k - 5)))%nat by lia.
  rewrite WhileTransmit_Do_n_add.
  rewrite (WhileTransmit_Do_n_postpone 4) by (simpl; lia).
  cbv zeta. cbn [fst snd app].
  change (1 + (k - 5))%nat with (S (k - 5)). cbn [WhileTransmit.Do_n].
  cbv zeta. cbn [fst].
  set (w4 := WhileTransmit.mk _ _).
  destruct (WhileTransmit_Do_last_clears w4) as [Hc Hb]; [done|].
  by rewrite WhileTransmit_Do_n_idle.
Qed.

(** The account of the store request over one call of [Do]: the request is
    pending after the call exactly when it was pending before and the call
    has not run the store task, and the task is run only on a pending
    request. *)
Lemma WhileTransmit_Do_store_account w :
  (WhileTransmit.stores (WhileTransmit.Do w).2
   + (if nonzero (Z.land (WhileTransmit.tasks (WhileTransmit.Do w).1)
                         WHILE_TASK_STORE_PARAMS) then 1 else 0)
   = if nonzero (Z.land (WhileTransmit.tasks w) WHILE_TASK_STORE_PARAMS)
     then 1 else 0)%nat.
Proof.
  assert (∀ b : bool,
    (WhileTransmit.stores [] + (if b then 1 else 0) = if b then 1 else 0)%nat)
    as Hidle by (intros []; change (WhileTransmit.stores []) with 0%nat; lia).
  unfold WhileTransmit.Do.
  destruct (nonzero (WhileTransmit.do_cnt w)); cbn [negb fst snd];
    [|apply Hidle].
  cbn [WhileTransmit.do_cnt WhileTransmit.tasks].
  destruct (nonzero (wrap16 (WhileTransmit.do_cnt w - 1)));
    [cbn [fst snd WhileTransmit.tasks]; apply Hidle|].
  destruct (nonzero (WhileTransmit.tasks w)); cbn [negb];
    [|cbn [fst snd WhileTransmit.tasks]; apply Hidle].
  unfold WhileTransmit.handle_tasks.
  cbn [WhileTransmit.do_cnt WhileTransmit.tasks].
  destruct (nonzero (Z.land (WhileTransmit.tasks w) WHILE_TASK_STORE_PARAMS)) eqn:Hb.
  - cbn [fst snd WhileTransmit.tasks].
    rewrite WhileTransmit_stores_store.
    unfold WHILE_TASK_STORE_PARAMS. rewrite wrap8_bit0, clear_bit0.
    change (nonzero 0) with false. cbv iota. lia.
  - cbn [fst snd WhileTransmit.tasks].
    rewrite Hb, WhileTransmit_stores_no_store. lia.
Qed.

Lemma WhileTransmit_calls_app cs1 cs2 w :
  WhileTransmit_calls (cs1 ++ cs2) w
  = let r := WhileTransmit_calls cs1 w in
    let r' := WhileTransmit_calls cs2 r.1 in (r'.1, r.2 ++ r'.2).
Proof.
  revert w. induction cs1 as [|c cs1 IH]; intros w; cbn [app WhileTransmit_calls].
  - cbv zeta. cbn [fst snd app]. by destruct (WhileTransmit_calls cs2 w).
  - rewrite IH. cbv zeta. cbn [fst snd]. by rewrite app_assoc.
Qed.

Lemma WhileTransmit_calls_Do_n n w :
  WhileTransmit_calls (replicate n CallDo) w = WhileTransmit.Do_n n w.
Proof.
  revert w. induction n as [|n IH]; intros w; [done|].
  cbn [replicate WhileTransmit_calls WhileTransmit.Do_n WhileTransmit_call].
  by rewrite IH.
Qed.

(** The same account over any sequence of [Trigger] and [Do] calls. *)
Lemma WhileTransmit_calls_store_account cs : ∀ w,
  count_if is_set_task cs = 0%nat →
  let r := WhileTransmit_calls cs w in
  (WhileTransmit.stores r.2
   + (if nonzero (Z.land (WhileTransmit.tasks r.1) WHILE_TASK_STORE_PARAMS)
      then 1 else 0)
   = if nonzero (Z.land (WhileTransmit.tasks w) WHILE_TASK_STORE_PARAMS)
     then 1 else 0)%nat.
Proof.
  induction cs as [|c cs IH]; intros w Hcs; cbv zeta.
  { cbn [WhileTransmit_calls fst snd].
    change (WhileTransmit.stores []) with 0%nat. lia. }
  cbn [count_if] in Hcs.
  assert (count_if is_set_task cs = 0%nat) as Hcs' by lia.
  cbn [WhileTransmit_calls]. cbv zeta. cbn [fst snd].
  rewrite WhileTransmit_stores_app.
  pose proof (IH (WhileTransmit_call w c).1 Hcs') as IHc. cbv zeta in IHc.
  destruct c as [|task|]; cbn [WhileTransmit_call fst snd is_set_task] in *.
  - change (WhileTransmit.stores []) with 0%nat.
    cbn [WhileTransmit.Trigger WhileTransmit.tasks] in IHc. lia.
  - lia.
  - pose proof (WhileTransmit_Do_store_account w). lia.
Qed.

(** C8: one call of [Do] runs at most one task; a call that runs
    [handle_tasks] is the one in which a triggered [do_cnt] reaches zero;
    after [Trigger] the first four calls run nothing, whatever is pending;
    a store task latched by [SetTask] is run by the fifth call after the
    trigger and by no other of that countdown, so that any five or more
    calls run it exactly once. Over the passes of the loop, where [Trigger]
    comes again with every frame sent: in any sequence of [Trigger] and [Do]
    calls that follows the [SetTask], the store task has run once when the
    request is no longer pending and not at all while it is, and once a
    [Trigger] has been followed by five or more [Do] calls it has run
    exactly once in all, whatever countdowns came before. *)
Theorem C8_while_transmit_one_task_after_countdown (w : WhileTransmit.t) :
  (WhileTransmit.stores (WhileTransmit.Do w).2 ≤ 1)%nat
  ∧ ((WhileTransmit.Do w).2 ≠ [] →
       WhileTransmit.do_cnt w ≠ 0 ∧ WhileTransmit.do_cnt (WhileTransmit.Do w).1 = 0)
  ∧ WhileTransmit.do_cnt (WhileTransmit.Trigger w) = 5
  ∧ (∀ n, (n < 5)%nat →
       (WhileTransmit.Do_n n (WhileTransmit.Trigger w)).2 = [])
  ∧ (let w1 := WhileTransmit.Trigger
                 (WhileTransmit.SetTask WHILE_TASK_STORE_PARAMS w) in
     (WhileTransmit.Do (WhileTransmit.Do_n 4 w1).1).2
       = [msg_post_transmit_task; msg_store]
     ∧ ∀ n, (5 ≤ n)%nat →
         WhileTransmit.stores (WhileTransmit.Do_n n w1).2 = 1%nat)
  ∧ (∀ cs, count_if is_set_task cs = 0%nat →
       let r := WhileTransmit_calls cs
                  (WhileTransmit.SetTask WHILE_TASK_STORE_PARAMS w) in
       WhileTransmit.stores r.2
       = if nonzero (Z.land (WhileTransmit.tasks r.1) WHILE_TASK_STORE_PARAMS)
         then 0%nat else 1%nat)
  ∧ (∀ cs k, count_if is_set_task cs = 0%nat → (5 ≤ k)%nat →
       WhileTransmit.stores
         (WhileTransmit_calls (cs ++ CallTrigger :: replicate k CallDo)
            (WhileTransmit.SetTask WHILE_TASK_STORE_PARAMS w)).2 = 1%nat).
Proof.
  split; [|split; [|split; [done|split; [|split; [|split]]]]].
  - unfold WhileTransmit.Do, WhileTransmit.handle_tasks.
    repeat (case_match; simpl); unfold WhileTransmit.stores; simpl; lia.
  - unfold WhileTransmit.Do, WhileTransmit.handle_tasks.
    destruct (nonzero (WhileTransmit.do_cnt w)) eqn:Hc; simpl; [|done].
    destruct (nonzero (wrap16 (WhileTransmit.do_cnt w - 1))) eqn:Hd; simpl; [done|].
    intros _. split; [by apply nonzero_true|].
    repeat (case_match; simpl); by apply nonzero_false.
  - intros n Hn. rewrite WhileTransmit_Do_n_postpone; [done|simpl; lia].
  - set (w1 := WhileTransmit.Trigger _).
    assert (WhileTransmit.Do_n 4 w1
            = (WhileTransmit.mk (WhileTransmit.tasks w1) 1, [])) as H4.
    { rewrite WhileTransmit_Do_n_postpone; [done|simpl; lia]. }
    assert (nonzero (Z.land (WhileTransmit.tasks w1) WHILE_TASK_STORE_PARAMS) = true)
      as Hlatched by apply WhileTransmit_SetTask_latched.
    split.
    + rewrite H4. simpl. by rewrite WhileTransmit_Do_last.
    + intros n Hn. replace n with (4 + (1 + (n - 5)))%nat by lia.
      rewrite WhileTransmit_Do_n_add, H4. cbv zeta. cbn [fst snd app].
      change (1 + (n - 5))%nat with (S (n - 5)). cbn [WhileTransmit.Do_n].
      rewrite WhileTransmit_Do_last by done. cbn [fst snd].
      rewrite WhileTransmit_Do_n_idle by done. done.
  - intros cs Hcs. cbv zeta.
    pose proof (WhileTransmit_calls_store_account cs
                  (WhileTransmit.SetTask WHILE_TASK_STORE_PARAMS w) Hcs) as Hacc.
    cbv zeta in Hacc. rewrite WhileTransmit_SetTask_latched in Hacc.
    destruct (nonzero (Z.land _ _)); lia.
  - intros cs k Hcs Hk. rewrite WhileTransmit_calls_app. cbv zeta. cbn [snd].
    rewrite WhileTransmit_stores_app.
    set (w1 := WhileTransmit.SetTask WHILE_TASK_STORE_PARAMS w).
    pose proof (WhileTransmit_calls_store_account cs w1 Hcs) as Hacc.
    cbv zeta in Hacc. unfold w1 in Hacc at 3.
    rewrite WhileTransmit_SetTask_latched in Hacc.
    set (r := WhileTransmit_calls cs w1) in *.
    cbn [WhileTransmit_calls WhileTransmit_call]. cbv zeta. cbn [fst snd app].
    rewrite WhileTransmit_calls_Do_n.
    pose proof (WhileTransmit_window_clears k r.1 Hk) as Hclr.
    assert (count_if is_set_task (replicate k CallDo) = 0%nat) as Hdo
      by (clear; induction k as [|k IH]; [done|]; cbn; exact IH).
    pose proof (WhileTransmit_calls_store_account (replicate k CallDo)
                  (WhileTransmit.Trigger r.1) Hdo) as Hwin.
    cbv zeta in Hwin. rewrite WhileTransmit_calls_Do_n, Hclr in Hwin.
    cbn [WhileTransmit.Trigger WhileTransmit.tasks] in Hwin. lia.
Qed.

Section TxProperties.
Context {B : Build} {C : Collab}.

(** ** Connection state machine *)

Lemma connect_tick_state c : connect_state (connect_tick c) = connect_state c.
Proof. unfold connect_tick. by case_match. Qed.

Lemma connect_tick_sync_cnt c :
  connect_sync_cnt (connect_tick c) = connect_sync_cnt c.
Proof. unfold connect_tick. by case_match. Qed.

Lemma connect_run_cons e evs c :
  connect_run (e :: evs) c = connect_run evs (connect_step c e).
Proof. done. Qed.

(** A valid frame in [Listen] leads to [Sync] with the counter at zero. *)
Lemma connect_update_listen c :
  connect_state c = CONNECT_STATE_LISTEN →
  connect_update true c
  = mkConnect CONNECT_STATE_SYNC (wrap16 CONNECT_TMO_SYSTICKS) 0.
Proof. intros Hs. unfold connect_update. rewrite Hs. done. Qed.

(** A valid frame in [Sync] counts; the threshold decides. *)
Lemma connect_update_sync c :
  wrap16 CONNECT_TMO_SYSTICKS ≠ 0 →
  connect_state c = CONNECT_STATE_SYNC →
  connect_update true c
  = mkConnect
      (if CONNECT_SYNC_CNT <=? wrap8 (connect_sync_cnt c + 1)
       then CONNECT_STATE_CONNECTED else CONNECT_STATE_SYNC)
      (wrap16 CONNECT_TMO_SYSTICKS) (wrap8 (connect_sync_cnt c + 1)).
Proof.
  intros Ht Hs. unfold connect_update. rewrite Hs. tx_unfold_simpl.
  apply nonzero_true in Ht.
  destruct (CONNECT_SYNC_CNT <=? wrap8 (connect_sync_cnt c + 1)); tx_unfold_simpl;
    rewrite ?Ht; tx_unfold_simpl; rewrite ?Hs; done.
Qed.

(** A valid frame in [Connected] re-arms the timeout. *)
Lemma connect_update_connected c :
  wrap16 CONNECT_TMO_SYSTICKS ≠ 0 →
  connect_state c = CONNECT_STATE_CONNECTED →
  connect_update true c
  = mkConnect CONNECT_STATE_CONNECTED (wrap16 CONNECT_TMO_SYSTICKS)
      (connect_sync_cnt c).
Proof.
  intros Ht Hs. unfold connect_update. rewrite Hs. tx_unfold_simpl.
  apply nonzero_true in Ht. rewrite Ht. done.
Qed.

(** Without a valid frame only [Connected] can be left, and only when the
    timeout counter is at zero. *)
Lemma connect_update_invalid c :
  connect_update false c
  = if bool_decide (connect_state c = CONNECT_STATE_CONNECTED) then
      if nonzero (connect_tmo_cnt c)
      then set_connect_sync_cnt 0 c
      else set_connect_state CONNECT_STATE_LISTEN c
    else c.
Proof.
  unfold connect_update. destruct c as [st tmo cnt]. tx_unfold_simpl.
  destruct st; tx_unfold_simpl; try done.
  destruct (nonzero tmo); tx_unfold_simpl; done.
Qed.

Lemma connect_run_reaches_connected evs :
  1 ≤ CONNECT_SYNC_CNT ≤ 255 →
  wrap16 CONNECT_TMO_SYSTICKS ≠ 0 →
  ∀ c,
    forallb is_valid_or_tick evs = true →
    connect_inv c →
    valid_frames_needed c ≤ Z.of_nat (count_if is_pre_transmit evs) →
    connect_state (connect_run evs c) = CONNECT_STATE_CONNECTED.
Proof.
  intros HK HT. induction evs as [|e evs IH]; intros c Hall Hinv Hneed.
  - unfold valid_frames_needed, connect_inv in *. simpl in *.
    destruct (connect_state c) eqn:Hs; try done; try lia.
    specialize (Hinv eq_refl). lia.
  - rewrite connect_run_cons. simpl in Hall. apply andb_true_iff in Hall as [He Hall].
    apply IH; [done| |]; destruct e as [|v]; simpl in *.
    + unfold connect_inv. rewrite connect_tick_state, connect_tick_sync_cnt. done.
    + subst v. unfold connect_inv in *.
      destruct (connect_state c) eqn:Hs.
      * rewrite connect_update_listen by done. simpl. lia.
      * rewrite connect_update_sync by done. simpl.
        specialize (Hinv eq_refl). rewrite wrap8_small by lia.
        destruct (CONNECT_SYNC_CNT <=? _) eqn:Hle; simpl; [done|].
        intros _. apply Z.leb_gt in Hle. lia.
      * rewrite connect_update_connected by done. done.
    + unfold valid_frames_needed in *.
      rewrite connect_tick_state, connect_tick_sync_cnt. lia.
    + subst v. unfold valid_frames_needed, connect_inv in *.
      destruct (connect_state c) eqn:Hs.
      * rewrite connect_update_listen by done. simpl. lia.
      * rewrite connect_update_sync by done. simpl.
        specialize (Hinv eq_refl). rewrite wrap8_small by lia.
        destruct (CONNECT_SYNC_CNT <=? _) eqn:Hle; simpl; lia.
      * rewrite connect_update_connected by done. simpl. lia.
Qed.

Lemma connect_run_not_yet_connected evs :
  1 ≤ CONNECT_SYNC_CNT ≤ 255 →
  wrap16 CONNECT_TMO_SYSTICKS ≠ 0 →
  ∀ c,
    forallb is_valid_or_tick evs = true →
    connect_inv c →
    Z.of_nat (count_if is_pre_transmit evs) < valid_frames_needed c →
    connect_state (connect_run evs c) ≠ CONNECT_STATE_CONNECTED.
Proof.
  intros HK HT. induction evs as [|e evs IH]; intros c Hall Hinv Hneed.
  - unfold valid_frames_needed in Hneed. simpl in *.
    destruct (connect_state c) eqn:Hs; try done; lia.
  - rewrite connect_run_cons. simpl in Hall. apply andb_true_iff in Hall as [He Hall].
    apply IH; [done| |]; destruct e as [|v]; simpl in *.
    + unfold connect_inv. rewrite connect_tick_state, connect_tick_sync_cnt. done.
    + subst v. unfold connect_inv, valid_frames_needed in *.
      destruct (connect_state c) eqn:Hs.
      * rewrite connect_update_listen by done. simpl. lia.
      * rewrite connect_update_sync by done. simpl.
        specialize (Hinv eq_refl). rewrite wrap8_small by lia.
        destruct (CONNECT_SYNC_CNT <=? _) eqn:Hle; simpl; [done|].
        intros _. apply Z.leb_gt in Hle. lia.
      * rewrite connect_update_connected by done. done.
    + unfold valid_frames_needed in *.
      rewrite connect_tick_state, connect_tick_sync_cnt. lia.
    + subst v. unfold valid_frames_needed, connect_inv in *.
      destruct (connect_state c) eqn:Hs.
      * rewrite connect_update_listen by done. simpl. lia.
      * rewrite connect_update_sync by done. simpl.
        specialize (Hinv eq_refl). rewrite wrap8_small by lia.
        destruct (CONNECT_SYNC_CNT <=? _) eqn:Hle; simpl; [|lia].
        apply Z.leb_le in Hle. lia.
      * lia.
Qed.

Lemma connect_run_times_out evs :
  ∀ c,
    forallb is_invalid_or_tick evs = true →
    (connect_state c = CONNECT_STATE_LISTEN
     ∨ (connect_state c = CONNECT_STATE_CONNECTED
        ∧ 0 ≤ connect_tmo_cnt c ≤ Z.of_nat (count_if is_tick evs))) →
    connect_state (connect_run (evs ++ [PreTransmit false]) c)
    = CONNECT_STATE_LISTEN.
Proof.
  induction evs as [|e evs IH]; intros c Hall Hc.
  - simpl. rewrite connect_update_invalid.
    destruct Hc as [Hs|[Hs Ht]]; rewrite Hs; simpl; [done|].
    simpl in Ht. replace (connect_tmo_cnt c) with 0 by lia. done.
  - simpl app. rewrite connect_run_cons. simpl in Hall.
    apply andb_true_iff in Hall as [He Hall]. apply IH; [done|].
    destruct e as [|v]; simpl in *.
    + rewrite connect_tick_state. destruct Hc as [Hs|[Hs Ht]]; [by left|right].
      split; [done|]. unfold connect_tick.
      destruct (nonzero (connect_tmo_cnt c)) eqn:Hn; simpl;
        [|apply nonzero_false in Hn; lia].
      apply nonzero_true in Hn. unfold wrap16.
      pose proof (Z.mod_pos_bound (connect_tmo_cnt c - 1) 65536 ltac:(lia)).
      pose proof (Z.mod_le (connect_tmo_cnt c - 1) 65536 ltac:(lia) ltac:(lia)).
      lia.
    + apply negb_true_iff in He. subst v. rewrite connect_update_invalid.
      destruct Hc as [Hs|[Hs Ht]]; rewrite Hs; simpl; [by left|].
      destruct (nonzero (connect_tmo_cnt c)); simpl; [right|left]; done.
Qed.

(** C1 (amended): with [1 <= CONNECT_SYNC_CNT <= 255] and a timeout
    constant that is not zero as a 16-bit value, every run from Listen whose
    pre-transmit steps all see a valid frame, system ticks in between in any
    number, is not Connected as long as it has made at most [CONNECT_SYNC_CNT]
    pre-transmit steps and is Connected once it has made
    [CONNECT_SYNC_CNT + 1] of them (one step takes Listen to Sync, the
    following [CONNECT_SYNC_CNT] are counted in Sync); and from Connected,
    a run without valid frame in which the timeout counter has been ticked
    down to zero is back in Listen after its next pre-transmit step. *)
Theorem C1_connected_after_sync_cnt_plus_one_valid_frames
    (HK : 1 ≤ CONNECT_SYNC_CNT ≤ 255)
    (HT : wrap16 CONNECT_TMO_SYSTICKS ≠ 0) :
  (∀ evs c,
     connect_state c = CONNECT_STATE_LISTEN →
     forallb is_valid_or_tick evs = true →
     (Z.of_nat (count_if is_pre_transmit evs) ≤ CONNECT_SYNC_CNT →
      connect_state (connect_run evs c) ≠ CONNECT_STATE_CONNECTED)
     ∧ (CONNECT_SYNC_CNT + 1 ≤ Z.of_nat (count_if is_pre_transmit evs) →
        connect_state (connect_run evs c) = CONNECT_STATE_CONNECTED))
  ∧ (∀ evs c,
       connect_state c = CONNECT_STATE_CONNECTED →
       forallb is_invalid_or_tick evs = true →
       0 ≤ connect_tmo_cnt c ≤ Z.of_nat (count_if is_tick evs) →
       connect_state (connect_run (evs ++ [PreTransmit false]) c)
       = CONNECT_STATE_LISTEN).
Proof.
  split.
  - intros evs c Hs Hall.
    assert (connect_inv c) as Hinv by (unfold connect_inv; congruence).
    split; intros Hn.
    + apply connect_run_not_yet_connected; try done.
      unfold valid_frames_needed. rewrite Hs. lia.
    + apply connect_run_reaches_connected; try done.
      unfold valid_frames_needed. by rewrite Hs.
  - intros evs c Hs Hall Ht. apply connect_run_times_out; [done|by right].
Qed.

(** ** The DIO interrupt handlers *)

Lemma irq_of_set_irq_of a v s : irq_of a (set_irq_of a v s) = v.
Proof. by destruct a. Qed.

Lemma sx_of_set_sx_of a v s : sx_of a (set_sx_of a v s) = v.
Proof. by destruct a. Qed.

Lemma sx_of_set_irq_of a v s : sx_of a (set_irq_of a v s) = sx_of a s.
Proof. by destruct a. Qed.

Lemma irq_of_upd_link_idle a s :
  irq_of a
    (upd_link (set_link_rx2_status RX_STATUS_NONE)
       (upd_link (set_link_rx1_status RX_STATUS_NONE)
          (upd_link (set_link_state LINK_STATE_IDLE) (set_irq_of a 0 s)))) = 0.
Proof. by destruct a. Qed.

Lemma Config_set_sx_of a v s : Config (set_sx_of a v s) = Config s.
Proof. by destruct a. Qed.

Lemma Config_set_irq_of a v s : Config (set_irq_of a v s) = Config s.
Proof. by destruct a. Qed.

(** C2: when the modem reports RX_DONE and the two bytes at the start of its
    buffer, read as a 16-bit word, differ from [Config.FrameSyncWord], the
    handler of either antenna returns with its slot ([irq_status], resp.
    [irq2_status]) equal to 0; in particular the RX_DONE bit is not set in
    what the main loop then reads. *)
Theorem C2_isr_zeroes_slot_on_foreign_sync_word (a : ANTENNA_ENUM) (s : tTx) :
  let r := sx_GetAndClearIrqStatus SX12xx_IRQ_ALL (sx_of a s) in
  Z.land (wrap16 r.1) SX12xx_IRQ_RX_DONE ≠ 0 →
  u16_of_bytes (sx_ReadBuffer 0 2 r.2).1 ≠ FrameSyncWord (Config s) →
  irq_of a (DIO_EXTI_IRQHandler a s) = 0
  ∧ Z.land (irq_of a (DIO_EXTI_IRQHandler a s)) SX12xx_IRQ_RX_DONE = 0.
Proof.
  intros r Hrx Hsync.
  assert (irq_of a (DIO_EXTI_IRQHandler a s) = 0) as Hzero.
  { unfold DIO_EXTI_IRQHandler. fold r.
    rewrite irq_of_set_irq_of, sx_of_set_irq_of, sx_of_set_sx_of.
    apply nonzero_true in Hrx. rewrite Hrx.
    rewrite Config_set_sx_of, Config_set_irq_of, Config_set_sx_of.
    apply Z.eqb_neq in Hsync. rewrite Hsync. simpl.
    apply irq_of_set_irq_of. }
  split; [done|]. rewrite Hzero. apply Z.land_0_l.
Qed.

(** ** Antenna arbiter *)

Lemma last_rx_antenna_handle_receive a s :
  last_rx_antenna (stats (handle_receive a s)) = a.
Proof. done. Qed.

(** C5: with both antennas in use, the arbiter elects the antenna whose
    status is Valid when the other one's is not; when both statuses are equal
    it elects antenna 1 if its last RSSI is strictly higher and antenna 2
    otherwise, hence antenna 2 on a tie and antenna 2 for both Valid at
    -70 dBm and -65 dBm; and when a frame was received the pre-transmit step
    hands the elected antenna to [handle_receive], which records it. *)
Theorem C5_antenna_arbiter (s : tTx)
    (Hant1 : USE_ANTENNA1 = true) (Hant2 : USE_ANTENNA2 = true) :
  (link_rx1_status (link s) = RX_STATUS_VALID →
   link_rx2_status (link s) ≠ RX_STATUS_VALID →
   select_antenna s = ANTENNA_1)
  ∧ (link_rx2_status (link s) = RX_STATUS_VALID →
     link_rx1_status (link s) ≠ RX_STATUS_VALID →
     select_antenna s = ANTENNA_2)
  ∧ (link_rx1_status (link s) = link_rx2_status (link s) →
     (last_rx_rssi1 (stats s) > last_rx_rssi2 (stats s) →
      select_antenna s = ANTENNA_1)
     ∧ (last_rx_rssi2 (stats s) > last_rx_rssi1 (stats s) →
        select_antenna s = ANTENNA_2)
     ∧ (last_rx_rssi1 (stats s) = last_rx_rssi2 (stats s) →
        select_antenna s = ANTENNA_2))
  ∧ (link_rx1_status (link s) = RX_STATUS_VALID →
     link_rx2_status (link s) = RX_STATUS_VALID →
     last_rx_rssi1 (stats s) = -70 →
     last_rx_rssi2 (stats s) = -65 →
     select_antenna s = ANTENNA_2)
  ∧ (frame_received s = true →
     pre_transmit_receive s = handle_receive (select_antenna s) s
     ∧ last_rx_antenna (stats (pre_transmit_receive s)) = select_antenna s).
Proof.
  assert (select_antenna s
          = if link_rx1_status (link s) =? link_rx2_status (link s) then
              if last_rx_rssi1 (stats s) >? last_rx_rssi2 (stats s)
              then ANTENNA_1 else ANTENNA_2
            else if link_rx1_status (link s) =? RX_STATUS_VALID then ANTENNA_1
            else if link_rx2_status (link s) =? RX_STATUS_VALID then ANTENNA_2
            else if last_rx_rssi1 (stats s) >? last_rx_rssi2 (stats s)
                 then ANTENNA_1 else ANTENNA_2) as Hsel.
  { unfold select_antenna. by rewrite Hant1, Hant2. }
  split; [|split; [|split; [|split]]]; rewrite ?Hsel.
  - intros H1 H2. rewrite H1.
    destruct (RX_STATUS_VALID =? link_rx2_status (link s)) eqn:He; [|done].
    apply Z.eqb_eq in He. congruence.
  - intros H2 H1. rewrite H2.
    destruct (link_rx1_status (link s) =? RX_STATUS_VALID) eqn:He.
    { apply Z.eqb_eq in He. congruence. }
    by rewrite Z.eqb_refl.
  - intros He. rewrite He, Z.eqb_refl.
    destruct (Z.gtb_spec (last_rx_rssi1 (stats s)) (last_rx_rssi2 (stats s)));
      repeat split; intros; solve [done | lia].
  - intros H1 H2 Hr1 Hr2. by rewrite H1, H2, Hr1, Hr2.
  - intros Hf. unfold pre_transmit_receive. rewrite Hf, <- Hsel.
    split; [done|]. apply last_rx_antenna_handle_receive.
Qed.

(** ** Receiving *)

(** C10: when the status of the antenna handed to [handle_receive] is
    Invalid, the call sets [stats.received_seq_no_last] to [UINT8_MAX] and
    [stats.received_ack_last] to 0, leaves the serial port and the MAVLink
    handler as they are (no byte is put out), records the antenna in
    [stats.last_rx_antenna] and makes the one call
    [txstats.doFrameReceived()]; the pre-transmit step reaches this call
    whenever the elected antenna has status Invalid. *)
Theorem C10_handle_receive_invalid_frame (antenna : ANTENNA_ENUM) (s : tTx) :
  link_rx_status_of antenna s = RX_STATUS_INVALID →
  let s' := handle_receive antenna s in
  received_seq_no_last (stats s') = UINT8_MAX
  ∧ received_ack_last (stats s') = 0
  ∧ serialport (dev s') = serialport (dev s)
  ∧ mavlink (dev s') = mavlink (dev s)
  ∧ last_rx_antenna (stats s') = antenna
  ∧ txstats (dev s') = txstats_doFrameReceived (txstats (dev s))
  ∧ (antenna = select_antenna s → frame_received s = true →
     pre_transmit_receive s = s').
Proof.
  intros Hst s'. subst s'. unfold handle_receive. rewrite Hst. simpl.
  repeat split; try done.
  intros -> Hf. unfold pre_transmit_receive, handle_receive.
  by rewrite Hf, Hst.
Qed.

(** ** Transmitting *)


(** The first statement of [process_transmit_frame] writes the slot and the
    pending flag only. *)
Lemma latch_set_rx_params_frame s :
  let s' := latch_set_rx_params s in
  dev s' = dev s ∧ stats s' = stats s ∧ fhss s' = fhss s ∧ link s' = link s
  ∧ conn s' = conn s ∧ sched s' = sched s ∧ whileTransmit s' = whileTransmit s
  ∧ rcData s' = rcData s
  ∧ payload (frames s') = payload (frames s)
  ∧ payload_len (frames s') = payload_len (frames s).
Proof. unfold latch_set_rx_params. by case_match. Qed.

(** The slot holds NORMAL after the first statement exactly when it held
    NORMAL before and no parameter change was pending. *)
Lemma latch_set_rx_params_normal s :
  transmit_frame_type (frames (latch_set_rx_params s)) = TRANSMIT_FRAME_TYPE_NORMAL
  ↔ transmit_frame_type (frames s) = TRANSMIT_FRAME_TYPE_NORMAL
    ∧ setup_rx_param_changed (frames s) = false.
Proof.
  unfold latch_set_rx_params.
  destruct (setup_rx_param_changed (frames s)); simpl.
  - case_bool_decide; split; try done; by intros [].
  - split; [done | by intros []].
Qed.


Lemma latch_set_rx_params_cmd s :
  transmit_frame_type (frames s) ≠ TRANSMIT_FRAME_TYPE_NORMAL →
  latch_set_rx_params s = s.
Proof.
  intros Ht. unfold latch_set_rx_params.
  rewrite (bool_decide_eq_false_2 _ Ht). by rewrite andb_false_r.
Qed.

(** The serial loop writes the payload buffer, its length and the two byte
    sources. *)
Lemma read_serial_payload_frame n s :
  let s' := read_serial_payload n s in
  link s' = link s ∧ conn s' = conn s ∧ sched s' = sched s
  ∧ fhss s' = fhss s ∧ whileTransmit s' = whileTransmit s
  ∧ stats s' = stats s ∧ rcData s' = rcData s
  ∧ transmit_frame_type (frames s') = transmit_frame_type (frames s)
  ∧ sx (dev s') = sx (dev s) ∧ sx2 (dev s') = sx2 (dev s).
Proof.
  revert s. induction n as [|n IH]; intros s; [done|].
  simpl. repeat case_match; try done;
    match goal with |- context [read_serial_payload n ?s1] =>
      destruct (IH s1) as (->&->&->&->&->&->&->&->&->&->) end; done.
Qed.

Lemma collect_payload_frame s :
  let s' := collect_payload s in
  link s' = link s ∧ conn s' = conn s ∧ sched s' = sched s
  ∧ fhss s' = fhss s ∧ whileTransmit s' = whileTransmit s
  ∧ stats s' = stats s ∧ rcData s' = rcData s
  ∧ transmit_frame_type (frames s') = transmit_frame_type (frames s)
  ∧ sx (dev s') = sx (dev s) ∧ sx2 (dev s') = sx2 (dev s).
Proof.
  unfold collect_payload. case_bool_decide; [|done]. cbv zeta.
  set (s0 := upd_frames (set_payload_len 0) _).
  destruct (read_serial_payload_frame FRAME_TX_PAYLOAD_LEN s0)
    as (Hl&Hc&Hs&Hf&Hw&Hst&Hrc&Ht&Hx&Hx2).
  destruct (connected s0); [|by destruct (serialport (dev s0))].
  destruct (serialport (dev s0)); [|done].
  tx_red. by rewrite Hl, Hc, Hs, Hf, Hw, Hst, Hrc, Ht, Hx, Hx2.
Qed.



Lemma collect_payload_cmd s :
  transmit_frame_type (frames s) ≠ TRANSMIT_FRAME_TYPE_NORMAL →
  collect_payload s = s.
Proof.
  intros Ht. unfold collect_payload. by rewrite (bool_decide_eq_false_2 _ Ht).
Qed.

(** Packing writes the frame buffer only. *)
Lemma pack_tx_cmd_frame_frame fs s :
  let s' := pack_tx_cmd_frame fs s in
  dev s' = dev s ∧ stats s' = stats s ∧ fhss s' = fhss s ∧ link s' = link s
  ∧ conn s' = conn s ∧ sched s' = sched s ∧ whileTransmit s' = whileTransmit s
  ∧ transmit_frame_type (frames s') = transmit_frame_type (frames s)
  ∧ payload (frames s') = payload (frames s)
  ∧ payload_len (frames s') = payload_len (frames s).
Proof. unfold pack_tx_cmd_frame. by case_match. Qed.

Lemma pack_tx_cmd_frame_is_cmd fs s :
  transmit_frame_type (frames s) ≠ TRANSMIT_FRAME_TYPE_NORMAL →
  is_cmd_frame (txFrame (frames (pack_tx_cmd_frame fs s))) = true.
Proof. intros Ht. unfold pack_tx_cmd_frame. by case_match. Qed.

Lemma set_sx_of_frame a v s :
  let s' := set_sx_of a v s in
  serialport (dev s') = serialport (dev s) ∧ mavlink (dev s') = mavlink (dev s)
  ∧ txstats (dev s') = txstats (dev s)
  ∧ stats s' = stats s ∧ fhss s' = fhss s ∧ link s' = link s
  ∧ conn s' = conn s ∧ sched s' = sched s ∧ whileTransmit s' = whileTransmit s
  ∧ frames s' = frames s.
Proof. by destruct a. Qed.

(** What the third part of [process_transmit_frame] does. *)
Lemma pack_and_send_frame_frame a ack s :
  let s' := pack_and_send_frame a ack s in
  serialport (dev s') = serialport (dev s) ∧ mavlink (dev s') = mavlink (dev s)
  ∧ fhss s' = fhss s ∧ link s' = link s
  ∧ conn s' = conn s ∧ sched s' = sched s ∧ whileTransmit s' = whileTransmit s
  ∧ transmit_seq_no (stats s') = transmit_seq_no (stats s)
  ∧ transmit_frame_type (frames s') = transmit_frame_type (frames s)
  ∧ payload (frames s') = payload (frames s)
  ∧ payload_len (frames s') = payload_len (frames s)
  ∧ sx_of a s'
    = sx_SendFrame (txFrame (frames s')) FRAME_TX_RX_LEN SEND_FRAME_TMO (sx_of a s).
Proof.
  unfold pack_and_send_frame. cbv zeta.
  set (s1 := upd_stats (set_last_tx_antenna a) s).
  set (fs := FrameStats.mk _ _ _ _ _ _ _).
  assert (sx_of a s1 = sx_of a s) as Hsx by by destruct a.
  case_bool_decide as Ht.
  - destruct a; done.
  - destruct (pack_tx_cmd_frame_frame fs s1) as (Hd&Hst&Hf&Hl&Hc&Hsc&Hw&Hty&Hp&Hpl).
    set (s2 := pack_tx_cmd_frame fs s1) in *.
    assert (sx_of a s2 = sx_of a s) as Hsx2.
    { rewrite <- Hsx. unfold sx_of. by rewrite Hd. }
    destruct (set_sx_of_frame a
                (sx_SendFrame (txFrame (frames s2)) FRAME_TX_RX_LEN SEND_FRAME_TMO
                   (sx_of a s2)) s2) as (->&->&_&->&->&->&->&->&->&->).
    rewrite sx_of_set_sx_of, Hd, Hst, Hf, Hl, Hc, Hsc, Hw, Hty, Hp, Hpl, Hsx2.
    done.
Qed.

(** In a normal frame the payload buffer is what is packed. *)
Lemma pack_and_send_frame_normal a ack s :
  transmit_frame_type (frames s) = TRANSMIT_FRAME_TYPE_NORMAL →
  ∃ frame_stats,
    txFrame (frames (pack_and_send_frame a ack s))
    = pack_tx_frame frame_stats (rcData s) (payload (frames s))
        (payload_len (frames s)).
Proof.
  intros Ht. unfold pack_and_send_frame. cbv zeta.
  rewrite (bool_decide_eq_true_2 _ Ht). destruct a; eexists; reflexivity.
Qed.

Lemma pack_and_send_frame_cmd a ack s :
  transmit_frame_type (frames s) ≠ TRANSMIT_FRAME_TYPE_NORMAL →
  is_cmd_frame (txFrame (frames (pack_and_send_frame a ack s))) = true.
Proof.
  intros Ht. unfold pack_and_send_frame. cbv zeta.
  rewrite (bool_decide_eq_false_2 _ Ht).
  match goal with |- context [set_sx_of a ?v ?s2] =>
    destruct (set_sx_of_frame a v s2) as (_&_&_&_&_&_&_&_&_&->) end.
  by apply pack_tx_cmd_frame_is_cmd.
Qed.

(** [process_transmit_frame] as a whole: the link, the connection state, the
    hop index and the sequence number are not its business, and a command
    type stays in the slot. *)
Lemma process_transmit_frame_frame a ack s :
  let s' := process_transmit_frame a ack s in
  fhss s' = fhss s ∧ link s' = link s ∧ conn s' = conn s ∧ sched s' = sched s
  ∧ whileTransmit s' = whileTransmit s
  ∧ transmit_seq_no (stats s') = transmit_seq_no (stats s)
  ∧ (transmit_frame_type (frames s') = TRANSMIT_FRAME_TYPE_NORMAL →
     transmit_frame_type (frames s) = TRANSMIT_FRAME_TYPE_NORMAL).
Proof.
  unfold process_transmit_frame. cbv zeta.
  destruct (latch_set_rx_params_frame s) as (_&Hst1&Hf1&Hl1&Hc1&Hs1&Hw1&_).
  destruct (collect_payload_frame (latch_set_rx_params s))
    as (Hl2&Hc2&Hs2&Hf2&Hw2&Hst2&_&Ht2&_).
  destruct (pack_and_send_frame_frame a ack (collect_payload (latch_set_rx_params s)))
    as (_&_&Hf3&Hl3&Hc3&Hs3&Hw3&Hn3&Ht3&_).
  rewrite Hf3, Hl3, Hc3, Hs3, Hw3, Hn3, Ht3.
  rewrite Hf2, Hl2, Hc2, Hs2, Hw2, Hst2, Ht2.
  rewrite Hf1, Hl1, Hc1, Hs1, Hw1, Hst1.
  repeat split. intros Ht. by apply latch_set_rx_params_normal in Ht as [].
Qed.


(** ** What the parts of the loop leave alone *)

Lemma do_transmit_frame a s :
  let s' := do_transmit a s in
  fhss s' = fhss s ∧ link s' = link s ∧ conn s' = conn s ∧ sched s' = sched s
  ∧ whileTransmit s' = whileTransmit s
  ∧ transmit_seq_no (stats s') = wrap8 (transmit_seq_no (stats s) + 1)
  ∧ (transmit_frame_type (frames s') = TRANSMIT_FRAME_TYPE_NORMAL →
     transmit_frame_type (frames s) = TRANSMIT_FRAME_TYPE_NORMAL).
Proof.
  unfold do_transmit. cbv zeta.
  match goal with |- context [process_transmit_frame a ?k ?s1] =>
    destruct (process_transmit_frame_frame a k s1) as (->&->&->&->&->&->&Ht) end.
  done.
Qed.

(** [do_receive] writes the receive buffer of its antenna, the modem object
    and the last RSSI/SNR; nothing else. *)
Lemma do_receive_frame a s :
  let s' := (do_receive a s).2 in
  link s' = link s ∧ conn s' = conn s ∧ sched s' = sched s
  ∧ fhss s' = fhss s ∧ whileTransmit s' = whileTransmit s
  ∧ transmit_frame_type (frames s') = transmit_frame_type (frames s)
  ∧ txFrame (frames s') = txFrame (frames s)
  ∧ transmit_seq_no (stats s') = transmit_seq_no (stats s).
Proof. unfold do_receive. cbv zeta. destruct a; by repeat case_match. Qed.

(** The three parts of an IRQ block. *)
Lemma irq_done_handling_frame a s :
  let s' := irq_done_handling a s in
  conn s' = conn s ∧ sched s' = sched s
  ∧ fhss s' = fhss s ∧ whileTransmit s' = whileTransmit s
  ∧ transmit_frame_type (frames s') = transmit_frame_type (frames s)
  ∧ txFrame (frames s') = txFrame (frames s)
  ∧ transmit_seq_no (stats s') = transmit_seq_no (stats s).
Proof.
  unfold irq_done_handling. cbv zeta.
  destruct (do_receive_frame a (set_irq_of a 0 s)) as (_&Hc&Hsc&Hf&Hw&Ht&Hx&Hn).
  repeat case_match; try done; destruct a; tx_red;
    by rewrite ?Hc, ?Hsc, ?Hf, ?Hw, ?Ht, ?Hx, ?Hn.
Qed.

Lemma irq_timeout_handling_frame a s :
  let s' := irq_timeout_handling a s in
  conn s' = conn s ∧ sched s' = sched s
  ∧ fhss s' = fhss s ∧ whileTransmit s' = whileTransmit s
  ∧ frames s' = frames s ∧ stats s' = stats s ∧ dev s' = dev s.
Proof. unfold irq_timeout_handling. destruct a; by case_match. Qed.

Lemma state_of_irq_unexpected a s : state_of (irq_unexpected a s) = s.
Proof. unfold irq_unexpected. by repeat case_match. Qed.

Lemma state_of_irq_block a s :
  state_of (irq_block a s)
  = if nonzero (irq_of a s)
    then irq_timeout_handling a (irq_done_handling a s)
    else s.
Proof.
  unfold irq_block. case_match; [|done]. cbv zeta. apply state_of_irq_unexpected.
Qed.

(** The IRQ blocks write the link variables and what [do_receive] writes. *)
Lemma irq_block_frame a s :
  let s' := state_of (irq_block a s) in
  conn s' = conn s ∧ sched s' = sched s
  ∧ fhss s' = fhss s ∧ whileTransmit s' = whileTransmit s
  ∧ transmit_frame_type (frames s') = transmit_frame_type (frames s)
  ∧ txFrame (frames s') = txFrame (frames s)
  ∧ transmit_seq_no (stats s') = transmit_seq_no (stats s).
Proof.
  cbv zeta. rewrite state_of_irq_block. case_match; [|done].
  destruct (irq_timeout_handling_frame a (irq_done_handling a s))
    as (->&->&->&->&->&->&_).
  apply irq_done_handling_frame.
Qed.

(** In Idle an IRQ block neither leaves Idle nor touches a modem or the
    statistics. *)
Lemma irq_block_idle a s :
  link_state (link s) = LINK_STATE_IDLE →
  let s' := state_of (irq_block a s) in
  link_state (link s') = LINK_STATE_IDLE
  ∧ dev s' = dev s ∧ stats s' = stats s ∧ frames s' = frames s.
Proof.
  intros Hi. cbv zeta. rewrite state_of_irq_block. case_match; [|done].
  assert (irq_done_handling a s = s) as ->.
  { unfold irq_done_handling. by rewrite Hi. }
  unfold irq_timeout_handling. destruct a; by case_match.
Qed.

(** Once the link is Idle with both statuses None, an IRQ block keeps it
    so. *)
Lemma irq_block_idle_none a s :
  link_state (link s) = LINK_STATE_IDLE →
  link_rx1_status (link s) = RX_STATUS_NONE →
  link_rx2_status (link s) = RX_STATUS_NONE →
  let s' := state_of (irq_block a s) in
  link_state (link s') = LINK_STATE_IDLE
  ∧ link_rx1_status (link s') = RX_STATUS_NONE
  ∧ link_rx2_status (link s') = RX_STATUS_NONE.
Proof.
  intros Hi H1 H2. cbv zeta. rewrite state_of_irq_block. case_match; [|done].
  assert (irq_done_handling a s = s) as ->.
  { unfold irq_done_handling. by rewrite Hi. }
  unfold irq_timeout_handling. destruct a; by case_match.
Qed.

(** A timeout cause that is still in the slot when the timeout test is
    reached ends the cycle. *)
Lemma irq_block_timeout a s :
  Z.land (irq_of a s) SX12xx_IRQ_TIMEOUT ≠ 0 →
  ¬ (link_state (link s) = LINK_STATE_TRANSMIT_WAIT
     ∧ Z.land (irq_of a s) SX12xx_IRQ_TX_DONE ≠ 0) →
  ¬ (link_state (link s) = LINK_STATE_RECEIVE_WAIT
     ∧ Z.land (irq_of a s) SX12xx_IRQ_RX_DONE ≠ 0) →
  ∃ s',
    irq_block a s = Running s'
    ∧ link_state (link s') = LINK_STATE_IDLE
    ∧ link_rx1_status (link s') = RX_STATUS_NONE
    ∧ link_rx2_status (link s') = RX_STATUS_NONE
    ∧ irq_of a s' = 0
    ∧ fhss s' = fhss s ∧ stats s' = stats s ∧ dev s' = dev s
    ∧ frames s' = frames s.
Proof.
  intros Htmo Htx Hrx.
  assert (irq_of a s ≠ 0) as Hirq by (intros H0; by rewrite H0 in Htmo).
  assert (irq_done_handling a s = s) as Hdone.
  { unfold irq_done_handling. case_bool_decide as Hs1.
    - destruct (nonzero _) eqn:Hn; [|done]. apply nonzero_true in Hn. tauto.
    - case_bool_decide as Hs2; [|done].
      destruct (nonzero _) eqn:Hn; [|done]. apply nonzero_true in Hn. tauto. }
  unfold irq_block. apply nonzero_true in Hirq. rewrite Hirq. cbv zeta.
  rewrite Hdone. unfold irq_timeout_handling.
  apply nonzero_true in Htmo. rewrite Htmo. cbv zeta.
  eexists. split.
  - unfold irq_unexpected. rewrite irq_of_upd_link_idle.
    rewrite !Z.land_0_l. reflexivity.
  - destruct a; done.
Qed.

(** The Transmit branch of the switch: one hop, one frame, then waiting. *)
Lemma link_state_transmit_spec s :
  let s' := link_state_transmit s in
  transmit_seq_no (stats s') = wrap8 (transmit_seq_no (stats s) + 1)
  ∧ fhss s' = Fhss.HopToNext (fhss s)
  ∧ link_state (link s') = LINK_STATE_TRANSMIT_WAIT
  ∧ irq_status (link s') = 0 ∧ irq2_status (link s') = 0
  ∧ conn s' = conn s ∧ sched s' = sched s
  ∧ whileTransmit s' = WhileTransmit.Trigger (whileTransmit s)
  ∧ (transmit_frame_type (frames s') = TRANSMIT_FRAME_TYPE_NORMAL →
     transmit_frame_type (frames s) = TRANSMIT_FRAME_TYPE_NORMAL).
Proof.
  unfold link_state_transmit. cbv zeta.
  match goal with |- context [do_transmit ?a ?s1] =>
    destruct (do_transmit_frame a s1) as (Hf&Hl&Hc&Hs&Hw&Hn&Ht);
    set (s2 := do_transmit a s1) in * end.
  tx_red. by rewrite Hf, Hc, Hs, Hw, Hn.
Qed.

Lemma link_state_receive_frame s :
  let s' := link_state_receive s in
  conn s' = conn s ∧ sched s' = sched s
  ∧ fhss s' = fhss s ∧ whileTransmit s' = whileTransmit s
  ∧ frames s' = frames s ∧ stats s' = stats s.
Proof. unfold link_state_receive. by repeat case_match. Qed.

(** Outside Transmit and Receive the switch does nothing. *)
Lemma link_state_switch_id s :
  link_state (link s) ≠ LINK_STATE_TRANSMIT →
  link_state (link s) ≠ LINK_STATE_RECEIVE →
  link_state_switch s = s.
Proof. intros Ht Hr. unfold link_state_switch. by case_match. Qed.

Lemma link_state_switch_not_transmit s :
  link_state (link s) ≠ LINK_STATE_TRANSMIT →
  let s' := link_state_switch s in
  conn s' = conn s ∧ sched s' = sched s
  ∧ fhss s' = fhss s ∧ whileTransmit s' = whileTransmit s
  ∧ frames s' = frames s ∧ stats s' = stats s.
Proof.
  intros Ht. unfold link_state_switch.
  case_match; try done. apply link_state_receive_frame.
Qed.

Lemma link_state_switch_frame s :
  let s' := link_state_switch s in
  conn s' = conn s ∧ sched s' = sched s
  ∧ (transmit_frame_type (frames s') = TRANSMIT_FRAME_TYPE_NORMAL →
     transmit_frame_type (frames s) = TRANSMIT_FRAME_TYPE_NORMAL).
Proof.
  cbv zeta.
  destruct (decide (link_state (link s) = LINK_STATE_TRANSMIT)) as [Ht|Ht].
  - unfold link_state_switch. rewrite Ht.
    by destruct (link_state_transmit_spec s) as (_&_&_&_&_&->&->&_&?).
  - by destruct (link_state_switch_not_transmit s Ht) as (->&->&_&_&->&_).
Qed.

(** A property kept by every IRQ block holds after the SX handling if it
    holds after the switch, whether the loop goes on or is caught in a blink
    loop. *)
Lemma sx_handling_ind (P : tTx → Prop) s :
  P (link_state_switch s) →
  (∀ a s0, P s0 → P (state_of (irq_block a s0))) →
  P (state_of (sx_handling s)).
Proof.
  intros Hsw Hirq. unfold sx_handling. cbv zeta.
  destruct USE_ANTENNA1, USE_ANTENNA2; simpl; try done.
  - pose proof (Hirq ANTENNA_1 _ Hsw) as H1.
    destruct (irq_block ANTENNA_1 (link_state_switch s)) as [s1|s1]; simpl in *;
      [|done]. apply (Hirq ANTENNA_2 _ H1).
  - pose proof (Hirq ANTENNA_1 _ Hsw) as H1.
    by destruct (irq_block ANTENNA_1 (link_state_switch s)).
  - apply (Hirq ANTENNA_2 _ Hsw).
Qed.

(** The SX handling as a whole leaves the scheduler and connection
    variables alone and never clears a command type from the slot. *)
Lemma sx_handling_frame s :
  let s' := state_of (sx_handling s) in
  conn s' = conn s ∧ sched s' = sched s
  ∧ (transmit_frame_type (frames s') = TRANSMIT_FRAME_TYPE_NORMAL →
     transmit_frame_type (frames s) = TRANSMIT_FRAME_TYPE_NORMAL).
Proof.
  cbv zeta. apply sx_handling_ind.
  - apply link_state_switch_frame.
  - intros a s0 (Hc&Hs&Ht).
    destruct (irq_block_frame a s0) as (->&->&_&_&->&_). done.
Qed.

(** The SysTask block writes the scheduler counters and the timeout
    counter. *)
Lemma sys_task_frame s :
  let s' := sys_task s in
  link s' = link s ∧ frames s' = frames s ∧ stats s' = stats s
  ∧ fhss s' = fhss s ∧ dev s' = dev s ∧ whileTransmit s' = whileTransmit s
  ∧ connect_state (conn s') = connect_state (conn s).
Proof.
  unfold sys_task. repeat case_match; try done;
    tx_red; by rewrite connect_tick_state.
Qed.

(** The handset part writes the channel data, the channel order object and,
    on a store or set command, the slot, the pending flag and the task
    mask. *)
Lemma channel_order_set_apply_frame s :
  let s' := channel_order_set_apply s in
  link s' = link s ∧ stats s' = stats s ∧ fhss s' = fhss s ∧ dev s' = dev s
  ∧ conn s' = conn s ∧ sched s' = sched s ∧ dbg s' = dbg s
  ∧ frames s' = frames s ∧ whileTransmit s' = whileTransmit s
  ∧ Setup s' = Setup s.
Proof. done. Qed.

Lemma mbridge_handling_frame i s :
  let s' := mbridge_handling i s in
  link s' = link s ∧ stats s' = stats s ∧ fhss s' = fhss s ∧ dev s' = dev s
  ∧ conn s' = conn s ∧ sched s' = sched s ∧ dbg s' = dbg s
  ∧ Setup s' = Setup s
  ∧ txFrame (frames s') = txFrame (frames s)
  ∧ (transmit_frame_type (frames s') = TRANSMIT_FRAME_TYPE_NORMAL →
     transmit_frame_type (frames s) = TRANSMIT_FRAME_TYPE_NORMAL).
Proof. unfold mbridge_handling. by repeat case_match. Qed.

Lemma channel_source_handling_frame src upd s :
  let s' := channel_source_handling src upd s in
  link s' = link s ∧ stats s' = stats s ∧ fhss s' = fhss s ∧ dev s' = dev s
  ∧ conn s' = conn s ∧ sched s' = sched s ∧ dbg s' = dbg s
  ∧ Setup s' = Setup s
  ∧ frames s' = frames s ∧ whileTransmit s' = whileTransmit s.
Proof. unfold channel_source_handling. by repeat case_match. Qed.

Lemma handset_handling_frame i s :
  let s' := handset_handling i s in
  link s' = link s ∧ stats s' = stats s ∧ fhss s' = fhss s ∧ dev s' = dev s
  ∧ conn s' = conn s ∧ sched s' = sched s ∧ dbg s' = dbg s
  ∧ txFrame (frames s') = txFrame (frames s)
  ∧ (transmit_frame_type (frames s') = TRANSMIT_FRAME_TYPE_NORMAL →
     transmit_frame_type (frames s) = TRANSMIT_FRAME_TYPE_NORMAL).
Proof.
  unfold handset_handling. cbv zeta.
  set (s1 := if USE_MBRIDGE then mbridge_handling i s else s).
  assert (link s1 = link s ∧ stats s1 = stats s ∧ fhss s1 = fhss s ∧ dev s1 = dev s
          ∧ conn s1 = conn s ∧ sched s1 = sched s ∧ dbg s1 = dbg s
          ∧ Setup s1 = Setup s
          ∧ txFrame (frames s1) = txFrame (frames s)
          ∧ (transmit_frame_type (frames s1) = TRANSMIT_FRAME_TYPE_NORMAL →
             transmit_frame_type (frames s) = TRANSMIT_FRAME_TYPE_NORMAL))
    as (H1&H2&H3&H4&H5&H6&H7&H8&H9&H10).
  { unfold s1. destruct USE_MBRIDGE; [apply mbridge_handling_frame|done]. }
  set (s2 := if DEVICE_HAS_IN
             then channel_source_handling CHANNEL_SOURCE_INPORT (in_Update i) s1
             else s1).
  assert (link s2 = link s1 ∧ stats s2 = stats s1 ∧ fhss s2 = fhss s1
          ∧ dev s2 = dev s1 ∧ conn s2 = conn s1 ∧ sched s2 = sched s1
          ∧ dbg s2 = dbg s1 ∧ Setup s2 = Setup s1 ∧ frames s2 = frames s1
          ∧ whileTransmit s2 = whileTransmit s1)
    as (G1&G2&G3&G4&G5&G6&G7&G8&G9&G10).
  { unfold s2. destruct DEVICE_HAS_IN; [apply channel_source_handling_frame|done]. }
  assert (∀ s3, s3 = (if USE_CRSF
                      then channel_source_handling CHANNEL_SOURCE_CRSF (crsf_Update i) s2
                      else s2) →
          link s3 = link s2 ∧ stats s3 = stats s2 ∧ fhss s3 = fhss s2
          ∧ dev s3 = dev s2 ∧ conn s3 = conn s2 ∧ sched s3 = sched s2
          ∧ dbg s3 = dbg s2 ∧ Setup s3 = Setup s2 ∧ frames s3 = frames s2
          ∧ whileTransmit s3 = whileTransmit s2) as Hlast.
  { intros s3 ->. destruct USE_CRSF; [apply channel_source_handling_frame|done]. }
  destruct (Hlast _ eq_refl) as (->&->&->&->&->&->&->&_&->&_).
  rewrite G1, G2, G3, G4, G5, G6, G7, G9, H1, H2, H3, H4, H5, H6, H7, H9. done.
Qed.

Lemma while_transmit_do_frame s :
  let s' := while_transmit_do s in
  link s' = link s ∧ stats s' = stats s ∧ fhss s' = fhss s ∧ dev s' = dev s
  ∧ conn s' = conn s ∧ sched s' = sched s ∧ frames s' = frames s.
Proof. done. Qed.

(** ** Receiving, continued *)

Lemma foldl_put_serial_byte_frame l s :
  let s' := foldl put_serial_byte s l in
  frames s' = frames s ∧ link s' = link s ∧ fhss s' = fhss s
  ∧ Setup s' = Setup s.
Proof.
  revert s. induction l as [|c l IH]; intros s; [done|].
  simpl. destruct (IH (put_serial_byte s c)) as (->&->&->&->).
  unfold put_serial_byte. by case_match.
Qed.

(** A received frame changes the slot only when it is a command frame that
    carries the setup data or the ack, and then the slot is NORMAL. *)
Lemma process_received_cmd_rx_frame_slot frame s :
  let s' := process_received_cmd_rx_frame frame s in
  link s' = link s ∧ fhss s' = fhss s
  ∧ (transmit_frame_type (frames s') ≠ transmit_frame_type (frames s) →
     rx_payload frame !!! 0%nat = FRAME_CMD_RX_SETUPDATA
     ∨ rx_payload frame !!! 0%nat = FRAME_CMD_RX_ACK).
Proof.
  unfold process_received_cmd_rx_frame. cbv zeta.
  destruct (_ =? FRAME_CMD_RX_SETUPDATA) eqn:H1.
  { apply Z.eqb_eq in H1. auto. }
  destruct (_ =? FRAME_CMD_RX_ACK) eqn:H2.
  { apply Z.eqb_eq in H2. auto. }
  done.
Qed.

Lemma process_received_frame_slot do_payload frame s :
  let s' := process_received_frame do_payload frame s in
  link s' = link s ∧ fhss s' = fhss s
  ∧ (transmit_frame_type (frames s') ≠ transmit_frame_type (frames s) →
     FrameStatus.frame_type (status frame) ≠ FRAME_TYPE_RX
     ∧ (rx_payload frame !!! 0%nat = FRAME_CMD_RX_SETUPDATA
        ∨ rx_payload frame !!! 0%nat = FRAME_CMD_RX_ACK)).
Proof.
  unfold process_received_frame. cbv zeta.
  destruct do_payload; simpl; [|done].
  destruct (_ =? FRAME_TYPE_RX) eqn:Hty; simpl.
  - match goal with |- context [match serialport (dev ?s1) with _ => _ end] =>
      destruct (serialport (dev s1)); [|done];
      match goal with |- context [foldl put_serial_byte ?s2 ?l] =>
        destruct (foldl_put_serial_byte_frame l s2) as (Hf&Hl&Hh&_);
        set (s3 := foldl put_serial_byte s2 l) in * end end.
    tx_red. by rewrite Hf, Hl, Hh.
  - apply Z.eqb_neq in Hty.
    match goal with |- context [process_received_cmd_rx_frame frame ?s1] =>
      destruct (process_received_cmd_rx_frame_slot frame s1) as (->&->&Hs) end.
    split; [done|]. split; [done|]. intros Hne. split; [done|]. by apply Hs.
Qed.

Lemma handle_receive_slot a s :
  let s' := handle_receive a s in
  fhss s' = fhss s ∧ link s' = link s
  ∧ (transmit_frame_type (frames s') ≠ transmit_frame_type (frames s) →
     link_rx_status_of a s ≠ RX_STATUS_INVALID
     ∧ FrameStatus.frame_type (status (rxFrame_of a s)) ≠ FRAME_TYPE_RX
     ∧ (rx_payload (rxFrame_of a s) !!! 0%nat = FRAME_CMD_RX_SETUPDATA
        ∨ rx_payload (rxFrame_of a s) !!! 0%nat = FRAME_CMD_RX_ACK)).
Proof.
  unfold handle_receive. cbv zeta.
  destruct (_ =? RX_STATUS_INVALID) eqn:Hst; simpl; [done|].
  apply Z.eqb_neq in Hst.
  destruct (process_received_frame_slot true (rxFrame_of a s) s) as (Hl&Hf&Hs).
  set (s1 := process_received_frame true (rxFrame_of a s) s) in *.
  tx_red. rewrite Hl, Hf. split; [done|]. split; [done|].
  intros Hne. split; [done|]. by apply Hs.
Qed.

Lemma pre_transmit_receive_slot s :
  let s' := pre_transmit_receive s in
  fhss s' = fhss s ∧ link s' = link s
  ∧ (transmit_frame_type (frames s') ≠ transmit_frame_type (frames s) →
     frame_received s = true
     ∧ link_rx_status_of (select_antenna s) s ≠ RX_STATUS_INVALID
     ∧ FrameStatus.frame_type (status (rxFrame_of (select_antenna s) s))
         ≠ FRAME_TYPE_RX
     ∧ (rx_payload (rxFrame_of (select_antenna s) s) !!! 0%nat
          = FRAME_CMD_RX_SETUPDATA
        ∨ rx_payload (rxFrame_of (select_antenna s) s) !!! 0%nat
          = FRAME_CMD_RX_ACK)).
Proof.
  unfold pre_transmit_receive. destruct (frame_received s); [|done].
  destruct (handle_receive_slot (select_antenna s) s) as (->&->&Hs).
  split; [done|]. split; [done|]. intros Hne. split; [done|]. by apply Hs.
Qed.

Lemma foldl_put_serial_byte_conn l s : conn (foldl put_serial_byte s l) = conn s.
Proof.
  revert s. induction l as [|c l IH]; intros s; [done|].
  simpl. rewrite IH. unfold put_serial_byte. by case_match.
Qed.

Lemma process_received_frame_conn do_payload frame s :
  conn (process_received_frame do_payload frame s) = conn s.
Proof.
  unfold process_received_frame, process_received_cmd_rx_frame. cbv zeta.
  repeat case_match; try done. tx_red. by rewrite foldl_put_serial_byte_conn.
Qed.

Lemma handle_receive_conn a s : conn (handle_receive a s) = conn s.
Proof.
  unfold handle_receive. cbv zeta. case_match; [|done].
  tx_red. apply process_received_frame_conn.
Qed.

Lemma pre_transmit_receive_conn s : conn (pre_transmit_receive s) = conn s.
Proof.
  unfold pre_transmit_receive. case_match; [|done]. apply handle_receive_conn.
Qed.

Lemma pre_transmit_finish_conn s : conn (pre_transmit_finish s) = conn s.
Proof. unfold pre_transmit_finish. by repeat case_match. Qed.

(** The connection state machine inside the loop: the SysTask block ticks
    the timeout counter, the pre-transmit block makes the step, with the
    validity computed from the two rx statuses; no other part of a pass
    writes the connection variables. *)
Lemma sys_task_conn s :
  conn (sys_task s)
  = if doSysTask (sched s) then connect_tick (conn s) else conn s.
Proof. unfold sys_task. by repeat case_match. Qed.

Lemma pre_transmit_conn s :
  conn (pre_transmit s) = connect_update (valid_frame_received s) (conn s).
Proof.
  unfold pre_transmit. cbv zeta. rewrite pre_transmit_finish_conn. tx_red.
  by rewrite pre_transmit_receive_conn.
Qed.

Lemma loop_tail_conn i s :
  conn (loop_tail i s)
  = if doPreTransmit (sched s)
    then connect_update (valid_frame_received s) (conn s)
    else conn s.
Proof.
  unfold loop_tail. cbv zeta. unfold while_transmit_do. tx_red.
  destruct (handset_handling_frame i (pre_transmit_step s)) as (_&_&_&_&->&_).
  unfold pre_transmit_step. case_match; [|done]. apply pre_transmit_conn.
Qed.

Lemma pre_transmit_finish_frame s :
  let s' := pre_transmit_finish s in
  frames s' = frames s ∧ link s' = link s ∧ fhss s' = fhss s.
Proof. unfold pre_transmit_finish. by repeat case_match. Qed.

(** In the whole pre-transmit block only the handling of the received frame
    writes the slot. *)
Lemma pre_transmit_slot s :
  transmit_frame_type (frames (pre_transmit s))
  ≠ transmit_frame_type (frames s) →
  frame_received s = true
  ∧ link_rx_status_of (select_antenna s) s ≠ RX_STATUS_INVALID
  ∧ FrameStatus.frame_type (status (rxFrame_of (select_antenna s) s))
      ≠ FRAME_TYPE_RX
  ∧ (rx_payload (rxFrame_of (select_antenna s) s) !!! 0%nat
       = FRAME_CMD_RX_SETUPDATA
     ∨ rx_payload (rxFrame_of (select_antenna s) s) !!! 0%nat
       = FRAME_CMD_RX_ACK).
Proof.
  unfold pre_transmit. cbv zeta.
  set (s0 := upd_sched (set_doPreTransmit false) s).
  match goal with |- context [pre_transmit_finish ?s1] =>
    destruct (pre_transmit_finish_frame s1) as (->&_) end.
  tx_red. intros Hne.
  destruct (pre_transmit_receive_slot s0) as (_&_&Hs). by apply Hs.
Qed.

(** ** One pass of the loop *)

Lemma state_of_main_loop i s :
  state_of (main_loop i s)
  = match sx_handling (sys_task s) with
    | Running s1 => loop_tail i s1
    | Halted s1 => s1
    end.
Proof. unfold main_loop. cbv zeta. by destruct (sx_handling (sys_task s)). Qed.

(** Without the pre-transmit block the rest of the pass leaves the link, the
    statistics, the hop index, the modems and the frame buffer alone. *)
Lemma loop_tail_no_pre_transmit i s :
  doPreTransmit (sched s) = false →
  let s' := loop_tail i s in
  link s' = link s ∧ stats s' = stats s ∧ fhss s' = fhss s
  ∧ sx (dev s') = sx (dev s) ∧ sx2 (dev s') = sx2 (dev s)
  ∧ txFrame (frames s') = txFrame (frames s).
Proof.
  intros Hp. unfold loop_tail, pre_transmit_step. rewrite Hp. cbv zeta.
  destruct (handset_handling_frame i s) as (Hl&Hst&Hf&Hd&_&_&_&Hx&_).
  set (s1 := handset_handling i s) in *.
  unfold while_transmit_do. tx_red. by rewrite Hl, Hst, Hf, Hd, Hx.
Qed.

(** The rest of the pass takes a command type out of the slot only in the
    pre-transmit block, on a received command frame with setup data or
    ack. *)
Lemma loop_tail_slot i s :
  transmit_frame_type (frames s) ≠ TRANSMIT_FRAME_TYPE_NORMAL →
  transmit_frame_type (frames (loop_tail i s)) = TRANSMIT_FRAME_TYPE_NORMAL →
  doPreTransmit (sched s) = true
  ∧ frame_received s = true
  ∧ link_rx_status_of (select_antenna s) s ≠ RX_STATUS_INVALID
  ∧ FrameStatus.frame_type (status (rxFrame_of (select_antenna s) s))
      ≠ FRAME_TYPE_RX
  ∧ (rx_payload (rxFrame_of (select_antenna s) s) !!! 0%nat
       = FRAME_CMD_RX_SETUPDATA
     ∨ rx_payload (rxFrame_of (select_antenna s) s) !!! 0%nat
       = FRAME_CMD_RX_ACK).
Proof.
  intros Hcmd Hn. unfold loop_tail in Hn. cbv zeta in Hn.
  set (s1 := pre_transmit_step s) in *.
  assert (transmit_frame_type (frames s1) = TRANSMIT_FRAME_TYPE_NORMAL) as H1.
  { destruct (handset_handling_frame i s1) as (_&_&_&_&_&_&_&_&Hh).
    apply Hh. exact Hn. }
  unfold s1, pre_transmit_step in H1.
  destruct (doPreTransmit (sched s)); [|done].
  split; [done|]. apply pre_transmit_slot. congruence.
Qed.

Lemma main_init_spec mbridge_port serial_port boot s0 :
  main_init mbridge_port serial_port boot = Running s0 →
  transmit_frame_type (frames s0) = TRANSMIT_FRAME_TYPE_CMD_GET_RX_SETUPDATA
  ∧ link_state (link s0) = LINK_STATE_IDLE
  ∧ connect_state (conn s0) = CONNECT_STATE_LISTEN
  ∧ Fhss.num (fhss s0) = FhssNum (Config s0)
  ∧ Fhss.curr_i (fhss s0) = 0.
Proof.
  unfold main_init. cbv zeta.
  repeat case_match; try done; intros [= <-]; tx_red;
    unfold init_serialport; by case_match.
Qed.

(** ** The transmit cycle *)

(** C3: the Transmit branch of the switch adds one to
    [stats.transmit_seq_no] (an 8-bit counter) and moves [fhss.curr_i] to
    [(curr_i + 1) mod num], where [num] is [Config.FhssNum] from start-up on,
    and leaves the link in TransmitWait; the IRQ blocks of the same pass
    add nothing; no pass that starts outside Transmit changes either value
    unless its pre-transmit block runs; and a timeout cause met in
    TransmitWait takes the link to Idle with both values as the Transmit
    branch left them. So a cycle that ends with a TX timeout has had both
    increments exactly once. *)
Theorem C3_transmit_cycle_increments_once (s : tTx) :
  (link_state (link s) = LINK_STATE_TRANSMIT →
   (let s' := link_state_switch s in
    transmit_seq_no (stats s') = wrap8 (transmit_seq_no (stats s) + 1)
    ∧ Fhss.curr_i (fhss s')
      = (Fhss.curr_i (fhss s) + 1) mod Fhss.num (fhss s)
    ∧ Fhss.num (fhss s') = Fhss.num (fhss s)
    ∧ link_state (link s') = LINK_STATE_TRANSMIT_WAIT)
   ∧ (let s' := state_of (sx_handling s) in
      transmit_seq_no (stats s') = wrap8 (transmit_seq_no (stats s) + 1)
      ∧ Fhss.curr_i (fhss s')
        = (Fhss.curr_i (fhss s) + 1) mod Fhss.num (fhss s)))
  ∧ (link_state (link s) ≠ LINK_STATE_TRANSMIT →
     (let s' := state_of (sx_handling s) in
      transmit_seq_no (stats s') = transmit_seq_no (stats s)
      ∧ fhss s' = fhss s)
     ∧ ∀ i, doPreTransmit (sched (sys_task s)) = false →
            let s' := state_of (main_loop i s) in
            transmit_seq_no (stats s') = transmit_seq_no (stats s)
            ∧ fhss s' = fhss s)
  ∧ (∀ a,
       link_state (link s) = LINK_STATE_TRANSMIT_WAIT →
       Z.land (irq_of a s) SX12xx_IRQ_TIMEOUT ≠ 0 →
       Z.land (irq_of a s) SX12xx_IRQ_TX_DONE = 0 →
       ∃ s',
         irq_block a s = Running s'
         ∧ link_state (link s') = LINK_STATE_IDLE
         ∧ link_rx1_status (link s') = RX_STATUS_NONE
         ∧ link_rx2_status (link s') = RX_STATUS_NONE
         ∧ transmit_seq_no (stats s') = transmit_seq_no (stats s)
         ∧ fhss s' = fhss s)
  ∧ (∀ mbridge_port serial_port boot,
       main_init mbridge_port serial_port boot = Running s →
       Fhss.num (fhss s) = FhssNum (Config s)).
Proof.
  assert (∀ s0, link_state (link s0) ≠ LINK_STATE_TRANSMIT →
            let s' := state_of (sx_handling s0) in
            transmit_seq_no (stats s') = transmit_seq_no (stats s0)
            ∧ fhss s' = fhss s0) as Hother.
  { intros s0 Hs0. cbv zeta. apply sx_handling_ind.
    - by destruct (link_state_switch_not_transmit s0 Hs0) as (_&_&->&_&_&->).
    - intros a s1 [H1 H2].
      destruct (irq_block_frame a s1) as (_&_&->&_&_&_&->). done. }
  split; [|split; [|split]].
  - intros Ht.
    destruct (link_state_transmit_spec s) as (Hn&Hf&Hl&_).
    assert (link_state_switch s = link_state_transmit s) as Hsw
      by (unfold link_state_switch; by rewrite Ht).
    split.
    + cbv zeta. rewrite Hsw, Hn, Hf, Hl. done.
    + cbv zeta. apply sx_handling_ind.
      * rewrite Hsw, Hn, Hf. done.
      * intros a s1 [H1 H2].
        destruct (irq_block_frame a s1) as (_&_&->&_&_&_&->). done.
  - intros Hs. split; [by apply Hother|].
    intros i Hp. cbv zeta. rewrite state_of_main_loop.
    destruct (sys_task_frame s) as (Hl&_&Hst&Hf&_).
    assert (link_state (link (sys_task s)) ≠ LINK_STATE_TRANSMIT) as Hs'
      by (by rewrite Hl).
    pose proof (Hother _ Hs') as Ho. cbv zeta in Ho.
    destruct (sx_handling_frame (sys_task s)) as (_&Hsched&_).
    destruct (sx_handling (sys_task s)) as [s1|s1]; cbn [state_of] in *.
    + rewrite <- Hsched in Hp.
      destruct (loop_tail_no_pre_transmit i s1 Hp) as (_&->&->&_).
      by rewrite <- Hst, <- Hf.
    + by rewrite <- Hst, <- Hf.
  - intros a Hs Htmo Htx.
    destruct (irq_block_timeout a s Htmo) as (s'&Hr&Hi&H1&H2&_&Hf&Hst&_).
    + intros [_ Hc]. done.
    + intros [Hc _]. congruence.
    + exists s'. by rewrite Hst, Hf.
  - intros mb sp boot Hinit. by apply main_init_spec in Hinit as (_&_&_&?&_).
Qed.

(** C6 (amended): when an IRQ block is entered with the timeout cause in
    its slot and does not first consume the slot (as it does on TX_DONE in
    TransmitWait and on RX_DONE in ReceiveWait), it goes on with the link in
    Idle, both rx statuses None and the slot cleared; a pass of the loop
    that finds this in the slot of antenna 1, with the link not in Transmit
    or Receive (where the switch clears the slots) and without its
    pre-transmit block, ends with the link in Idle and both statuses None;
    and a pass that starts in Idle and does not run the pre-transmit block
    stays in Idle and transmits nothing: sequence number, modems and frame
    buffer are as before. *)
Theorem C6_timeout_returns_link_to_idle (s : tTx) :
  (∀ a,
     Z.land (irq_of a s) SX12xx_IRQ_TIMEOUT ≠ 0 →
     ¬ (link_state (link s) = LINK_STATE_TRANSMIT_WAIT
        ∧ Z.land (irq_of a s) SX12xx_IRQ_TX_DONE ≠ 0) →
     ¬ (link_state (link s) = LINK_STATE_RECEIVE_WAIT
        ∧ Z.land (irq_of a s) SX12xx_IRQ_RX_DONE ≠ 0) →
     ∃ s',
       irq_block a s = Running s'
       ∧ link_state (link s') = LINK_STATE_IDLE
       ∧ link_rx1_status (link s') = RX_STATUS_NONE
       ∧ link_rx2_status (link s') = RX_STATUS_NONE
       ∧ irq_of a s' = 0)
  ∧ (∀ i,
       USE_ANTENNA1 = true →
       link_state (link s) ≠ LINK_STATE_TRANSMIT →
       link_state (link s) ≠ LINK_STATE_RECEIVE →
       Z.land (irq_status (link s)) SX12xx_IRQ_TIMEOUT ≠ 0 →
       ¬ (link_state (link s) = LINK_STATE_TRANSMIT_WAIT
          ∧ Z.land (irq_status (link s)) SX12xx_IRQ_TX_DONE ≠ 0) →
       ¬ (link_state (link s) = LINK_STATE_RECEIVE_WAIT
          ∧ Z.land (irq_status (link s)) SX12xx_IRQ_RX_DONE ≠ 0) →
       doPreTransmit (sched (sys_task s)) = false →
       let s' := state_of (main_loop i s) in
       link_state (link s') = LINK_STATE_IDLE
       ∧ link_rx1_status (link s') = RX_STATUS_NONE
       ∧ link_rx2_status (link s') = RX_STATUS_NONE)
  ∧ (∀ i,
       link_state (link s) = LINK_STATE_IDLE →
       doPreTransmit (sched (sys_task s)) = false →
       let s' := state_of (main_loop i s) in
       link_state (link s') = LINK_STATE_IDLE
       ∧ transmit_seq_no (stats s') = transmit_seq_no (stats s)
       ∧ sx (dev s') = sx (dev s) ∧ sx2 (dev s') = sx2 (dev s)
       ∧ txFrame (frames s') = txFrame (frames s)).
Proof.
  split; [|split].
  - intros a Htmo Htx Hrx.
    destruct (irq_block_timeout a s Htmo Htx Hrx) as (s'&?&?&?&?&?&_).
    by exists s'.
  - intros i Ha1 Ht Hr Htmo Htx Hrx Hp. cbv zeta. rewrite state_of_main_loop.
    destruct (sys_task_frame s) as (Hl&_).
    set (s0 := sys_task s) in *.
    assert (link_state_switch s0 = s0) as Hsw
      by (apply link_state_switch_id; by rewrite Hl).
    destruct (irq_block_timeout ANTENNA_1 s0) as (s1&Hb&Hi&H1&H2&_);
      [simpl; by rewrite Hl..|].
    destruct (sx_handling_frame s0) as (_&Hsched&_).
    assert (let s' := state_of (sx_handling s0) in
            link_state (link s') = LINK_STATE_IDLE
            ∧ link_rx1_status (link s') = RX_STATUS_NONE
            ∧ link_rx2_status (link s') = RX_STATUS_NONE) as Hsx.
    { unfold sx_handling. rewrite Ha1, Hsw, Hb. cbv zeta. simpl.
      destruct USE_ANTENNA2; [|done].
      by apply irq_block_idle_none. }
    cbv zeta in Hsx.
    destruct (sx_handling s0) as [s2|s2]; cbn [state_of] in *; [|done].
    rewrite <- Hsched in Hp.
    by destruct (loop_tail_no_pre_transmit i s2 Hp) as (->&_).
  - intros i Hi Hp. cbv zeta. rewrite state_of_main_loop.
    destruct (sys_task_frame s) as (Hl&Hfr&Hst&_&Hd&_).
    set (s0 := sys_task s) in *.
    assert (let s' := state_of (sx_handling s0) in
            link_state (link s') = LINK_STATE_IDLE
            ∧ dev s' = dev s0 ∧ stats s' = stats s0 ∧ frames s' = frames s0)
      as Hsx.
    { cbv zeta. apply sx_handling_ind.
      - rewrite link_state_switch_id by (rewrite Hl, Hi; done).
        by rewrite Hl.
      - intros a s1 (H1&H2&H3&H4).
        destruct (irq_block_idle a s1 H1) as (->&->&->&->). done. }
    cbv zeta in Hsx. destruct Hsx as (H1&H2&H3&H4).
    destruct (sx_handling_frame s0) as (_&Hsched&_).
    destruct (sx_handling s0) as [s2|s2]; cbn [state_of] in *.
    + rewrite <- Hsched in Hp.
      destruct (loop_tail_no_pre_transmit i s2 Hp) as (->&->&_&->&->&->).
      by rewrite H1, H2, H3, H4, Hd, Hst, Hfr.
    + by rewrite H1, H2, H3, H4, Hd, Hst, Hfr.
Qed.

(** ** The request slot *)

Lemma DIO_EXTI_IRQHandler_frames a s :
  frames (DIO_EXTI_IRQHandler a s) = frames s.
Proof. unfold DIO_EXTI_IRQHandler. cbv zeta. destruct a; by repeat case_match. Qed.

(** Start-up reaches the loop when both modems answer. *)
Lemma main_init_running mbridge_port serial_port boot :
  sx_isOk (sx (dev boot)) = true →
  sx_isOk (sx2 (dev boot)) = true →
  ∃ s0,
    main_init mbridge_port serial_port boot = Running s0
    ∧ transmit_frame_type (frames s0) = TRANSMIT_FRAME_TYPE_CMD_GET_RX_SETUPDATA.
Proof.
  intros Hok1 Hok2.
  assert (sx (dev (init_serialport mbridge_port serial_port boot)) = sx (dev boot)
          ∧ sx2 (dev (init_serialport mbridge_port serial_port boot))
            = sx2 (dev boot)) as (Hx1 & Hx2).
  { unfold init_serialport. by destruct (Tx_SerialDestination (Setup boot)). }
  unfold main_init. cbv zeta. rewrite Hx1, Hx2, Hok1, Hok2. cbn [negb].
  eexists. split; [reflexivity|]. done.
Qed.

(** The other direction of the slot lemmas: a command frame with setup data
    or ack in the buffer handed to [handle_receive] clears the slot whenever
    the rx status of that antenna is not Invalid. *)
Lemma process_received_cmd_rx_frame_clears frame s :
  rx_payload frame !!! 0%nat = FRAME_CMD_RX_SETUPDATA
  ∨ rx_payload frame !!! 0%nat = FRAME_CMD_RX_ACK →
  transmit_frame_type (frames (process_received_cmd_rx_frame frame s))
  = TRANSMIT_FRAME_TYPE_NORMAL.
Proof.
  intros Hcmd. unfold process_received_cmd_rx_frame. cbv zeta.
  destruct (_ =? FRAME_CMD_RX_SETUPDATA) eqn:H1; [done|].
  destruct (_ =? FRAME_CMD_RX_ACK) eqn:H2; [done|].
  apply Z.eqb_neq in H1, H2. by destruct Hcmd.
Qed.

Lemma handle_receive_clears a s :
  link_rx_status_of a s ≠ RX_STATUS_INVALID →
  FrameStatus.frame_type (status (rxFrame_of a s)) ≠ FRAME_TYPE_RX →
  rx_payload (rxFrame_of a s) !!! 0%nat = FRAME_CMD_RX_SETUPDATA
  ∨ rx_payload (rxFrame_of a s) !!! 0%nat = FRAME_CMD_RX_ACK →
  transmit_frame_type (frames (handle_receive a s)) = TRANSMIT_FRAME_TYPE_NORMAL.
Proof.
  intros Hst Hty Hcmd. unfold handle_receive. cbv zeta.
  apply Z.eqb_neq in Hst. rewrite Hst. cbn [negb].
  unfold process_received_frame. cbv zeta.
  apply Z.eqb_neq in Hty. rewrite Hty. cbn [negb].
  tx_red. by apply process_received_cmd_rx_frame_clears.
Qed.

Lemma pre_transmit_clears s :
  frame_received s = true →
  link_rx_status_of (select_antenna s) s ≠ RX_STATUS_INVALID →
  FrameStatus.frame_type (status (rxFrame_of (select_antenna s) s)) ≠ FRAME_TYPE_RX →
  rx_payload (rxFrame_of (select_antenna s) s) !!! 0%nat = FRAME_CMD_RX_SETUPDATA
  ∨ rx_payload (rxFrame_of (select_antenna s) s) !!! 0%nat = FRAME_CMD_RX_ACK →
  transmit_frame_type (frames (pre_transmit s)) = TRANSMIT_FRAME_TYPE_NORMAL.
Proof.
  intros Hfr Hst Hty Hcmd. unfold pre_transmit. cbv zeta.
  set (s0 := upd_sched (set_doPreTransmit false) s).
  match goal with |- context [pre_transmit_finish ?s1] =>
    destruct (pre_transmit_finish_frame s1) as (->&_) end.
  tx_red. unfold pre_transmit_receive.
  change (frame_received s0) with (frame_received s). rewrite Hfr.
  change (select_antenna s0) with (select_antenna s).
  by apply handle_receive_clears.
Qed.

(** The handset part writes the slot on a store command of the bridge
    only. *)
Lemma handset_handling_keeps_slot i s :
  mbridge_CommandReceived i ≠ Some MBRIDGE_CMD_PARAM_STORE →
  transmit_frame_type (frames (handset_handling i s))
  = transmit_frame_type (frames s).
Proof.
  intros Hcmd. unfold handset_handling. cbv zeta.
  set (s1 := if USE_MBRIDGE then mbridge_handling i s else s).
  assert (transmit_frame_type (frames s1) = transmit_frame_type (frames s)) as H1.
  { unfold s1. destruct USE_MBRIDGE; [|done].
    unfold mbridge_handling. by repeat case_match. }
  set (s2 := if DEVICE_HAS_IN
             then channel_source_handling CHANNEL_SOURCE_INPORT (in_Update i) s1
             else s1).
  assert (frames s2 = frames s1) as H2.
  { unfold s2. destruct DEVICE_HAS_IN; [|done].
    by destruct (channel_source_handling_frame CHANNEL_SOURCE_INPORT (in_Update i) s1)
      as (_&_&_&_&_&_&_&_&->&_). }
  rewrite <- H1, <- H2. destruct USE_CRSF; [|done].
  by destruct (channel_source_handling_frame CHANNEL_SOURCE_CRSF (crsf_Update i) s2)
    as (_&_&_&_&_&_&_&_&->&_).
Qed.

Lemma loop_tail_clears i s :
  doPreTransmit (sched s) = true →
  frame_received s = true →
  link_rx_status_of (select_antenna s) s ≠ RX_STATUS_INVALID →
  FrameStatus.frame_type (status (rxFrame_of (select_antenna s) s)) ≠ FRAME_TYPE_RX →
  rx_payload (rxFrame_of (select_antenna s) s) !!! 0%nat = FRAME_CMD_RX_SETUPDATA
  ∨ rx_payload (rxFrame_of (select_antenna s) s) !!! 0%nat = FRAME_CMD_RX_ACK →
  mbridge_CommandReceived i ≠ Some MBRIDGE_CMD_PARAM_STORE →
  transmit_frame_type (frames (loop_tail i s)) = TRANSMIT_FRAME_TYPE_NORMAL.
Proof.
  intros Hp Hfr Hst Hty Hcmd Hi. unfold loop_tail. cbv zeta.
  unfold while_transmit_do. tx_red.
  rewrite handset_handling_keeps_slot by done.
  unfold pre_transmit_step. rewrite Hp. by apply pre_transmit_clears.
Qed.

(** C7: start-up, when both modems answer, reaches the loop with
    GET_RX_SETUPDATA in [transmit_frame_type]; the interrupt handlers do not
    write the slot; a pass of the loop that starts with a command type in
    the slot and ends with NORMAL has run the pre-transmit block with a
    frame counted as received, on the elected antenna, whose rx status is
    not Invalid and whose buffer holds a command frame with the first
    payload byte FRAME_CMD_RX_SETUPDATA or FRAME_CMD_RX_ACK; as long as a
    command type is in the slot, [process_transmit_frame] keeps it there,
    hands the modem a frame packed by one of the command packers, and takes
    nothing from the serial port or the MAVLink handler. The elected antenna
    need not have received a frame: with both antennas in use, antenna 1 at
    None, antenna 2 at Invalid and the higher RSSI stored for antenna 1, no
    valid frame counts as received, antenna 1 is elected, and the pass
    clears the slot when [rxFrame] holds a command frame with setup data or
    ack, although the status of antenna 1 says that no frame has reached it
    in this cycle; only a store command of the bridge in the same pass puts
    a command type back. *)
Theorem C7_command_slot_cleared_from_elected_buffer (s : tTx) :
  (∀ mbridge_port serial_port,
     sx_isOk (sx (dev s)) = true →
     sx_isOk (sx2 (dev s)) = true →
     ∃ s0,
       main_init mbridge_port serial_port s = Running s0
       ∧ transmit_frame_type (frames s0) = TRANSMIT_FRAME_TYPE_CMD_GET_RX_SETUPDATA)
  ∧ (∀ a, transmit_frame_type (frames (DIO_EXTI_IRQHandler a s))
          = transmit_frame_type (frames s))
  ∧ (∀ i,
       transmit_frame_type (frames s) ≠ TRANSMIT_FRAME_TYPE_NORMAL →
       transmit_frame_type (frames (state_of (main_loop i s)))
         = TRANSMIT_FRAME_TYPE_NORMAL →
       ∃ s1,
         sx_handling (sys_task s) = Running s1
         ∧ doPreTransmit (sched s1) = true
         ∧ frame_received s1 = true
         ∧ link_rx_status_of (select_antenna s1) s1 ≠ RX_STATUS_INVALID
         ∧ FrameStatus.frame_type (status (rxFrame_of (select_antenna s1) s1))
             ≠ FRAME_TYPE_RX
         ∧ (rx_payload (rxFrame_of (select_antenna s1) s1) !!! 0%nat
              = FRAME_CMD_RX_SETUPDATA
            ∨ rx_payload (rxFrame_of (select_antenna s1) s1) !!! 0%nat
              = FRAME_CMD_RX_ACK))
  ∧ (∀ antenna ack,
       transmit_frame_type (frames s) ≠ TRANSMIT_FRAME_TYPE_NORMAL →
       let s' := process_transmit_frame antenna ack s in
       transmit_frame_type (frames s') = transmit_frame_type (frames s)
       ∧ is_cmd_frame (txFrame (frames s')) = true
       ∧ sx_of antenna s'
         = sx_SendFrame (txFrame (frames s')) FRAME_TX_RX_LEN SEND_FRAME_TMO
             (sx_of antenna s)
       ∧ serialport (dev s') = serialport (dev s)
       ∧ mavlink (dev s') = mavlink (dev s))
  ∧ (∀ i s1,
       USE_ANTENNA1 = true → USE_ANTENNA2 = true →
       sx_handling (sys_task s) = Running s1 →
       doPreTransmit (sched s1) = true →
       link_rx1_status (link s1) = RX_STATUS_NONE →
       link_rx2_status (link s1) = RX_STATUS_INVALID →
       last_rx_rssi1 (stats s1) > last_rx_rssi2 (stats s1) →
       FrameStatus.frame_type (status (rxFrame (frames s1))) ≠ FRAME_TYPE_RX →
       rx_payload (rxFrame (frames s1)) !!! 0%nat = FRAME_CMD_RX_SETUPDATA
       ∨ rx_payload (rxFrame (frames s1)) !!! 0%nat = FRAME_CMD_RX_ACK →
       mbridge_CommandReceived i ≠ Some MBRIDGE_CMD_PARAM_STORE →
       valid_frame_received s1 = false
       ∧ select_antenna s1 = ANTENNA_1
       ∧ transmit_frame_type (frames (state_of (main_loop i s)))
         = TRANSMIT_FRAME_TYPE_NORMAL).
Proof.
  split; [|split; [|split; [|split]]].
  - intros mb sp Hok1 Hok2. by apply main_init_running.
  - intros a. by rewrite DIO_EXTI_IRQHandler_frames.
  - intros i Hcmd Hn. rewrite state_of_main_loop in Hn.
    destruct (sys_task_frame s) as (_&Hfr&_).
    destruct (sx_handling_frame (sys_task s)) as (_&_&Hkeep).
    rewrite Hfr in Hkeep.
    destruct (sx_handling (sys_task s)) as [s1|s1]; cbn [state_of] in *.
    + exists s1. split; [done|].
      assert (transmit_frame_type (frames s1) ≠ TRANSMIT_FRAME_TYPE_NORMAL) as Hc1
        by (intros H1; by apply Hcmd, Hkeep).
      exact (loop_tail_slot i s1 Hc1 Hn).
    + exfalso. by apply Hcmd, Hkeep.
  - intros antenna ack Hcmd. cbv zeta. unfold process_transmit_frame. cbv zeta.
    rewrite (latch_set_rx_params_cmd s Hcmd), (collect_payload_cmd s Hcmd).
    destruct (pack_and_send_frame_frame antenna ack s)
      as (->&->&_&_&_&_&_&_&->&_&_&->).
    split; [done|]. split; [|done]. by apply pack_and_send_frame_cmd.
  - intros i s1 Hant1 Hant2 Hrun Hp H1 H2 Hrssi Hty Hcmd Hi.
    assert (select_antenna s1 = ANTENNA_1) as Hsel.
    { unfold select_antenna. rewrite Hant1, Hant2, H1, H2. cbn.
      apply Z.gtb_gt in Hrssi. by rewrite Hrssi. }
    split. { unfold valid_frame_received. by rewrite Hant1, Hant2, H1, H2. }
    split; [exact Hsel|].
    rewrite state_of_main_loop, Hrun.
    apply loop_tail_clears; rewrite ?Hsel; cbn [link_rx_status_of rxFrame_of];
      try done.
    + unfold frame_received. by rewrite Hant1, Hant2, H1, H2.
    + by rewrite H1.
Qed.

End TxProperties.







(** C1, as stated, at a concrete input: with [CONNECT_SYNC_CNT = 2], two
    pre-transmit steps with a valid frame from Listen end in Sync, not in
    Connected. *)
Lemma C1_counterexample_two_valid_frames :
  CONNECT_SYNC_CNT (Build := Demo.diversity) = 2
  ∧ connect_state
      (connect_run (B := Demo.diversity)
         [PreTransmit true; PreTransmit true]
         (mkConnect CONNECT_STATE_LISTEN 0 0))
    ≠ CONNECT_STATE_CONNECTED.
Proof. split; [done|]. vm_compute. discriminate. Qed.

(** The amended C1 at [CONNECT_SYNC_CNT = 2]: Connected at the end of the
    third cycle with a valid frame, and Listen again after 500 ticks without
    one. *)
Lemma C1_witness :
  1 ≤ CONNECT_SYNC_CNT (Build := Demo.diversity) ≤ 255
  ∧ wrap16 (CONNECT_TMO_SYSTICKS (Build := Demo.diversity)) ≠ 0
  ∧ connect_state
      (connect_run (B := Demo.diversity)
         [PreTransmit true; PreTransmit true; PreTransmit true]
         (mkConnect CONNECT_STATE_LISTEN 0 0))
    = CONNECT_STATE_CONNECTED
  ∧ connect_state
      (connect_run (B := Demo.diversity)
         (replicate 500 SysTick ++ [PreTransmit false])
         (mkConnect CONNECT_STATE_CONNECTED 500 0))
    = CONNECT_STATE_LISTEN.
Proof.
  assert (1 ≤ CONNECT_SYNC_CNT (Build := Demo.diversity) ≤ 255) as HK
    by (simpl; lia).
  assert (wrap16 (CONNECT_TMO_SYSTICKS (Build := Demo.diversity)) ≠ 0) as HT
    by (vm_compute; discriminate).
  destruct (C1_connected_after_sync_cnt_plus_one_valid_frames
              (B := Demo.diversity) HK HT) as [Hup Hdown].
  split; [exact HK|]. split; [exact HT|]. split.
  - apply Hup; [reflexivity | reflexivity | simpl; lia].
  - apply Hdown; [reflexivity | reflexivity | vm_compute; split; discriminate].
Defined.

(** C2 on the demo modem: RX_DONE pending, buffer starting [0x34 0x13],
    sync word [0x1234]. *)
Lemma C2_witness :
  Z.land
    (wrap16 (sx_GetAndClearIrqStatus (Collab := Demo.collab)
               (SX12xx_IRQ_ALL (Build := Demo.diversity))
               (sx_of ANTENNA_1 Demo.foreign_frame)).1)
    (SX12xx_IRQ_RX_DONE (Build := Demo.diversity)) ≠ 0
  ∧ u16_of_bytes
      (sx_ReadBuffer (Collab := Demo.collab) 0 2
         (sx_GetAndClearIrqStatus (Collab := Demo.collab)
            (SX12xx_IRQ_ALL (Build := Demo.diversity))
            (sx_of ANTENNA_1 Demo.foreign_frame)).2).1
    ≠ FrameSyncWord (Config Demo.foreign_frame)
  ∧ irq_of ANTENNA_1
      (DIO_EXTI_IRQHandler (B := Demo.diversity) ANTENNA_1 Demo.foreign_frame) = 0.
Proof.
  assert (Z.land
    (wrap16 (sx_GetAndClearIrqStatus (Collab := Demo.collab)
               (SX12xx_IRQ_ALL (Build := Demo.diversity))
               (sx_of ANTENNA_1 Demo.foreign_frame)).1)
    (SX12xx_IRQ_RX_DONE (Build := Demo.diversity)) ≠ 0) as H1
    by (vm_compute; discriminate).
  assert (u16_of_bytes
      (sx_ReadBuffer (Collab := Demo.collab) 0 2
         (sx_GetAndClearIrqStatus (Collab := Demo.collab)
            (SX12xx_IRQ_ALL (Build := Demo.diversity))
            (sx_of ANTENNA_1 Demo.foreign_frame)).2).1
    ≠ FrameSyncWord (Config Demo.foreign_frame)) as H2
    by (vm_compute; discriminate).
  split; [exact H1|]. split; [exact H2|].
  exact (proj1 (C2_isr_zeroes_slot_on_foreign_sync_word
                  (B := Demo.diversity) ANTENNA_1 Demo.foreign_frame H1 H2)).
Defined.

(** C3 on the demo state about to transmit, with sequence number 255 and
    hop index 11 of 12: both wrap to 0. *)
Lemma C3_witness :
  link_state (link Demo.about_to_transmit) = LINK_STATE_TRANSMIT
  ∧ transmit_seq_no
      (stats (link_state_switch (B := Demo.diversity) Demo.about_to_transmit))
    = wrap8 (255 + 1)
  ∧ Fhss.curr_i
      (fhss (link_state_switch (B := Demo.diversity) Demo.about_to_transmit))
    = (11 + 1) mod 12.
Proof.
  assert (link_state (link Demo.about_to_transmit) = LINK_STATE_TRANSMIT) as Ht
    by reflexivity.
  split; [exact Ht|].
  destruct (C3_transmit_cycle_increments_once
              (B := Demo.diversity) Demo.about_to_transmit) as [Hbranch _].
  destruct (Hbranch Ht) as [(Hn & Hi & _) _].
  split; [exact Hn | exact Hi].
Defined.

(** C5 on the demo state with both antennas Valid at -70 and -65 dBm. *)
Lemma C5_witness :
  USE_ANTENNA1 (Build := Demo.diversity) = true
  ∧ USE_ANTENNA2 (Build := Demo.diversity) = true
  ∧ select_antenna (B := Demo.diversity) Demo.diversity_tie = ANTENNA_2.
Proof.
  split; [reflexivity|]. split; [reflexivity|].
  destruct (C5_antenna_arbiter (B := Demo.diversity) Demo.diversity_tie
              eq_refl eq_refl) as (_ & _ & _ & Htie & _).
  apply Htie; reflexivity.
Defined.

(** C6, as stated, at a concrete input: in TransmitWait with TX_DONE and the
    timeout cause both in [irq_status] ([0x4001]), the pass ends with the
    link in Receive, not in Idle. *)
Lemma C6_counterexample_tx_done_with_timeout :
  Z.land (irq_status (link Demo.tx_done_and_timeout))
         (SX12xx_IRQ_TIMEOUT (Build := Demo.diversity)) ≠ 0
  ∧ link_state
      (link (state_of (main_loop (B := Demo.diversity) Demo.idle_handset
                         Demo.tx_done_and_timeout)))
    ≠ LINK_STATE_IDLE.
Proof. split; vm_compute; discriminate. Qed.

(** The amended C6 on the demo state in TransmitWait with the timeout cause
    alone in [irq_status]. *)
Lemma C6_witness :
  Z.land (irq_of ANTENNA_1 Demo.tx_timeout)
         (SX12xx_IRQ_TIMEOUT (Build := Demo.diversity)) ≠ 0
  ∧ Z.land (irq_of ANTENNA_1 Demo.tx_timeout)
           (SX12xx_IRQ_TX_DONE (Build := Demo.diversity)) = 0
  ∧ link_state (link Demo.tx_timeout) ≠ LINK_STATE_RECEIVE_WAIT
  ∧ ∃ s',
      irq_block (B := Demo.diversity) ANTENNA_1 Demo.tx_timeout = Running s'
      ∧ link_state (link s') = LINK_STATE_IDLE
      ∧ link_rx1_status (link s') = RX_STATUS_NONE
      ∧ link_rx2_status (link s') = RX_STATUS_NONE
      ∧ irq_of ANTENNA_1 s' = 0.
Proof.
  assert (Z.land (irq_of ANTENNA_1 Demo.tx_timeout)
            (SX12xx_IRQ_TIMEOUT (Build := Demo.diversity)) ≠ 0) as Htmo
    by (vm_compute; discriminate).
  assert (Z.land (irq_of ANTENNA_1 Demo.tx_timeout)
            (SX12xx_IRQ_TX_DONE (Build := Demo.diversity)) = 0) as Htx
    by reflexivity.
  assert (link_state (link Demo.tx_timeout) ≠ LINK_STATE_RECEIVE_WAIT) as Hrx
    by (vm_compute; discriminate).
  split; [exact Htmo|]. split; [exact Htx|]. split; [exact Hrx|].
  destruct (C6_timeout_returns_link_to_idle (B := Demo.diversity) Demo.tx_timeout)
    as [Hblock _].
  apply (Hblock ANTENNA_1 Htmo).
  - intros [_ Hc]. exact (Hc Htx).
  - intros [Hc _]. exact (Hrx Hc).
Defined.

(** C7 on the concrete build. Start-up from the initial state reaches the
    loop with GET_RX_SETUPDATA in the slot. In the state [ack_received] the
    store request is in the slot and antenna 1 holds the receiver's ack with
    status Valid: the pass ends with NORMAL in the slot. In the state
    [stale_ack] the store request is in the slot, antenna 1 has received
    nothing, antenna 2 a frame that failed its check, and [rxFrame] holds
    the ack of an earlier command: the pass counts no valid frame, elects
    antenna 1 and ends with NORMAL in the slot all the same. *)
Lemma C7_witness :
  (∃ s0,
     main_init (B := Demo.diversity) (C := Demo.collab)
       Demo.port0 Demo.port0 Demo.started = Running s0
     ∧ transmit_frame_type (frames s0) = TRANSMIT_FRAME_TYPE_CMD_GET_RX_SETUPDATA)
  ∧ (transmit_frame_type (frames Demo.ack_received) ≠ TRANSMIT_FRAME_TYPE_NORMAL
     ∧ transmit_frame_type
         (frames (state_of (main_loop (B := Demo.diversity) Demo.idle_handset
                              Demo.ack_received)))
       = TRANSMIT_FRAME_TYPE_NORMAL
     ∧ ∃ s1,
         sx_handling (B := Demo.diversity) (sys_task (B := Demo.diversity)
                                              Demo.ack_received) = Running s1
         ∧ doPreTransmit (sched s1) = true
         ∧ frame_received (B := Demo.diversity) s1 = true
         ∧ link_rx_status_of (select_antenna (B := Demo.diversity) s1) s1
           ≠ RX_STATUS_INVALID
         ∧ FrameStatus.frame_type
             (status (rxFrame_of (select_antenna (B := Demo.diversity) s1) s1))
           ≠ FRAME_TYPE_RX (Build := Demo.diversity)
         ∧ (rx_payload (rxFrame_of (select_antenna (B := Demo.diversity) s1) s1)
              !!! 0%nat = FRAME_CMD_RX_SETUPDATA (Build := Demo.diversity)
            ∨ rx_payload (rxFrame_of (select_antenna (B := Demo.diversity) s1) s1)
                !!! 0%nat = FRAME_CMD_RX_ACK (Build := Demo.diversity)))
  ∧ transmit_frame_type (frames Scenario.stale_ack)
    = TRANSMIT_FRAME_TYPE_CMD_STORE_RX_PARAMS
  ∧ link_rx1_status (link Scenario.stale_ack) = RX_STATUS_NONE
  ∧ link_rx2_status (link Scenario.stale_ack) = RX_STATUS_INVALID
  ∧ irq_status (link Scenario.stale_ack) = 0
  ∧ irq2_status (link Scenario.stale_ack) = 0
  ∧ valid_frame_received (B := Demo.diversity) Scenario.stale_ack = false
  ∧ select_antenna (B := Demo.diversity) Scenario.stale_ack = ANTENNA_1
  ∧ transmit_frame_type
      (frames (state_of (main_loop (B := Demo.diversity) Demo.idle_handset
                           Scenario.stale_ack)))
    = TRANSMIT_FRAME_TYPE_NORMAL.
Proof.
  destruct (C7_command_slot_cleared_from_elected_buffer (B := Demo.diversity)
              Demo.started) as (Hboot & _).
  destruct (C7_command_slot_cleared_from_elected_buffer (B := Demo.diversity)
              Demo.ack_received) as (_ & _ & Hloop & _).
  destruct (C7_command_slot_cleared_from_elected_buffer (B := Demo.diversity)
              Scenario.stale_ack) as (_ & _ & _ & _ & Hstale).
  assert (transmit_frame_type (frames Demo.ack_received)
          ≠ TRANSMIT_FRAME_TYPE_NORMAL) as Hcmd by (vm_compute; discriminate).
  assert (transmit_frame_type
      (frames (state_of (main_loop (B := Demo.diversity) Demo.idle_handset
                           Demo.ack_received)))
    = TRANSMIT_FRAME_TYPE_NORMAL) as Hn by (vm_compute; reflexivity).
  assert (last_rx_rssi1 (stats Scenario.stale_ack)
          > last_rx_rssi2 (stats Scenario.stale_ack)) as Hrssi by reflexivity.
  assert (FrameStatus.frame_type (status (rxFrame (frames Scenario.stale_ack)))
          ≠ FRAME_TYPE_RX (Build := Demo.diversity)) as Hty
    by (vm_compute; discriminate).
  assert (mbridge_CommandReceived Demo.idle_handset ≠ Some MBRIDGE_CMD_PARAM_STORE)
    as Hi by discriminate.
  split; [exact (Hboot Demo.port0 Demo.port0 eq_refl eq_refl)|].
  split.
  { split; [exact Hcmd|]. split; [exact Hn|].
    exact (Hloop Demo.idle_handset Hcmd Hn). }
  do 5 (split; [reflexivity|]).
  exact (Hstale Demo.idle_handset Scenario.stale_ack eq_refl eq_refl eq_refl
           eq_refl eq_refl eq_refl Hrssi Hty (or_intror eq_refl) Hi).
Defined.

(** C8 from the initial object: three calls after the trigger run nothing;
    with the store task latched, seven calls run it once; and over three
    countdowns in a row, each a trigger and five calls, it is run once in
    all. *)
Lemma C8_witness :
  (3 < 5)%nat
  ∧ (WhileTransmit.Do_n 3 (WhileTransmit.Trigger WhileTransmit.Init)).2 = []
  ∧ (5 ≤ 7)%nat
  ∧ WhileTransmit.stores
      (WhileTransmit.Do_n 7
         (WhileTransmit.Trigger
            (WhileTransmit.SetTask WHILE_TASK_STORE_PARAMS WhileTransmit.Init))).2
    = 1%nat
  ∧ count_if is_set_task
      (CallTrigger :: replicate 5 CallDo ++ CallTrigger :: replicate 5 CallDo)
    = 0%nat
  ∧ WhileTransmit.stores
      (WhileTransmit_calls
         ((CallTrigger :: replicate 5 CallDo ++ CallTrigger :: replicate 5 CallDo)
          ++ CallTrigger :: replicate 5 CallDo)
         (WhileTransmit.SetTask WHILE_TASK_STORE_PARAMS WhileTransmit.Init)).2
    = 1%nat.
Proof.
  assert (3 < 5)%nat as H35 by lia.
  assert (5 ≤ 7)%nat as H57 by lia.
  assert (5 ≤ 5)%nat as H55 by lia.
  assert (count_if is_set_task
            (CallTrigger :: replicate 5 CallDo ++ CallTrigger :: replicate 5 CallDo)
          = 0%nat) as Hcs by reflexivity.
  destruct (C8_while_transmit_one_task_after_countdown WhileTransmit.Init)
    as (_ & _ & _ & Hwait & (_ & Honce) & _ & Hall).
  split; [exact H35|]. split; [exact (Hwait 3%nat H35)|].
  split; [exact H57|]. split; [exact (Honce 7%nat H57)|].
  split; [exact Hcs|]. exact (Hall _ 5%nat Hcs H55).
Defined.


(** C10 on the demo state in which antenna 1 holds a frame that failed its
    check. *)
Lemma C10_witness :
  link_rx_status_of ANTENNA_1 Demo.invalid_frame = RX_STATUS_INVALID
  ∧ received_seq_no_last
      (stats (handle_receive (B := Demo.diversity) ANTENNA_1 Demo.invalid_frame))
    = UINT8_MAX
  ∧ txstats
      (dev (handle_receive (B := Demo.diversity) ANTENNA_1 Demo.invalid_frame))
    = txstats_doFrameReceived (txstats (dev Demo.invalid_frame)).
Proof.
  assert (link_rx_status_of ANTENNA_1 Demo.invalid_frame = RX_STATUS_INVALID)
    as Hst by reflexivity.
  split; [exact Hst|].
  destruct (C10_handle_receive_invalid_frame (B := Demo.diversity)
              ANTENNA_1 Demo.invalid_frame Hst) as (Hseq & _ & _ & _ & _ & Htx & _).
  split; [exact Hseq | exact Htx].
Defined.

(** ** Channel order, over every call sequence *)

Lemma ChannelOrder_Apply_length co rc :
  length (ChannelOrder.Apply co rc) = length rc.
Proof.
  unfold ChannelOrder.Apply, tRcData in *. cbn [foldl seq].
  by rewrite !length_insert.
Qed.

(** X1: [Apply] keeps the number of channels and every channel from the
    fifth on, whatever the map holds. *)
Theorem ChannelOrder_Apply_keeps_length_and_upper_channels
    (co : ChannelOrder.t) (rc : tRcData) :
  length (ChannelOrder.Apply co rc) = length rc
  ∧ drop 4 (ChannelOrder.Apply co rc) = drop 4 rc.
Proof.
  split; [apply ChannelOrder_Apply_length|].
  unfold ChannelOrder.Apply, tRcData in *. cbn [foldl seq].
  rewrite !drop_insert_lt by lia. done.
Qed.

(** The map is the identity or the ETAR map, and the cached order is ETAR
    only with the ETAR map. *)
Lemma ChannelOrder_Set_map order co :
  (ChannelOrder.channel_map co = [2; 0; 1; 3]
   ∨ (ChannelOrder.channel_map co = [0; 1; 2; 3]
      ∧ ChannelOrder.channel_order co ≠ CHANNEL_ORDER_ETAR)) →
  let co' := ChannelOrder.Set_ order co in
  (ChannelOrder.channel_map co' = [2; 0; 1; 3]
   ∨ (ChannelOrder.channel_map co' = [0; 1; 2; 3]
      ∧ ChannelOrder.channel_order co' ≠ CHANNEL_ORDER_ETAR))
  ∧ ChannelOrder.channel_map co'
    = if wrap8 order =? CHANNEL_ORDER_ETAR then [2; 0; 1; 3]
      else ChannelOrder.channel_map co.
Proof.
  intros Hinv. unfold ChannelOrder.Set_. cbn zeta.
  generalize (wrap8 order). clear order. intros order.
  destruct (order =? ChannelOrder.channel_order co) eqn:Hsame.
  - apply Z.eqb_eq in Hsame. split; [exact Hinv|].
    destruct (order =? CHANNEL_ORDER_ETAR) eqn:He; [|done].
    apply Z.eqb_eq in He. destruct Hinv as [Hm|[_ Hne]]; [done|congruence].
  - cbn [ChannelOrder.channel_order ChannelOrder.channel_map].
    unfold CHANNEL_ORDER_AETR, CHANNEL_ORDER_TAER, CHANNEL_ORDER_ETAR in *.
    destruct (order =? 0) eqn:H0; [apply Z.eqb_eq in H0; subst order|];
      [cbn [Z.eqb]; split; [|done];
       destruct Hinv as [Hm|[Hm _]]; [by left|right; split; [done|cbn; lia]]|].
    destruct (order =? 1) eqn:H1; [apply Z.eqb_eq in H1; subst order|];
      [cbn [Z.eqb]; split; [|done];
       destruct Hinv as [Hm|[Hm _]]; [by left|right; split; [done|cbn; lia]]|].
    destruct (order =? 2) eqn:H2.
    + cbn [ChannelOrder.channel_map].
      destruct Hinv as [Hm|[Hm _]]; rewrite Hm; split; (by left) || done.
    + split; [|done]. apply Z.eqb_neq in H2.
      destruct Hinv as [Hm|[Hm _]]; [by left|right; split; [done|cbn; lia]].
Qed.

Lemma ChannelOrder_Set_all_map orders : ∀ co,
  (ChannelOrder.channel_map co = [2; 0; 1; 3]
   ∨ (ChannelOrder.channel_map co = [0; 1; 2; 3]
      ∧ ChannelOrder.channel_order co ≠ CHANNEL_ORDER_ETAR)) →
  ChannelOrder.channel_map (ChannelOrder_Set_all orders co)
  = if existsb (λ order, wrap8 order =? CHANNEL_ORDER_ETAR) orders
    then [2; 0; 1; 3]
    else ChannelOrder.channel_map co.
Proof.
  induction orders as [|order orders IH]; intros co Hinv; [done|].
  unfold ChannelOrder_Set_all in *. cbn [foldl existsb].
  destruct (ChannelOrder_Set_map order co Hinv) as [Hinv' Hmap].
  rewrite (IH _ Hinv'), Hmap.
  destruct (wrap8 order =? CHANNEL_ORDER_ETAR); cbn [orb]; [|done].
  by destruct (existsb _ orders).
Qed.

(** X2: whatever values are passed to [Set] one after the other from the
    constructed object, the map is the ETAR map once one of them has been
    ETAR as the 8-bit value that [Set] receives, and the identity before: no
    later order brings the identity back. *)
Theorem ChannelOrder_map_after_any_orders (orders : list Z) :
  ChannelOrder.channel_map (ChannelOrder_Set_all orders ChannelOrder.init)
  = if existsb (λ order, wrap8 order =? CHANNEL_ORDER_ETAR) orders
    then [2; 0; 1; 3] else [0; 1; 2; 3].
Proof.
  rewrite ChannelOrder_Set_all_map; [done|].
  right. split; [done|]. cbn. unfold UINT8_MAX, CHANNEL_ORDER_ETAR. lia.
Qed.

(** X3: with at least four channels, [Apply] under any map reached from
    the constructed object only permutes the channel values: none is lost
    and none is doubled. *)
Theorem ChannelOrder_Apply_permutes (orders : list Z) (rc : tRcData) :
  (4 ≤ length rc)%nat →
  ChannelOrder.Apply (ChannelOrder_Set_all orders ChannelOrder.init) rc ≡ₚ rc.
Proof.
  intros Hlen.
  destruct rc as [|ch0 [|ch1 [|ch2 [|ch3 rest]]]]; simpl in Hlen; try lia.
  unfold ChannelOrder.Apply.
  rewrite ChannelOrder_Set_all_map
    by (right; split; [done|cbn; unfold UINT8_MAX, CHANNEL_ORDER_ETAR; lia]).
  destruct (existsb _ orders); cbn; [|done].
  rewrite (Permutation_swap ch0 ch2 (ch1 :: ch3 :: rest)).
  apply Permutation_skip. apply Permutation_swap.
Qed.

(** ** While transmit tasks, over every call sequence *)

(** A run of the store task uses up the countdown. *)
Lemma WhileTransmit_Do_uses_trigger w :
  (WhileTransmit.stores (WhileTransmit.Do w).2
   + (if nonzero (WhileTransmit.do_cnt (WhileTransmit.Do w).1) then 1 else 0)
   ≤ if nonzero (WhileTransmit.do_cnt w) then 1 else 0)%nat.
Proof.
  unfold WhileTransmit.Do.
  destruct (nonzero (WhileTransmit.do_cnt w)) eqn:Hc; cbn [negb fst snd];
    [|rewrite Hc; change (WhileTransmit.stores []) with 0%nat; lia].
  cbn [WhileTransmit.do_cnt WhileTransmit.tasks].
  destruct (nonzero (wrap16 (WhileTransmit.do_cnt w - 1))) eqn:Hc1.
  { cbn [fst snd WhileTransmit.do_cnt]. rewrite Hc1.
    change (WhileTransmit.stores []) with 0%nat. lia. }
  destruct (nonzero (WhileTransmit.tasks w)) eqn:Ht; cbn [negb].
  - unfold WhileTransmit.handle_tasks.
    cbn [WhileTransmit.do_cnt WhileTransmit.tasks].
    case_match; cbn [fst snd WhileTransmit.do_cnt]; rewrite Hc1;
      rewrite ?WhileTransmit_stores_store, ?WhileTransmit_stores_no_store; lia.
  - cbn [fst snd WhileTransmit.do_cnt]. rewrite Hc1.
    change (WhileTransmit.stores []) with 0%nat. lia.
Qed.

(** A run of the store task uses up the latched request. *)
Lemma WhileTransmit_Do_uses_request w :
  (WhileTransmit.stores (WhileTransmit.Do w).2
   + (if nonzero (Z.land (WhileTransmit.tasks (WhileTransmit.Do w).1)
                         WHILE_TASK_STORE_PARAMS) then 1 else 0)
   ≤ if nonzero (Z.land (WhileTransmit.tasks w) WHILE_TASK_STORE_PARAMS)
     then 1 else 0)%nat.
Proof.
  assert (∀ b : bool,
    (WhileTransmit.stores [] + (if b then 1 else 0) ≤ if b then 1 else 0)%nat)
    as Hidle by (intros []; change (WhileTransmit.stores []) with 0%nat; lia).
  unfold WhileTransmit.Do.
  destruct (nonzero (WhileTransmit.do_cnt w)); cbn [negb fst snd];
    [|apply Hidle].
  cbn [WhileTransmit.do_cnt WhileTransmit.tasks].
  destruct (nonzero (wrap16 (WhileTransmit.do_cnt w - 1)));
    [cbn [fst snd WhileTransmit.tasks]; apply Hidle|].
  destruct (nonzero (WhileTransmit.tasks w)); cbn [negb];
    [|cbn [fst snd WhileTransmit.tasks]; apply Hidle].
  unfold WhileTransmit.handle_tasks.
  cbn [WhileTransmit.do_cnt WhileTransmit.tasks].
  destruct (nonzero (Z.land (WhileTransmit.tasks w) WHILE_TASK_STORE_PARAMS)) eqn:Hb.
  - cbn [fst snd WhileTransmit.tasks].
    rewrite WhileTransmit_stores_store.
    unfold WHILE_TASK_STORE_PARAMS. rewrite wrap8_bit0, clear_bit0.
    change (nonzero 0) with false. cbv iota. lia.
  - cbn [fst snd WhileTransmit.tasks].
    rewrite Hb, WhileTransmit_stores_no_store. lia.
Qed.

Lemma WhileTransmit_calls_bounds cs : ∀ w,
  let out := (WhileTransmit_calls cs w).2 in
  (WhileTransmit.stores out
   ≤ (if nonzero (WhileTransmit.do_cnt w) then 1 else 0) + count_if is_trigger cs)%nat
  ∧ (WhileTransmit.stores out
     ≤ (if nonzero (Z.land (WhileTransmit.tasks w) WHILE_TASK_STORE_PARAMS)
        then 1 else 0) + count_if is_set_task cs)%nat.
Proof.
  induction cs as [|c cs IH]; intros w; [cbn; split; lia|].
  cbn [WhileTransmit_calls count_if]. cbn zeta. cbn [snd].
  rewrite WhileTransmit_stores_app.
  destruct (IH (WhileTransmit_call w c).1) as [IH1 IH2]. cbn zeta in IH1, IH2.
  destruct c as [|task|]; cbn [WhileTransmit_call fst snd is_trigger is_set_task] in *.
  - cbn [WhileTransmit.Trigger WhileTransmit.do_cnt WhileTransmit.tasks] in *.
    change (WhileTransmit.stores []) with 0%nat.
    split; [|lia].
    change (nonzero 5) with true in IH1. cbv iota in IH1.
    destruct (nonzero (WhileTransmit.do_cnt w)); lia.
  - cbn [WhileTransmit.SetTask WhileTransmit.do_cnt WhileTransmit.tasks] in *.
    change (WhileTransmit.stores []) with 0%nat.
    split; [lia|].
    destruct (nonzero (Z.land (wrap8 _) _)) in IH2;
      destruct (nonzero (Z.land (WhileTransmit.tasks w) _)); lia.
  - pose proof (WhileTransmit_Do_uses_trigger w).
    pose proof (WhileTransmit_Do_uses_request w).
    split; lia.
Qed.

(** X4: over any sequence of [Trigger], [SetTask] and [Do] calls from the
    initialised object, the store task runs at most once per [Trigger] and
    at most once per [SetTask]. *)
Theorem WhileTransmit_stores_bounded (cs : list tWhileTransmitCall) :
  let out := (WhileTransmit_calls cs WhileTransmit.Init).2 in
  (WhileTransmit.stores out ≤ count_if is_trigger cs)%nat
  ∧ (WhileTransmit.stores out ≤ count_if is_set_task cs)%nat.
Proof.
  destruct (WhileTransmit_calls_bounds cs WhileTransmit.Init) as [H1 H2].
  change (nonzero (WhileTransmit.do_cnt WhileTransmit.Init)) with false in H1.
  change (nonzero (Z.land (WhileTransmit.tasks WhileTransmit.Init)
                     WHILE_TASK_STORE_PARAMS)) with false in H2.
  cbv zeta iota in *. split; lia.
Qed.

(** ** Connection state machine, over every event sequence *)

Section ConnectionProperties.
Context {B : Build} {C : Collab}.

Lemma connect_update_connected_tmo v c :
  connect_state (connect_update v c) = CONNECT_STATE_CONNECTED →
  connect_tmo_cnt (connect_update v c) ≠ 0.
Proof.
  unfold connect_update. cbv zeta.
  match goal with
  | |- context [bool_decide (connect_state ?x = _) && negb (nonzero _)] =>
      set (c1 := x)
  end.
  destruct (bool_decide (connect_state c1 = CONNECT_STATE_CONNECTED)
            && negb (nonzero (connect_tmo_cnt c1))) eqn:H1.
  - cbn [connect_state set_connect_state].
    rewrite bool_decide_eq_false_2 by discriminate. cbn [andb].
    cbn [connect_state set_connect_state]. discriminate.
  - intros Hst.
    assert (connect_state c1 = CONNECT_STATE_CONNECTED) as Hc1.
    { destruct (bool_decide (connect_state c1 = CONNECT_STATE_CONNECTED) && negb v);
        exact Hst. }
    rewrite (bool_decide_eq_true_2 _ Hc1) in H1. cbn [andb] in H1.
    apply negb_false_iff, nonzero_true in H1.
    destruct (bool_decide (connect_state c1 = CONNECT_STATE_CONNECTED) && negb v);
      exact H1.
Qed.

(** X5: when the pre-transmit block leaves the connection in Connected,
    the timeout counter is not zero. *)
Theorem connected_after_pre_transmit_has_timeout_left (s : tTx) :
  connected (pre_transmit s) = true →
  connect_tmo_cnt (conn (pre_transmit s)) ≠ 0.
Proof.
  unfold connected. rewrite pre_transmit_conn. intros Hc.
  apply bool_decide_eq_true_1 in Hc.
  by apply connect_update_connected_tmo.
Qed.

(** While not Connected, ticks and pre-transmit steps without a valid
    frame change neither the state nor the sync counter. *)
Lemma connect_step_waits c e :
  connect_state c ≠ CONNECT_STATE_CONNECTED →
  is_valid_pre_transmit e = false →
  connect_state (connect_step c e) = connect_state c
  ∧ connect_sync_cnt (connect_step c e) = connect_sync_cnt c.
Proof.
  intros Hc He. destruct e as [|[]]; try discriminate; cbn [connect_step].
  - by rewrite connect_tick_state, connect_tick_sync_cnt.
  - rewrite connect_update_invalid.
    by rewrite bool_decide_eq_false_2.
Qed.

Lemma connect_run_counts_valid_frames
    (HK : 1 ≤ CONNECT_SYNC_CNT ≤ 255) (HT : wrap16 CONNECT_TMO_SYSTICKS ≠ 0) evs :
  ∀ c,
    connect_inv c →
    connect_state c ≠ CONNECT_STATE_CONNECTED →
    Z.of_nat (count_if is_valid_pre_transmit evs) < valid_frames_needed c →
    let c' := connect_run evs c in
    connect_state c' ≠ CONNECT_STATE_CONNECTED
    ∧ connect_inv c'
    ∧ valid_frames_needed c'
      = valid_frames_needed c - Z.of_nat (count_if is_valid_pre_transmit evs).
Proof.
  induction evs as [|e evs IH]; intros c Hinv Hnc Hcnt.
  { cbn. split; [done|]. split; [done|]. lia. }
  rewrite connect_run_cons. cbn [count_if] in Hcnt |- *. cbv zeta.
  destruct (is_valid_pre_transmit e) eqn:He.
  - destruct e as [|[]]; try discriminate. cbn [connect_step].
    unfold connect_inv, valid_frames_needed in *.
    destruct (connect_state c) eqn:Hs; [| |done].
    + (* Listen *)
      rewrite (connect_update_listen c Hs).
      destruct (IH (mkConnect CONNECT_STATE_SYNC (wrap16 CONNECT_TMO_SYSTICKS) 0))
        as (H1 & H2 & H3).
      * unfold connect_inv. cbn. lia.
      * cbn. discriminate.
      * unfold valid_frames_needed. cbn [connect_state connect_sync_cnt]. lia.
      * split; [exact H1|]. split; [exact H2|].
        unfold connect_inv, valid_frames_needed in *. rewrite H3.
        cbn [connect_state connect_sync_cnt]. lia.
    + (* Sync *)
      specialize (Hinv eq_refl).
      rewrite (connect_update_sync c HT Hs).
      rewrite (wrap8_small (connect_sync_cnt c + 1)) by lia.
      destruct (CONNECT_SYNC_CNT <=? connect_sync_cnt c + 1) eqn:Hle;
        [apply Z.leb_le in Hle; lia|]. apply Z.leb_gt in Hle.
      destruct (IH (mkConnect CONNECT_STATE_SYNC (wrap16 CONNECT_TMO_SYSTICKS)
                      (connect_sync_cnt c + 1))) as (H1 & H2 & H3).
      * unfold connect_inv. cbn. lia.
      * cbn. discriminate.
      * unfold valid_frames_needed. cbn [connect_state connect_sync_cnt]. lia.
      * split; [exact H1|]. split; [exact H2|].
        unfold connect_inv, valid_frames_needed in *. rewrite H3.
        cbn [connect_state connect_sync_cnt]. lia.
  - destruct (connect_step_waits c e Hnc He) as [Hst Hsy].
    destruct (IH (connect_step c e)) as (H1 & H2 & H3).
    + unfold connect_inv in *. rewrite Hst, Hsy. exact Hinv.
    + by rewrite Hst.
    + unfold valid_frames_needed in *. rewrite Hst, Hsy. lia.
    + split; [exact H1|]. split; [exact H2|].
      rewrite H3. unfold valid_frames_needed. rewrite Hst, Hsy. lia.
Qed.

(** X6: frames lost while synchronising are tolerated. From Listen, with
    ticks and pre-transmit steps without a valid frame anywhere in
    between, the connection is not Connected as long as at most
    [CONNECT_SYNC_CNT] valid frames were counted, and the valid frame
    after exactly [CONNECT_SYNC_CNT] of them makes it Connected. *)
Theorem connect_sync_tolerates_lost_frames
    (HK : 1 ≤ CONNECT_SYNC_CNT ≤ 255)
    (HT : wrap16 CONNECT_TMO_SYSTICKS ≠ 0)
    (evs : list tConnectEvent) (c : tConnect) :
  connect_state c = CONNECT_STATE_LISTEN →
  (Z.of_nat (count_if is_valid_pre_transmit evs) ≤ CONNECT_SYNC_CNT →
   connect_state (connect_run evs c) ≠ CONNECT_STATE_CONNECTED)
  ∧ (Z.of_nat (count_if is_valid_pre_transmit evs) = CONNECT_SYNC_CNT →
     connect_state (connect_run (evs ++ [PreTransmit true]) c)
     = CONNECT_STATE_CONNECTED).
Proof.
  intros Hs.
  assert (connect_inv c) as Hinv by (unfold connect_inv; congruence).
  assert (connect_state c ≠ CONNECT_STATE_CONNECTED) as Hnc by congruence.
  assert (valid_frames_needed c = CONNECT_SYNC_CNT + 1) as Hneed
    by (unfold valid_frames_needed; by rewrite Hs).
  split; intros Hcnt.
  - destruct (connect_run_counts_valid_frames HK HT evs c Hinv Hnc) as (H1 & _);
      [lia|exact H1].
  - destruct (connect_run_counts_valid_frames HK HT evs c Hinv Hnc)
      as (H1 & H2 & H3); [lia|].
    cbv zeta in H1, H2, H3.
    unfold connect_run in *. rewrite foldl_app. cbn [foldl connect_step].
    set (c' := foldl connect_step c evs) in *.
    unfold connect_inv, valid_frames_needed in *.
    destruct (connect_state c') eqn:Hs'; [lia| |done].
    specialize (H2 eq_refl).
    rewrite (connect_update_sync c' HT Hs').
    cbn [connect_state].
    rewrite (wrap8_small (connect_sync_cnt c' + 1)) by lia.
    destruct (CONNECT_SYNC_CNT <=? connect_sync_cnt c' + 1) eqn:Hle; [done|].
    apply Z.leb_gt in Hle. lia.
Qed.

Lemma connect_step_invariants (HK : 1 ≤ CONNECT_SYNC_CNT) c e :
  0 ≤ connect_tmo_cnt c ≤ wrap16 CONNECT_TMO_SYSTICKS →
  0 ≤ connect_sync_cnt c ≤ 255 →
  connect_inv c →
  let c' := connect_step c e in
  0 ≤ connect_tmo_cnt c' ≤ wrap16 CONNECT_TMO_SYSTICKS
  ∧ 0 ≤ connect_sync_cnt c' ≤ 255
  ∧ connect_inv c'.
Proof.
  intros Htmo Hsync Hinv.
  assert (0 ≤ wrap16 CONNECT_TMO_SYSTICKS < 65536) as HT
    by (unfold wrap16; apply Z.mod_pos_bound; lia).
  assert (∀ x, 0 ≤ wrap8 x < 256) as H8
    by (intros x; unfold wrap8; apply Z.mod_pos_bound; lia).
  destruct e as [|v]; cbn [connect_step]; cbv zeta.
  - unfold connect_tick, connect_inv in *.
    destruct (nonzero (connect_tmo_cnt c)) eqn:Hnz;
      cbn [connect_tmo_cnt connect_sync_cnt connect_state set_connect_tmo_cnt];
      [|done].
    apply nonzero_true in Hnz.
    rewrite wrap16_small by lia. split; [lia|]. done.
  - unfold connect_update. cbv zeta.
    match goal with
    | |- context [bool_decide (connect_state ?x = _) && negb (nonzero _)] =>
        set (c1 := x)
    end.
    assert (0 ≤ connect_tmo_cnt c1 ≤ wrap16 CONNECT_TMO_SYSTICKS
            ∧ 0 ≤ connect_sync_cnt c1 ≤ 255 ∧ connect_inv c1) as (Ht1 & Hs1 & Hi1).
    { subst c1. destruct v; [|done].
      unfold connect_inv in *.
      destruct (connect_state c) eqn:Hs;
        cbn [connect_tmo_cnt connect_sync_cnt connect_state set_connect_tmo_cnt
             set_connect_state set_connect_sync_cnt].
      - split; [lia|]. split; [lia|]. intros _. lia.
      - specialize (Hinv eq_refl). pose proof (H8 (connect_sync_cnt c + 1)).
        destruct (CONNECT_SYNC_CNT <=? wrap8 (connect_sync_cnt c + 1)) eqn:Hle;
          cbn [connect_tmo_cnt connect_sync_cnt connect_state set_connect_tmo_cnt
               set_connect_state set_connect_sync_cnt].
        + split; [lia|]. split; [lia|]. discriminate.
        + apply Z.leb_gt in Hle. split; [lia|]. split; [lia|]. intros _. lia.
      - split; [lia|]. split; [lia|]. discriminate. }
    clearbody c1. unfold connect_inv in *.
    repeat case_match;
      cbn [connect_tmo_cnt connect_sync_cnt connect_state set_connect_tmo_cnt
           set_connect_state set_connect_sync_cnt] in *;
      (split; [lia|]); (split; [lia|]); try done; try discriminate;
      intros Hx; try discriminate; auto; lia.
Qed.

(** X7: the counters of the connection never leave their range. From the
    start-up values, after any sequence of ticks and pre-transmit steps,
    the timeout counter lies between 0 and its reload value, so the
    decrement of the tick never wraps, and in Sync the sync counter is
    below the threshold. *)
Theorem connect_counters_stay_in_range
    (HK : 1 ≤ CONNECT_SYNC_CNT) (evs : list tConnectEvent) :
  let c := connect_run evs (mkConnect CONNECT_STATE_LISTEN 0 0) in
  0 ≤ connect_tmo_cnt c ≤ wrap16 CONNECT_TMO_SYSTICKS
  ∧ 0 ≤ connect_sync_cnt c ≤ 255
  ∧ (connect_state c = CONNECT_STATE_SYNC →
     connect_sync_cnt c < CONNECT_SYNC_CNT).
Proof.
  assert (0 ≤ wrap16 CONNECT_TMO_SYSTICKS < 65536) as HT
    by (unfold wrap16; apply Z.mod_pos_bound; lia).
  cut (∀ c, 0 ≤ connect_tmo_cnt c ≤ wrap16 CONNECT_TMO_SYSTICKS →
            0 ≤ connect_sync_cnt c ≤ 255 → connect_inv c →
            let c' := connect_run evs c in
            0 ≤ connect_tmo_cnt c' ≤ wrap16 CONNECT_TMO_SYSTICKS
            ∧ 0 ≤ connect_sync_cnt c' ≤ 255 ∧ connect_inv c').
  { intros Hcut.
    destruct (Hcut (mkConnect CONNECT_STATE_LISTEN 0 0)) as (H1 & H2 & H3).
    - cbn. lia.
    - cbn. lia.
    - unfold connect_inv. cbn. discriminate.
    - cbv zeta. split; [exact H1|]. split; [exact H2|].
      intros Hs. apply (H3 Hs). }
  induction evs as [|e evs IH]; intros c H1 H2 H3; [done|].
  rewrite connect_run_cons.
  destruct (connect_step_invariants HK c e H1 H2 H3) as (H1' & H2' & H3').
  by apply IH.
Qed.

End ConnectionProperties.

(** ** Receiving: the frame of one antenna, the statuses, the arbiter *)

Section ReceiveProperties.
Context {B : Build} {C : Collab}.

Lemma is_rx_status_cases x :
  is_rx_status x = true
  ↔ x = RX_STATUS_NONE ∨ x = RX_STATUS_INVALID ∨ x = RX_STATUS_VALID.
Proof.
  unfold is_rx_status. rewrite !orb_true_iff, !Z.eqb_eq. tauto.
Qed.

(** The status [do_receive] returns, from the result of the frame check. *)
Lemma do_receive_status a s :
  (do_receive a s).1
  = let res := check_rx_frame (sx_ReadFrame FRAME_TX_RX_LEN (sx_of a s)).1 in
    if res =? CHECK_ERROR_SYNCWORD then RX_STATUS_NONE
    else if res =? CHECK_OK then RX_STATUS_VALID else RX_STATUS_INVALID.
Proof. unfold do_receive. cbv zeta. destruct a; by repeat case_match. Qed.

Lemma do_receive_is_rx_status a s : is_rx_status (do_receive a s).1 = true.
Proof.
  rewrite do_receive_status. cbv zeta. apply is_rx_status_cases.
  repeat case_match; auto.
Qed.

(** What [do_receive] stores for its antenna. *)
Lemma do_receive_own a s :
  let r := sx_ReadFrame FRAME_TX_RX_LEN (sx_of a s) in
  let s' := (do_receive a s).2 in
  rxFrame_of a s' = r.1
  ∧ (check_rx_frame r.1 = CHECK_ERROR_SYNCWORD →
     stats s' = stats s ∧ sx_of a s' = r.2)
  ∧ (check_rx_frame r.1 ≠ CHECK_ERROR_SYNCWORD →
     last_rx_rssi_of a (stats s') = (sx_GetPacketStatus r.2).1.1
     ∧ last_rx_snr_of a (stats s') = (sx_GetPacketStatus r.2).1.2
     ∧ sx_of a s' = (sx_GetPacketStatus r.2).2).
Proof.
  unfold do_receive. cbv zeta.
  destruct (_ =? CHECK_ERROR_SYNCWORD) eqn:Hsw;
    [apply Z.eqb_eq in Hsw|apply Z.eqb_neq in Hsw]; destruct a; done.
Qed.

(** What [do_receive] leaves alone: the other antenna, the serial side,
    the tx statistics and what the last accepted frame has set. *)
Lemma do_receive_other a s :
  let s' := (do_receive a s).2 in
  sx_of (other_antenna a) s' = sx_of (other_antenna a) s
  ∧ rxFrame_of (other_antenna a) s' = rxFrame_of (other_antenna a) s
  ∧ last_rx_rssi_of (other_antenna a) (stats s')
    = last_rx_rssi_of (other_antenna a) (stats s)
  ∧ last_rx_snr_of (other_antenna a) (stats s')
    = last_rx_snr_of (other_antenna a) (stats s)
  ∧ serialport (dev s') = serialport (dev s)
  ∧ mavlink (dev s') = mavlink (dev s)
  ∧ txstats (dev s') = txstats (dev s)
  ∧ last_rx_antenna (stats s') = last_rx_antenna (stats s)
  ∧ received_seq_no_last (stats s') = received_seq_no_last (stats s).
Proof. unfold do_receive. cbv zeta. destruct a; by repeat case_match. Qed.

Lemma irq_of_set_link_rx_status_of a b v s :
  irq_of a (set_link_rx_status_of b v s) = irq_of a s.
Proof. by destruct a, b. Qed.

Lemma link_state_set_link_rx_status_of a v s :
  link_state (link (set_link_rx_status_of a v s)) = link_state (link s).
Proof. by destruct a. Qed.

Lemma link_rx_status_of_set_other a v s :
  link_rx_status_of (other_antenna a) (set_link_rx_status_of a v s)
  = link_rx_status_of (other_antenna a) s.
Proof. by destruct a. Qed.

Lemma link_rx_status_of_link a s s' :
  link s' = link s → link_rx_status_of a s' = link_rx_status_of a s.
Proof. intros H. destruct a; unfold link_rx_status_of; by rewrite H. Qed.

Lemma link_set_irq_of a v s :
  link_state (link (set_irq_of a v s)) = link_state (link s)
  ∧ link_rx1_status (link (set_irq_of a v s)) = link_rx1_status (link s)
  ∧ link_rx2_status (link (set_irq_of a v s)) = link_rx2_status (link s)
  ∧ irq_of (other_antenna a) (set_irq_of a v s) = irq_of (other_antenna a) s.
Proof. by destruct a. Qed.

Lemma irq_of_link a s s' : link s' = link s → irq_of a s' = irq_of a s.
Proof. intros H. destruct a; unfold irq_of; by rewrite H. Qed.

Lemma irq_block_done a s :
  irq_of a s = 0 → irq_unexpected a (irq_timeout_handling a s) = Running s.
Proof.
  intros H0. unfold irq_timeout_handling. rewrite H0, Z.land_0_l.
  change (nonzero 0) with false. cbv iota.
  unfold irq_unexpected. rewrite H0, !Z.land_0_l.
  by change (nonzero 0) with false.
Qed.

(** X8: RX_DONE while waiting for the frame. The block reads the frame of
    its own antenna, clears its slot whatever other cause bits it held,
    stays in ReceiveWait and sets the status of its antenna from the frame
    check: None on a sync-word error (the statistics then stay as they
    were), Valid when the check is passed, Invalid otherwise, with RSSI
    and SNR of the packet stored. Status, slot, modem, buffer, RSSI and
    SNR of the other antenna are left as they were. *)
Theorem rx_done_reads_the_frame_of_its_antenna_only (a : ANTENNA_ENUM) (s : tTx) :
  link_state (link s) = LINK_STATE_RECEIVE_WAIT →
  Z.land (irq_of a s) SX12xx_IRQ_RX_DONE ≠ 0 →
  let r := sx_ReadFrame FRAME_TX_RX_LEN (sx_of a s) in
  let res := check_rx_frame r.1 in
  ∃ s',
    irq_block a s = Running s'
    ∧ link_state (link s') = LINK_STATE_RECEIVE_WAIT
    ∧ irq_of a s' = 0
    ∧ link_rx_status_of a s'
      = (if res =? CHECK_ERROR_SYNCWORD then RX_STATUS_NONE
         else if res =? CHECK_OK then RX_STATUS_VALID else RX_STATUS_INVALID)
    ∧ rxFrame_of a s' = r.1
    ∧ (res = CHECK_ERROR_SYNCWORD → stats s' = stats s)
    ∧ (res ≠ CHECK_ERROR_SYNCWORD →
       last_rx_rssi_of a (stats s') = (sx_GetPacketStatus r.2).1.1
       ∧ last_rx_snr_of a (stats s') = (sx_GetPacketStatus r.2).1.2)
    ∧ link_rx_status_of (other_antenna a) s' = link_rx_status_of (other_antenna a) s
    ∧ irq_of (other_antenna a) s' = irq_of (other_antenna a) s
    ∧ sx_of (other_antenna a) s' = sx_of (other_antenna a) s
    ∧ rxFrame_of (other_antenna a) s' = rxFrame_of (other_antenna a) s
    ∧ last_rx_rssi_of (other_antenna a) (stats s')
      = last_rx_rssi_of (other_antenna a) (stats s)
    ∧ last_rx_snr_of (other_antenna a) (stats s')
      = last_rx_snr_of (other_antenna a) (stats s).
Proof.
  intros Hrw Hrx. cbv zeta.
  assert (irq_of a s ≠ 0) as Hirq by (intros H0; by rewrite H0 in Hrx).
  set (s0 := set_irq_of a 0 s).
  assert (irq_done_handling a s
          = set_link_rx_status_of a (do_receive a s0).1 (do_receive a s0).2) as Hdone.
  { unfold irq_done_handling. rewrite Hrw. tx_decide.
    apply nonzero_true in Hrx. by rewrite Hrx. }
  destruct (do_receive_frame a s0) as (Hl & _).
  pose proof (do_receive_status a s0) as Hst.
  destruct (do_receive_own a s0) as (Hown1 & Hown2 & Hown3).
  destruct (do_receive_other a s0) as (Ho1 & Ho2 & Ho3 & Ho4 & _).
  cbv zeta in *.
  assert (sx_of a s0 = sx_of a s) as Hsx by apply sx_of_set_irq_of.
  rewrite Hsx in *.
  set (d := do_receive a s0) in *.
  exists (set_link_rx_status_of a d.1 d.2).
  split.
  { unfold irq_block. apply nonzero_true in Hirq. rewrite Hirq. cbv zeta.
    rewrite Hdone. apply irq_block_done.
    rewrite irq_of_set_link_rx_status_of, (irq_of_link a s0 d.2 Hl).
    apply irq_of_set_irq_of. }
  assert (link d.2 = link s0) as Hl' by exact Hl.
  split. { rewrite link_state_set_link_rx_status_of, Hl'. subst s0.
           by rewrite (proj1 (link_set_irq_of a 0 s)). }
  split. { rewrite irq_of_set_link_rx_status_of, (irq_of_link a s0 d.2 Hl).
           apply irq_of_set_irq_of. }
  split. { rewrite <- Hst. by destruct a. }
  split. { rewrite <- Hown1. by destruct a. }
  split. { intros Hres. destruct (Hown2 Hres) as [Hs _].
           transitivity (stats d.2); [by destruct a|].
           rewrite Hs. subst s0. by destruct a. }
  split. { intros Hres. destruct (Hown3 Hres) as (Hr1 & Hr2 & _).
           rewrite <- Hr1, <- Hr2. by destruct a. }
  split. { rewrite link_rx_status_of_set_other,
             (link_rx_status_of_link (other_antenna a) s0 d.2 Hl).
           subst s0. by destruct a. }
  split. { rewrite irq_of_set_link_rx_status_of,
             (irq_of_link (other_antenna a) s0 d.2 Hl).
           subst s0. by destruct a. }
  split. { transitivity (sx_of (other_antenna a) d.2); [by destruct a|].
           rewrite Ho1. subst s0. by destruct a. }
  split. { transitivity (rxFrame_of (other_antenna a) d.2); [by destruct a|].
           rewrite Ho2. subst s0. by destruct a. }
  split. { transitivity (last_rx_rssi_of (other_antenna a) (stats d.2));
             [by destruct a|].
           rewrite Ho3. subst s0. by destruct a. }
  transitivity (last_rx_snr_of (other_antenna a) (stats d.2)); [by destruct a|].
  rewrite Ho4. subst s0. by destruct a.
Qed.

End ReceiveProperties.

(** ** The rx statuses over the loop *)

Section StatusProperties.
Context {B : Build} {C : Collab}.

Lemma rx_status_ok_link s s' :
  link_rx1_status (link s') = link_rx1_status (link s) →
  link_rx2_status (link s') = link_rx2_status (link s) →
  rx_status_ok s' = rx_status_ok s.
Proof. intros H1 H2. unfold rx_status_ok. by rewrite H1, H2. Qed.

Lemma link_state_transmit_link s :
  link (link_state_transmit s)
  = set_irq2_status 0 (set_irq_status 0
      (set_link_state LINK_STATE_TRANSMIT_WAIT (link s))).
Proof.
  unfold link_state_transmit. cbv zeta.
  match goal with |- context [do_transmit ?a ?s1] =>
    destruct (do_transmit_frame a s1) as (_&Hl&_);
    set (s2 := do_transmit a s1) in * end.
  tx_red. by rewrite Hl.
Qed.

Lemma link_state_receive_link s :
  link (link_state_receive s)
  = set_irq2_status 0 (set_irq_status 0
      (set_link_state LINK_STATE_RECEIVE_WAIT (link s))).
Proof. unfold link_state_receive. by repeat case_match. Qed.

Lemma link_state_switch_rx_status s :
  let s' := link_state_switch s in
  link_rx1_status (link s') = link_rx1_status (link s)
  ∧ link_rx2_status (link s') = link_rx2_status (link s).
Proof.
  unfold link_state_switch.
  destruct (link_state (link s)); try done.
  - by rewrite link_state_transmit_link.
  - by rewrite link_state_receive_link.
Qed.

Lemma irq_done_handling_rx_status_ok a s :
  rx_status_ok s = true → rx_status_ok (irq_done_handling a s) = true.
Proof.
  intros Hok. unfold irq_done_handling.
  repeat case_match; try done.
  - rewrite <- Hok. apply rx_status_ok_link; by destruct a.
  - destruct (do_receive_frame a (set_irq_of a 0 s)) as (Hl & _).
    pose proof (do_receive_is_rx_status a (set_irq_of a 0 s)) as Hd.
    set (d := do_receive a (set_irq_of a 0 s)) in *.
    unfold rx_status_ok in *. apply andb_true_iff in Hok as [Hr1 Hr2].
    destruct a; tx_red; rewrite ?Hl; tx_red; rewrite ?Hd, ?Hr1, ?Hr2; done.
Qed.

Lemma irq_timeout_handling_rx_status_ok a s :
  rx_status_ok s = true → rx_status_ok (irq_timeout_handling a s) = true.
Proof.
  intros Hok. unfold irq_timeout_handling. case_match; [|done]. by destruct a.
Qed.

Lemma sx_handling_rx_status_ok s :
  rx_status_ok s = true → rx_status_ok (state_of (sx_handling s)) = true.
Proof.
  intros Hok. apply (sx_handling_ind (λ s, rx_status_ok s = true)).
  - rewrite <- Hok. destruct (link_state_switch_rx_status s) as [H1 H2].
    by apply rx_status_ok_link.
  - intros a s0 H0. rewrite state_of_irq_block. case_match; [|done].
    by apply irq_timeout_handling_rx_status_ok, irq_done_handling_rx_status_ok.
Qed.

(** The link variables after the pre-transmit block. *)
Lemma pre_transmit_link s :
  link (pre_transmit s)
  = set_link_rx2_status RX_STATUS_NONE
      (set_link_rx1_status RX_STATUS_NONE
         (set_link_state LINK_STATE_TRANSMIT (link s))).
Proof.
  unfold pre_transmit. cbv zeta.
  set (s0 := upd_sched (set_doPreTransmit false) s).
  match goal with |- context [pre_transmit_finish ?s1] =>
    destruct (pre_transmit_finish_frame s1) as (_&->&_) end.
  destruct (pre_transmit_receive_slot s0) as (_&Hl&_).
  set (s1 := pre_transmit_receive s0) in *.
  tx_red. by rewrite Hl.
Qed.

Lemma loop_tail_link i s :
  link (loop_tail i s)
  = if doPreTransmit (sched s) then link (pre_transmit s) else link s.
Proof.
  unfold loop_tail. cbv zeta. unfold while_transmit_do. tx_red.
  destruct (handset_handling_frame i (pre_transmit_step s)) as (->&_).
  unfold pre_transmit_step. by case_match.
Qed.

(** X9: the two rx statuses never leave the set None, Invalid, Valid. A
    pass of the loop that starts with both statuses in the set ends with
    both in the set, whether it runs to its end or stops in a blink
    loop. *)
Theorem rx_statuses_stay_in_range (i : tHandsetIn) (s : tTx) :
  rx_status_ok s = true →
  rx_status_ok (state_of (main_loop i s)) = true.
Proof.
  intros Hok. rewrite state_of_main_loop.
  assert (rx_status_ok (sys_task s) = true) as Hsys.
  { rewrite <- Hok. destruct (sys_task_frame s) as (Hl & _).
    apply rx_status_ok_link; by rewrite Hl. }
  pose proof (sx_handling_rx_status_ok _ Hsys) as Hsx.
  destruct (sx_handling (sys_task s)) as [s1|s1]; cbn [state_of] in Hsx; [|done].
  unfold rx_status_ok. rewrite loop_tail_link.
  destruct (doPreTransmit (sched s1)); [|exact Hsx].
  by rewrite pre_transmit_link.
Qed.

(** X10: the arbiter never passes over a valid frame. With both statuses
    in range, when a valid frame was received on some antenna in use, a
    frame was received and the antenna elected holds status Valid, in
    single-antenna and in diversity builds. *)
Theorem select_antenna_elects_a_valid_frame (s : tTx) :
  rx_status_ok s = true →
  valid_frame_received s = true →
  frame_received s = true
  ∧ link_rx_status_of (select_antenna s) s = RX_STATUS_VALID.
Proof.
  unfold rx_status_ok, valid_frame_received, frame_received, select_antenna.
  intros Hok Hv. apply andb_true_iff in Hok as [H1 H2].
  apply is_rx_status_cases in H1, H2.
  unfold RX_STATUS_NONE, RX_STATUS_INVALID, RX_STATUS_VALID in *.
  destruct USE_ANTENNA1, USE_ANTENNA2; cbn [andb] in *; cbv zeta; try done.
  - destruct H1 as [H1|[H1|H1]], H2 as [H2|[H2|H2]]; rewrite H1, H2 in *;
      try discriminate; cbn [Z.eqb Z.gtb Z.compare orb Pos.eqb Pos.compare
                             Pos.compare_cont andb];
      (split; [done|]); try done.
    destruct (last_rx_rssi1 (stats s) >? last_rx_rssi2 (stats s));
      cbn [link_rx_status_of]; assumption.
  - destruct H1 as [H1|[H1|H1]]; rewrite H1 in *; try discriminate.
    split; [done|]. cbn [link_rx_status_of]. exact H1.
  - destruct H2 as [H2|[H2|H2]]; rewrite H2 in *; try discriminate.
    split; [done|]. cbn [link_rx_status_of]. exact H2.
Qed.

End StatusProperties.

(** ** Receiving: the accepted frame and its payload *)

Section AcceptedFrameProperties.
Context {B : Build} {C : Collab}.

Lemma foldl_put_serial_byte_stats l s :
  let s' := foldl put_serial_byte s l in
  stats s' = stats s ∧ txstats (dev s') = txstats (dev s)
  ∧ sx (dev s') = sx (dev s) ∧ sx2 (dev s') = sx2 (dev s)
  ∧ stats_counters (dev s') = stats_counters (dev s).
Proof.
  revert s. induction l as [|c l IH]; intros s; [done|].
  simpl. destruct (IH (put_serial_byte s c)) as (->&->&->&->&->).
  unfold put_serial_byte. by case_match.
Qed.

Lemma process_received_cmd_rx_frame_dev frame s :
  let s' := process_received_cmd_rx_frame frame s in
  dev s' = dev s ∧ stats s' = stats s.
Proof. unfold process_received_cmd_rx_frame. by repeat case_match. Qed.

(** [process_received_frame] takes five values of [stats] from the status
    of the frame and leaves the rest of [stats] and the tx statistics. *)
Lemma process_received_frame_stats do_payload frame s :
  let s' := process_received_frame do_payload frame s in
  txstats (dev s') = txstats (dev s)
  ∧ received_antenna (stats s') = FrameStatus.antenna (status frame)
  ∧ received_transmit_antenna (stats s')
    = FrameStatus.transmit_antenna (status frame)
  ∧ received_rssi (stats s') = rssi_i8_from_u7 (FrameStatus.rssi_u7 (status frame))
  ∧ received_LQ (stats s') = FrameStatus.LQ (status frame)
  ∧ received_LQ_serial_data (stats s') = FrameStatus.LQ_serial_data (status frame)
  ∧ last_rx_rssi1 (stats s') = last_rx_rssi1 (stats s)
  ∧ last_rx_rssi2 (stats s') = last_rx_rssi2 (stats s)
  ∧ transmit_seq_no (stats s') = transmit_seq_no (stats s).
Proof.
  unfold process_received_frame. cbv zeta.
  destruct do_payload; simpl; [|done].
  destruct (_ =? FRAME_TYPE_RX) eqn:Hty; simpl.
  - match goal with |- context [match serialport (dev ?s1) with _ => _ end] =>
      destruct (serialport (dev s1)); [|done];
      match goal with |- context [foldl put_serial_byte ?s2 ?l] =>
        destruct (foldl_put_serial_byte_stats l s2) as (Hst&Htx&_);
        set (s3 := foldl put_serial_byte s2 l) in * end end.
    tx_red. by rewrite Hst, Htx.
  - match goal with |- context [process_received_cmd_rx_frame frame ?s1] =>
      destruct (process_received_cmd_rx_frame_dev frame s1) as (->&->) end.
    done.
Qed.

(** X11: a frame whose status is not Invalid is accepted. [handle_receive]
    takes sequence number and ack from the frame, takes antenna ids, RSSI
    and LQ values of the far end from its status, records the antenna, and
    counts the frame in the tx statistics first as a valid frame and then as
    a received frame. *)
Theorem handle_receive_accepts_frame (a : ANTENNA_ENUM) (s : tTx) :
  link_rx_status_of a s ≠ RX_STATUS_INVALID →
  let st := status (rxFrame_of a s) in
  let s' := handle_receive a s in
  received_seq_no_last (stats s') = FrameStatus.seq_no st
  ∧ received_ack_last (stats s') = FrameStatus.ack st
  ∧ received_antenna (stats s') = FrameStatus.antenna st
  ∧ received_transmit_antenna (stats s') = FrameStatus.transmit_antenna st
  ∧ received_rssi (stats s') = rssi_i8_from_u7 (FrameStatus.rssi_u7 st)
  ∧ received_LQ (stats s') = FrameStatus.LQ st
  ∧ received_LQ_serial_data (stats s') = FrameStatus.LQ_serial_data st
  ∧ last_rx_antenna (stats s') = a
  ∧ txstats (dev s')
    = txstats_doFrameReceived (txstats_doValidFrameReceived (txstats (dev s))).
Proof.
  intros Hst. cbv zeta. unfold handle_receive. cbv zeta.
  apply Z.eqb_neq in Hst. rewrite Hst. cbn [negb].
  destruct (process_received_frame_stats true (rxFrame_of a s) s)
    as (Htx&H1&H2&H3&H4&H5&_).
  set (s1 := process_received_frame true (rxFrame_of a s) s) in *.
  tx_red. by rewrite Htx, H1, H2, H3, H4, H5.
Qed.

(** X12: with both antennas in use, an antenna whose status is None can be
    elected. When antenna 1 holds None, antenna 2 holds Invalid and the
    stored RSSI of antenna 1 is the higher one, a frame counts as
    received and none as valid, the arbiter elects antenna 1, and
    [handle_receive], which tests the status against Invalid only, accepts
    the buffer of antenna 1: its sequence number is taken and the tx
    statistics count a valid frame. *)
Theorem antenna_without_frame_can_be_elected (s : tTx)
    (Hant1 : USE_ANTENNA1 = true) (Hant2 : USE_ANTENNA2 = true) :
  link_rx1_status (link s) = RX_STATUS_NONE →
  link_rx2_status (link s) = RX_STATUS_INVALID →
  last_rx_rssi1 (stats s) > last_rx_rssi2 (stats s) →
  frame_received s = true
  ∧ valid_frame_received s = false
  ∧ select_antenna s = ANTENNA_1
  ∧ let s' := pre_transmit_receive s in
    received_seq_no_last (stats s') = FrameStatus.seq_no (status (rxFrame (frames s)))
    ∧ last_rx_antenna (stats s') = ANTENNA_1
    ∧ txstats (dev s')
      = txstats_doFrameReceived (txstats_doValidFrameReceived (txstats (dev s))).
Proof.
  intros H1 H2 Hrssi.
  assert (frame_received s = true) as Hfr.
  { unfold frame_received. by rewrite Hant1, Hant2, H1, H2. }
  assert (select_antenna s = ANTENNA_1) as Hsel.
  { unfold select_antenna. rewrite Hant1, Hant2, H1, H2. cbn.
    apply Z.gtb_gt in Hrssi. by rewrite Hrssi. }
  split; [exact Hfr|].
  split. { unfold valid_frame_received. by rewrite Hant1, Hant2, H1, H2. }
  split; [exact Hsel|].
  cbv zeta. unfold pre_transmit_receive. rewrite Hfr, Hsel.
  unfold handle_receive. cbv zeta. cbn [link_rx_status_of]. rewrite H1.
  change (RX_STATUS_NONE =? RX_STATUS_INVALID) with false. cbn [negb].
  destruct (process_received_frame_stats true (rxFrame_of ANTENNA_1 s) s)
    as (Htx&_).
  set (s1 := process_received_frame true (rxFrame_of ANTENNA_1 s) s) in *.
  tx_red. by rewrite Htx.
Qed.

Lemma foldl_put_serial_byte_mavlink l : ∀ s,
  Tx_SerialLinkMode (Setup s) = SERIAL_LINK_MODE_MAVLINK →
  let s' := foldl put_serial_byte s l in
  mavlink (dev s') = foldl (λ m c, mavlink_putc c m) (mavlink (dev s)) l
  ∧ serialport (dev s') = serialport (dev s).
Proof.
  induction l as [|c l IH]; intros s Hm; [done|].
  cbn [foldl]. cbv zeta.
  assert (put_serial_byte s c
          = upd_dev (λ d, set_mavlink (mavlink_putc c (mavlink d)) d) s) as Hp
    by (unfold put_serial_byte; by rewrite Hm).
  destruct (IH (put_serial_byte s c)) as (->&->);
    [by rewrite Hp | by rewrite Hp].
Qed.

Lemma foldl_put_serial_byte_transparent l : ∀ s,
  Tx_SerialLinkMode (Setup s) = SERIAL_LINK_MODE_TRANSPARENT →
  let s' := foldl put_serial_byte s l in
  serialport (dev s')
  = (λ p, foldl (λ p c, serial_putc c p) p l) <$> serialport (dev s)
  ∧ mavlink (dev s') = mavlink (dev s).
Proof.
  induction l as [|c l IH]; intros s Hm.
  { cbn [foldl]. by destruct (serialport (dev s)). }
  cbn [foldl]. cbv zeta.
  assert (put_serial_byte s c
          = upd_dev (λ d, set_serialport (serial_putc c <$> serialport d) d) s) as Hp
    by (unfold put_serial_byte; by rewrite Hm).
  destruct (IH (put_serial_byte s c)) as (->&->); [by rewrite Hp|].
  rewrite Hp. tx_red. by destruct (serialport (dev s)).
Qed.

(** X13: the payload of a received normal frame goes to the serial side
    byte by byte, in order, nothing dropped and nothing doubled: to the
    MAVLink handler when [Setup.Tx.SerialLinkMode] is MAVLink, to the serial
    port otherwise, [payload_len] bytes in all, and the other of the two is
    left alone, as is the request slot. *)
Theorem received_payload_is_forwarded_in_order
    (frame : tRxFrame) (port : Serial) (s : tTx) :
  FrameStatus.frame_type (status frame) = FRAME_TYPE_RX →
  serialport (dev s) = Some port →
  let n := Z.to_nat (FrameStatus.payload_len (status frame)) in
  let bytes := (λ i, rx_payload frame !!! i) <$> seq 0 n in
  let s' := process_received_frame true frame s in
  length bytes = n
  ∧ ((n ≤ length (rx_payload frame))%nat → bytes = take n (rx_payload frame))
  ∧ match Tx_SerialLinkMode (Setup s) with
    | SERIAL_LINK_MODE_MAVLINK =>
        mavlink (dev s') = foldl (λ m c, mavlink_putc c m) (mavlink (dev s)) bytes
        ∧ serialport (dev s') = Some port
    | SERIAL_LINK_MODE_TRANSPARENT =>
        serialport (dev s') = Some (foldl (λ p c, serial_putc c p) port bytes)
        ∧ mavlink (dev s') = mavlink (dev s)
    end
  ∧ transmit_frame_type (frames s') = transmit_frame_type (frames s).
Proof.
  intros Hty Hport. cbv zeta.
  split. { by rewrite length_fmap, length_seq. }
  split.
  { intros Hlen. apply list_eq. intros i.
    rewrite list_lookup_fmap, lookup_take.
    destruct (decide (i < Z.to_nat (FrameStatus.payload_len (status frame)))%nat)
      as [Hi|Hi].
    - rewrite lookup_seq_lt by lia. cbn.
      rewrite list_lookup_total_alt.
      destruct (lookup_lt_is_Some_2 (rx_payload frame) i) as [x Hx]; [lia|].
      by rewrite Hx.
    - rewrite lookup_seq_ge by lia. done. }
  unfold process_received_frame. cbv zeta. cbn [negb].
  apply Z.eqb_eq in Hty. rewrite Hty. cbn [negb].
  match goal with |- context [match serialport (dev ?s1) with _ => _ end] =>
    assert (serialport (dev s1) = Some port) as Hp1 by exact Hport;
    assert (mavlink (dev s1) = mavlink (dev s)) as Hm1 by reflexivity;
    assert (Setup s1 = Setup s) as Hs1 by reflexivity;
    assert (frames s1 = frames s) as Hf1 by reflexivity;
    rewrite Hp1;
    match goal with |- context [foldl put_serial_byte s1 ?l] =>
      destruct (foldl_put_serial_byte_frame l s1) as (Hfr&_);
      pose proof (foldl_put_serial_byte_mavlink l s1) as Hmav;
      pose proof (foldl_put_serial_byte_transparent l s1) as Htra;
      set (s3 := foldl put_serial_byte s1 l) in * end end.
  cbv zeta in Hmav, Htra. rewrite Hs1 in Hmav, Htra.
  split.
  - destruct (Tx_SerialLinkMode (Setup s)).
    + destruct (Htra eq_refl) as [Ha Hb]. tx_red. rewrite Ha, Hb, Hp1, Hm1. done.
    + destruct (Hmav eq_refl) as [Ha Hb]. tx_red. rewrite Ha, Hb, Hp1, Hm1. done.
  - tx_red. by rewrite Hfr, Hf1.
Qed.

Lemma collect_payload_no_port s :
  serialport (dev s) = None →
  let s' := collect_payload s in
  serialport (dev s') = None ∧ mavlink (dev s') = mavlink (dev s)
  ∧ (transmit_frame_type (frames s) = TRANSMIT_FRAME_TYPE_NORMAL →
     payload_len (frames s') = 0
     ∧ payload (frames s') = replicate FRAME_TX_PAYLOAD_LEN 0).
Proof.
  intros Hn. unfold collect_payload. case_bool_decide as Ht; [|done].
  cbv zeta. tx_red. rewrite Hn. unfold connected. tx_red.
  by case_bool_decide.
Qed.

(** X14: without a serial destination the frame handling neither reads
    nor writes a byte of the serial side. With [serialport] null,
    [process_transmit_frame] leaves the MAVLink handler alone and a normal
    frame goes out with an empty, zeroed payload even when connected, and
    [process_received_frame] leaves the MAVLink handler alone. *)
Theorem no_serial_destination_no_serial_traffic (s : tTx) :
  serialport (dev s) = None →
  (∀ a ack,
     let s' := process_transmit_frame a ack s in
     serialport (dev s') = None
     ∧ mavlink (dev s') = mavlink (dev s)
     ∧ (transmit_frame_type (frames s') = TRANSMIT_FRAME_TYPE_NORMAL →
        payload_len (frames s') = 0
        ∧ payload (frames s') = replicate FRAME_TX_PAYLOAD_LEN 0))
  ∧ (∀ do_payload frame,
       let s' := process_received_frame do_payload frame s in
       serialport (dev s') = None
       ∧ mavlink (dev s') = mavlink (dev s)).
Proof.
  intros Hn. split.
  - intros a ack. cbv zeta. unfold process_transmit_frame. cbv zeta.
    destruct (latch_set_rx_params_frame s) as (Hd&_).
    set (s1 := latch_set_rx_params s) in *.
    destruct (collect_payload_no_port s1) as (Hp&Hm&Hz); [by rewrite Hd|].
    destruct (collect_payload_frame s1) as (_&_&_&_&_&_&_&Hty&_).
    set (s2 := collect_payload s1) in *.
    destruct (pack_and_send_frame_frame a ack s2)
      as (Hp'&Hm'&_&_&_&_&_&_&Hty'&Hpl&Hpn&_).
    rewrite Hp', Hm', Hp, Hm, Hd, Hty', Hpl, Hpn.
    split; [done|]. split; [done|]. intros Hnorm. apply Hz. congruence.
  - intros do_payload frame. cbv zeta.
    unfold process_received_frame. cbv zeta.
    destruct do_payload; cbn [negb]; [|done].
    destruct (_ =? FRAME_TYPE_RX); cbn [negb].
    + tx_red. rewrite Hn. by tx_red.
    + match goal with |- context [process_received_cmd_rx_frame frame ?s1] =>
        destruct (process_received_cmd_rx_frame_dev frame s1) as (->&_) end.
      done.
Qed.

End AcceptedFrameProperties.

(** ** Transmitting: the payload buffer and the frame handed to the modem *)

Section TransmitProperties.
Context {B : Build} {C : Collab}.


(** One byte stored at [payload[payload_len]], then [payload_len++]. *)
Lemma payload_push_ok (N : nat) (p : list Z) (len c : Z) :
  (N ≤ 255)%nat →
  length p = N →
  0 ≤ len → len + 1 ≤ Z.of_nat N →
  Forall (λ b, 0 ≤ b < 256) p →
  (∀ i, (Z.to_nat len ≤ i < N)%nat → p !!! i = 0) →
  let p' := <[Z.to_nat len := wrap8 c]> p in
  let len' := wrap8 (len + 1) in
  length p' = N
  ∧ len' = len + 1
  ∧ Forall (λ b, 0 ≤ b < 256) p'
  ∧ (∀ i, (Z.to_nat len' ≤ i < N)%nat → p' !!! i = 0).
Proof.
  intros HN Hlen H0 H1 Hall Hz. cbv zeta.
  assert (wrap8 (len + 1) = len + 1) as Hw by (apply wrap8_small; lia).
  split; [by rewrite length_insert|]. split; [exact Hw|].
  split.
  - apply Forall_insert; [exact Hall|]. unfold wrap8. apply Z.mod_pos_bound. lia.
  - intros i Hi. rewrite Hw in Hi.
    rewrite list_lookup_total_insert_ne by lia. apply Hz. lia.
Qed.

Lemma read_serial_payload_bounds n : ∀ s,
  (FRAME_TX_PAYLOAD_LEN ≤ 255)%nat →
  length (payload (frames s)) = FRAME_TX_PAYLOAD_LEN →
  0 ≤ payload_len (frames s) →
  payload_len (frames s) + Z.of_nat n ≤ Z.of_nat FRAME_TX_PAYLOAD_LEN →
  Forall (λ b, 0 ≤ b < 256) (payload (frames s)) →
  (∀ i, (Z.to_nat (payload_len (frames s)) ≤ i < FRAME_TX_PAYLOAD_LEN)%nat →
        payload (frames s) !!! i = 0) →
  let s' := read_serial_payload n s in
  length (payload (frames s')) = FRAME_TX_PAYLOAD_LEN
  ∧ payload_len (frames s) ≤ payload_len (frames s')
      ≤ payload_len (frames s) + Z.of_nat n
  ∧ Forall (λ b, 0 ≤ b < 256) (payload (frames s'))
  ∧ (∀ i, (Z.to_nat (payload_len (frames s')) ≤ i < FRAME_TX_PAYLOAD_LEN)%nat →
          payload (frames s') !!! i = 0).
Proof.
  induction n as [|n IH]; intros s HN Hlen H0 H1 Hall Hz.
  { cbn [read_serial_payload]. cbv zeta. split; [done|]. split; [lia|]. done. }
  assert (∀ c s1,
    payload (frames s1) = <[Z.to_nat (payload_len (frames s)) := wrap8 c]>
                            (payload (frames s)) →
    payload_len (frames s1) = wrap8 (payload_len (frames s) + 1) →
    let s' := read_serial_payload n s1 in
    length (payload (frames s')) = FRAME_TX_PAYLOAD_LEN
    ∧ payload_len (frames s) ≤ payload_len (frames s')
        ≤ payload_len (frames s) + Z.of_nat (S n)
    ∧ Forall (λ b, 0 ≤ b < 256) (payload (frames s'))
    ∧ (∀ i, (Z.to_nat (payload_len (frames s')) ≤ i < FRAME_TX_PAYLOAD_LEN)%nat →
            payload (frames s') !!! i = 0)) as Hstep.
  { intros c s1 Hp Hl.
    destruct (payload_push_ok FRAME_TX_PAYLOAD_LEN (payload (frames s))
                (payload_len (frames s)) c HN Hlen H0 ltac:(lia) Hall Hz)
      as (P1 & P2 & P3 & P4).
    rewrite <- Hp in P1, P3, P4. rewrite <- Hl in P2, P4.
    destruct (IH s1 HN P1 ltac:(lia) ltac:(lia) P3 P4) as (Q1 & Q2 & Q3 & Q4).
    cbv zeta. split; [exact Q1|]. split; [lia|]. split; [exact Q3|exact Q4]. }
  cbn [read_serial_payload]. cbv zeta.
  destruct (Rx_SerialLinkMode (Setup s)).
  - destruct (serialport (dev s)) as [sp|];
      [|split; [done|]; split; [lia|]; done].
    destruct (serial_available sp); cbn [negb];
      [|split; [done|]; split; [lia|]; done].
    apply (Hstep (serial_getc sp).1); reflexivity.
  - destruct (mavlink_available (mavlink (dev s))); cbn [negb];
      [|split; [done|]; split; [lia|]; done].
    apply (Hstep (mavlink_getc (mavlink (dev s))).1); reflexivity.
Qed.

Lemma collect_payload_bounds s :
  (FRAME_TX_PAYLOAD_LEN ≤ 255)%nat →
  transmit_frame_type (frames s) = TRANSMIT_FRAME_TYPE_NORMAL →
  let s' := collect_payload s in
  length (payload (frames s')) = FRAME_TX_PAYLOAD_LEN
  ∧ 0 ≤ payload_len (frames s') ≤ Z.of_nat FRAME_TX_PAYLOAD_LEN
  ∧ Forall (λ b, 0 ≤ b < 256) (payload (frames s'))
  ∧ (∀ i, (Z.to_nat (payload_len (frames s')) ≤ i < FRAME_TX_PAYLOAD_LEN)%nat →
          payload (frames s') !!! i = 0).
Proof.
  intros HN Ht. unfold collect_payload.
  rewrite (bool_decide_eq_true_2 _ Ht). cbv zeta.
  set (s0 := upd_frames (set_payload_len 0) _).
  assert (payload (frames s0) = replicate FRAME_TX_PAYLOAD_LEN 0) as Hp by reflexivity.
  assert (payload_len (frames s0) = 0) as Hl by reflexivity.
  assert (length (payload (frames s0)) = FRAME_TX_PAYLOAD_LEN
          ∧ 0 ≤ payload_len (frames s0) ≤ Z.of_nat FRAME_TX_PAYLOAD_LEN
          ∧ Forall (λ b, 0 ≤ b < 256) (payload (frames s0))
          ∧ (∀ i, (Z.to_nat (payload_len (frames s0)) ≤ i < FRAME_TX_PAYLOAD_LEN)%nat →
                  payload (frames s0) !!! i = 0)) as (I1 & I2 & I3 & I4).
  { rewrite Hp, Hl. split; [by rewrite length_replicate|]. split; [lia|].
    split; [by apply Forall_replicate|].
    intros i Hi. apply lookup_total_replicate_2. lia. }
  assert (payload_len (frames s0) + Z.of_nat FRAME_TX_PAYLOAD_LEN
          ≤ Z.of_nat FRAME_TX_PAYLOAD_LEN) as I5 by (rewrite Hl; lia).
  destruct (read_serial_payload_bounds FRAME_TX_PAYLOAD_LEN s0 HN I1
              (proj1 I2) I5 I3 I4) as (R1 & R2 & R3 & R4).
  set (s1 := read_serial_payload FRAME_TX_PAYLOAD_LEN s0) in *.
  destruct (connected s0).
  - destruct (serialport (dev s0)); tx_red.
    + split; [exact R1|]. split; [lia|]. split; [exact R3|exact R4].
    + split; [exact I1|]. split; [lia|]. split; [exact I3|exact I4].
  - destruct (serialport (dev s0)); tx_red;
      (split; [exact I1|]; split; [lia|]; split; [exact I3|exact I4]).
Qed.

(** X15: the payload of a normal frame stays within its buffer. When the
    payload buffer has at most 255 bytes and the frame
    [process_transmit_frame] sends is a normal one, the buffer keeps its
    [FRAME_TX_PAYLOAD_LEN] bytes, [payload_len] lies between 0 and
    [FRAME_TX_PAYLOAD_LEN] whatever the serial side offers, every byte is an
    8-bit value, the bytes from [payload_len] on are zero, and the frame is
    packed from this buffer and this length. *)
Theorem transmit_payload_stays_within_buffer
    (a : ANTENNA_ENUM) (ack : Z) (s : tTx) :
  (FRAME_TX_PAYLOAD_LEN ≤ 255)%nat →
  let s' := process_transmit_frame a ack s in
  transmit_frame_type (frames s') = TRANSMIT_FRAME_TYPE_NORMAL →
  length (payload (frames s')) = FRAME_TX_PAYLOAD_LEN
  ∧ 0 ≤ payload_len (frames s') ≤ Z.of_nat FRAME_TX_PAYLOAD_LEN
  ∧ Forall (λ b, 0 ≤ b < 256) (payload (frames s'))
  ∧ (∀ i, (Z.to_nat (payload_len (frames s')) ≤ i < FRAME_TX_PAYLOAD_LEN)%nat →
          payload (frames s') !!! i = 0)
  ∧ ∃ frame_stats,
      txFrame (frames s')
      = pack_tx_frame frame_stats (rcData s) (payload (frames s'))
          (payload_len (frames s')).
Proof.
  intros HN. cbv zeta. unfold process_transmit_frame. cbv zeta.
  destruct (latch_set_rx_params_frame s) as (_&_&_&_&_&_&_&Hrc1&_).
  set (s1 := latch_set_rx_params s) in *.
  destruct (collect_payload_frame s1) as (_&_&_&_&_&_&Hrc2&Hty2&_).
  pose proof (collect_payload_bounds s1 HN) as Hb.
  set (s2 := collect_payload s1) in *.
  destruct (pack_and_send_frame_frame a ack s2)
    as (_&_&_&_&_&_&_&_&Hty3&Hp3&Hl3&_).
  rewrite Hty3, Hp3, Hl3. intros Hn.
  destruct Hb as (B1 & B2 & B3 & B4); [congruence|].
  split; [exact B1|]. split; [exact B2|]. split; [exact B3|]. split; [exact B4|].
  destruct (pack_and_send_frame_normal a ack s2 Hn) as [fs Hfs].
  exists fs. by rewrite Hfs, Hrc2, Hrc1.
Qed.

(** The frame [pack_and_send_frame] packs, for every value of the slot. *)
Lemma pack_and_send_frame_txFrame a ack s :
  let frame_stats :=
    {| FrameStats.seq_no := transmit_seq_no (stats s);
       FrameStats.ack := ack;
       FrameStats.antenna := last_rx_antenna (stats s);
       FrameStats.transmit_antenna := a;
       FrameStats.rssi := stats_GetLastRxRssi (set_last_tx_antenna a (stats s));
       FrameStats.LQ := txstats_GetLQ (txstats (dev s));
       FrameStats.LQ_serial_data := txstats_GetLQ_serial_data (txstats (dev s)) |} in
  let s' := pack_and_send_frame a ack s in
  txFrame (frames s')
  = match transmit_frame_type (frames s) with
    | TRANSMIT_FRAME_TYPE_NORMAL =>
        pack_tx_frame frame_stats (rcData s) (payload (frames s))
          (payload_len (frames s))
    | TRANSMIT_FRAME_TYPE_CMD_GET_RX_SETUPDATA =>
        pack_txcmd_cmd_frame frame_stats (rcData s) FRAME_CMD_GET_RX_SETUPDATA
    | TRANSMIT_FRAME_TYPE_CMD_SET_RX_PARAMS =>
        pack_txcmd_set_rxparams_frame frame_stats (rcData s)
    | TRANSMIT_FRAME_TYPE_CMD_STORE_RX_PARAMS =>
        pack_txcmd_cmd_frame frame_stats (rcData s) FRAME_CMD_STORE_RX_PARAMS
    end
  ∧ setup_rx_param_changed (frames s') = setup_rx_param_changed (frames s)
  ∧ last_tx_antenna (stats s') = a
  ∧ rcData s' = rcData s.
Proof.
  cbv zeta. unfold pack_and_send_frame, pack_tx_cmd_frame. cbv zeta.
  destruct (transmit_frame_type (frames s)) eqn:Ht; tx_red; rewrite Ht;
    tx_decide; destruct a; done.
Qed.

Lemma collect_payload_param_flag s :
  setup_rx_param_changed (frames (collect_payload s))
  = setup_rx_param_changed (frames s).
Proof.
  unfold collect_payload. case_bool_decide; [|done]. cbv zeta.
  set (s0 := upd_frames (set_payload_len 0) _).
  assert (∀ n s1, setup_rx_param_changed (frames (read_serial_payload n s1))
                  = setup_rx_param_changed (frames s1)) as Hr.
  { induction n as [|n IH]; intros s1; [done|].
    simpl. repeat case_match; try done; by rewrite IH. }
  destruct (connected s0); destruct (serialport (dev s0)); tx_red;
    rewrite ?Hr; done.
Qed.

(** X16: a pending parameter change waits for a free slot and is never
    dropped. With [setup_rx_param_changed] set and NORMAL in the slot,
    [process_transmit_frame] clears the flag, puts SET_RX_PARAMS into the
    slot and sends the set-parameters command frame without touching the
    serial side, connected or not; with a command in the slot the flag stays
    set and the slot stays as it is. *)
Theorem pending_param_change_waits_for_free_slot
    (a : ANTENNA_ENUM) (ack : Z) (s : tTx) :
  setup_rx_param_changed (frames s) = true →
  let s' := process_transmit_frame a ack s in
  (transmit_frame_type (frames s) = TRANSMIT_FRAME_TYPE_NORMAL →
   transmit_frame_type (frames s') = TRANSMIT_FRAME_TYPE_CMD_SET_RX_PARAMS
   ∧ setup_rx_param_changed (frames s') = false
   ∧ (∃ frame_stats,
        txFrame (frames s') = pack_txcmd_set_rxparams_frame frame_stats (rcData s))
   ∧ serialport (dev s') = serialport (dev s)
   ∧ mavlink (dev s') = mavlink (dev s))
  ∧ (transmit_frame_type (frames s) ≠ TRANSMIT_FRAME_TYPE_NORMAL →
     transmit_frame_type (frames s') = transmit_frame_type (frames s)
     ∧ setup_rx_param_changed (frames s') = true).
Proof.
  intros Hflag. cbv zeta. unfold process_transmit_frame. cbv zeta. split.
  - intros Hn.
    assert (latch_set_rx_params s
            = upd_frames (set_transmit_frame_type TRANSMIT_FRAME_TYPE_CMD_SET_RX_PARAMS)
                (upd_frames (set_setup_rx_param_changed false) s)) as Hlatch.
    { unfold latch_set_rx_params. rewrite Hflag, (bool_decide_eq_true_2 _ Hn). done. }
    rewrite Hlatch.
    set (s1 := upd_frames _ (upd_frames _ s)).
    assert (transmit_frame_type (frames s1) = TRANSMIT_FRAME_TYPE_CMD_SET_RX_PARAMS)
      as Ht1 by reflexivity.
    rewrite (collect_payload_cmd s1) by (rewrite Ht1; discriminate).
    destruct (pack_and_send_frame_frame a ack s1)
      as (Hp&Hm&_&_&_&_&_&_&Hty&_).
    destruct (pack_and_send_frame_txFrame a ack s1) as (Hx&Hfl&_&_).
    rewrite Hty, Hfl, Hp, Hm, Hx, Ht1.
    split; [done|]. split; [done|]. split; [by eexists|]. done.
  - intros Hc. rewrite (latch_set_rx_params_cmd s Hc).
    rewrite (collect_payload_cmd s Hc).
    destruct (pack_and_send_frame_frame a ack s) as (_&_&_&_&_&_&_&_&Hty&_).
    destruct (pack_and_send_frame_txFrame a ack s) as (_&Hfl&_&_).
    by rewrite Hty, Hfl.
Qed.

Lemma latch_set_rx_params_stats s :
  stats (latch_set_rx_params s) = stats s ∧ dev (latch_set_rx_params s) = dev s.
Proof. by destruct (latch_set_rx_params_frame s) as (->&->&_). Qed.

(** The modems and the antenna record after [do_transmit]. *)
Lemma do_transmit_modems a s :
  let s' := do_transmit a s in
  sx_of a s'
  = sx_SendFrame (txFrame (frames s')) FRAME_TX_RX_LEN SEND_FRAME_TMO (sx_of a s)
  ∧ sx_of (other_antenna a) s' = sx_of (other_antenna a) s
  ∧ last_tx_antenna (stats s') = a.
Proof.
  cbv zeta. unfold do_transmit, process_transmit_frame. cbv zeta.
  set (s0 := upd_stats _ s).
  assert (dev s0 = dev s) as Hd0 by done.
  destruct (latch_set_rx_params_stats s0) as (_ & Hd1).
  set (s1 := latch_set_rx_params s0) in *.
  destruct (collect_payload_frame s1) as (_&_&_&_&_&_&_&_&Hx2&Hy2).
  set (s2 := collect_payload s1) in *.
  destruct (pack_and_send_frame_frame a 1 s2)
    as (_&_&_&_&_&_&_&_&_&_&_&Hsx3).
  destruct (pack_and_send_frame_txFrame a 1 s2) as (_&_&Hla&_).
  assert (sx_of a s2 = sx_of a s ∧ sx_of (other_antenna a) s2 = sx_of (other_antenna a) s)
    as (Hsa & Hso).
  { destruct a; cbn [sx_of other_antenna]; rewrite ?Hx2, ?Hy2, Hd1, Hd0; done. }
  split. { by rewrite Hsx3, Hsa. }
  split; [|exact Hla].
  rewrite <- Hso.
  unfold pack_and_send_frame. cbv zeta.
  match goal with |- context [set_sx_of a ?v ?s3] =>
    assert (sx_of (other_antenna a) (set_sx_of a v s3) = sx_of (other_antenna a) s3)
      as -> by (by destruct a) end.
  case_bool_decide; [by destruct a|].
  match goal with |- context [pack_tx_cmd_frame ?fs ?s3] =>
    destruct (pack_tx_cmd_frame_frame fs s3) as (Hd&_) end.
  destruct a; cbn [sx_of other_antenna]; by rewrite Hd.
Qed.

(** X17: every frame [do_transmit] hands to the modem, normal or command,
    carries the sequence number already incremented (modulo 256), ack 1,
    the antenna of the last reception and the transmit antenna; it goes to
    the modem of the transmit antenna, which [stats] records. *)
Theorem do_transmit_stamps_the_frame (a : ANTENNA_ENUM) (s : tTx) :
  let s' := do_transmit a s in
  (∃ frame_stats,
     frame_stats_of (txFrame (frames s')) = Some frame_stats
     ∧ FrameStats.seq_no frame_stats = wrap8 (transmit_seq_no (stats s) + 1)
     ∧ FrameStats.ack frame_stats = 1
     ∧ FrameStats.antenna frame_stats = last_rx_antenna (stats s)
     ∧ FrameStats.transmit_antenna frame_stats = a)
  ∧ transmit_seq_no (stats s') = wrap8 (transmit_seq_no (stats s) + 1)
  ∧ last_tx_antenna (stats s') = a
  ∧ sx_of a s'
    = sx_SendFrame (txFrame (frames s')) FRAME_TX_RX_LEN SEND_FRAME_TMO (sx_of a s)
  ∧ sx_of (other_antenna a) s' = sx_of (other_antenna a) s.
Proof.
  cbv zeta.
  destruct (do_transmit_modems a s) as (Hsa & Hso & Hla).
  destruct (do_transmit_frame a s) as (_&_&_&_&_&Hn&_).
  split; [|by rewrite Hn, Hla, Hsa, Hso].
  unfold do_transmit, process_transmit_frame. cbv zeta.
  set (s0 := upd_stats _ s).
  assert (transmit_seq_no (stats s0) = wrap8 (transmit_seq_no (stats s) + 1)
          ∧ last_rx_antenna (stats s0) = last_rx_antenna (stats s))
    as (Hn0 & Ha0) by done.
  destruct (latch_set_rx_params_stats s0) as (Hst1 & _).
  set (s1 := latch_set_rx_params s0) in *.
  destruct (collect_payload_frame s1) as (_&_&_&_&_&Hst2&_).
  set (s2 := collect_payload s1) in *.
  destruct (pack_and_send_frame_txFrame a 1 s2) as (Hx&_).
  cbv zeta in Hx. rewrite Hx.
  destruct (transmit_frame_type (frames s2));
    eexists; (split; [reflexivity|]);
    cbn [FrameStats.seq_no FrameStats.ack FrameStats.antenna
         FrameStats.transmit_antenna];
    rewrite Hst2, Hst1, Hn0, Ha0; done.
Qed.

(** X18: the Transmit branch tunes both modems to the frequency of the new
    hop index and sends the frame on one of them only: on antenna 1 when it
    is in use, else on antenna 2. The other modem is only retuned. *)
Theorem transmit_retunes_both_modems_and_sends_on_one (s : tTx) :
  link_state (link s) = LINK_STATE_TRANSMIT →
  let s' := link_state_switch s in
  let freq := Fhss.GetCurrFreq (Fhss.HopToNext (fhss s)) in
  let a := if USE_ANTENNA1 then ANTENNA_1 else ANTENNA_2 in
  sx_of a s'
  = sx_SendFrame (txFrame (frames s')) FRAME_TX_RX_LEN SEND_FRAME_TMO
      (sx_SetRfFrequency freq (sx_of a s))
  ∧ sx_of (other_antenna a) s' = sx_SetRfFrequency freq (sx_of (other_antenna a) s)
  ∧ last_tx_antenna (stats s') = a.
Proof.
  intros Ht. cbv zeta. unfold link_state_switch. rewrite Ht.
  unfold link_state_transmit. cbv zeta.
  set (a := if USE_ANTENNA1 then ANTENNA_1 else ANTENNA_2).
  match goal with |- context [do_transmit a ?s1] =>
    destruct (do_transmit_modems a s1) as (Hsa & Hso & Hla);
    set (s2 := do_transmit a s1) in * end.
  assert (∀ b, sx_of b
            (set_whileTransmit (WhileTransmit.Trigger (whileTransmit
               (upd_link (set_irq2_status 0) (upd_link (set_irq_status 0)
                  (upd_link (set_link_state LINK_STATE_TRANSMIT_WAIT) s2)))))
               (upd_link (set_irq2_status 0) (upd_link (set_irq_status 0)
                  (upd_link (set_link_state LINK_STATE_TRANSMIT_WAIT) s2))))
          = sx_of b s2) as Hb by (by intros []).
  rewrite !Hb. tx_red. rewrite Hsa, Hso, Hla.
  split; [|split; [|done]]; by destruct a.
Qed.

End TransmitProperties.

(** ** The link state machine *)

Section LinkProperties.
Context {B : Build} {C : Collab}.

Lemma irq_block_not_pending a s : irq_of a s = 0 → irq_block a s = Running s.
Proof.
  intros H0. unfold irq_block. rewrite H0. by change (nonzero 0) with false.
Qed.

(** X19: a completion cause nobody waits for stops the loop. When the slot
    of an antenna holds RX_DONE or TX_DONE without the timeout cause, and
    the cause is not the one the link state awaits (TX_DONE in
    TransmitWait, RX_DONE in ReceiveWait), the IRQ block of that antenna
    enters its blink loop with the state as it was; for antenna 1 this ends
    the pass of the main loop right after the SysTask block. *)
Theorem unawaited_done_cause_stops_the_loop (a : ANTENNA_ENUM) (s : tTx) :
  Z.land (irq_of a s) SX12xx_IRQ_TIMEOUT = 0 →
  (Z.land (irq_of a s) SX12xx_IRQ_RX_DONE ≠ 0
   ∨ Z.land (irq_of a s) SX12xx_IRQ_TX_DONE ≠ 0) →
  (link_state (link s) = LINK_STATE_TRANSMIT_WAIT →
   Z.land (irq_of a s) SX12xx_IRQ_TX_DONE = 0) →
  (link_state (link s) = LINK_STATE_RECEIVE_WAIT →
   Z.land (irq_of a s) SX12xx_IRQ_RX_DONE = 0) →
  irq_block a s = Halted s
  ∧ (a = ANTENNA_1 → USE_ANTENNA1 = true →
     link_state (link s) ≠ LINK_STATE_TRANSMIT →
     link_state (link s) ≠ LINK_STATE_RECEIVE →
     ∀ i, main_loop i s = Halted (sys_task s)).
Proof.
  intros Htmo Hdone Htw Hrw.
  assert (∀ s1, link s1 = link s → irq_block a s1 = Halted s1) as Hblock.
  { intros s1 Hl.
    rewrite <- (irq_of_link a s s1 Hl) in Htmo, Hdone, Htw, Hrw.
    rewrite <- Hl in Htw, Hrw.
    assert (irq_of a s1 ≠ 0) as Hirq.
    { intros H0. rewrite H0, !Z.land_0_l in Hdone. by destruct Hdone. }
    assert (irq_done_handling a s1 = s1) as Hd.
    { unfold irq_done_handling. case_bool_decide as Hs1.
      - rewrite (Htw Hs1). by change (nonzero 0) with false.
      - case_bool_decide as Hs2; [|done].
        rewrite (Hrw Hs2). by change (nonzero 0) with false. }
    unfold irq_block. apply nonzero_true in Hirq. rewrite Hirq. cbv zeta.
    rewrite Hd. unfold irq_timeout_handling. rewrite Htmo.
    change (nonzero 0) with false. cbv iota.
    unfold irq_unexpected.
    destruct (nonzero (Z.land (irq_of a s1) SX12xx_IRQ_RX_DONE)) eqn:Hrx; [done|].
    apply nonzero_false in Hrx.
    destruct Hdone as [Hd1|Hd2]; [done|].
    apply nonzero_true in Hd2. by rewrite Hd2. }
  split; [by apply Hblock|].
  intros -> Hant Hnt Hnr i.
  destruct (sys_task_frame s) as (Hl & _).
  unfold main_loop. cbv zeta. unfold sx_handling. cbv zeta.
  rewrite link_state_switch_id by (by rewrite Hl).
  rewrite Hant, (Hblock (sys_task s) Hl). done.
Qed.

(** X20: the completed transmission opens the receive window. TX_DONE in
    TransmitWait takes the link to Receive and clears the slot, whatever
    other cause bits the slot held; from Receive the next SX handling puts
    every modem in use into receive mode, goes to ReceiveWait with both
    slots cleared and runs to its end, leaving frames and statistics as
    they were. *)
Theorem tx_done_opens_the_receive_window (s : tTx) :
  (∀ a,
     link_state (link s) = LINK_STATE_TRANSMIT_WAIT →
     Z.land (irq_of a s) SX12xx_IRQ_TX_DONE ≠ 0 →
     ∃ s',
       irq_block a s = Running s'
       ∧ link_state (link s') = LINK_STATE_RECEIVE
       ∧ irq_of a s' = 0
       ∧ dev s' = dev s ∧ stats s' = stats s ∧ frames s' = frames s)
  ∧ (link_state (link s) = LINK_STATE_RECEIVE →
     ∃ s',
       sx_handling s = Running s'
       ∧ link_state (link s') = LINK_STATE_RECEIVE_WAIT
       ∧ irq_status (link s') = 0 ∧ irq2_status (link s') = 0
       ∧ sx (dev s') = (if USE_ANTENNA1 then sx_SetToRx 0 (sx (dev s))
                        else sx (dev s))
       ∧ sx2 (dev s') = (if USE_ANTENNA2 then sx_SetToRx 0 (sx2 (dev s))
                         else sx2 (dev s))
       ∧ stats s' = stats s ∧ frames s' = frames s).
Proof.
  split.
  - intros a Htw Htx.
    assert (irq_of a s ≠ 0) as Hirq by (intros H0; by rewrite H0 in Htx).
    exists (upd_link (set_link_state LINK_STATE_RECEIVE) (set_irq_of a 0 s)).
    split.
    { unfold irq_block. apply nonzero_true in Hirq. rewrite Hirq. cbv zeta.
      assert (irq_done_handling a s
              = upd_link (set_link_state LINK_STATE_RECEIVE) (set_irq_of a 0 s)) as ->.
      { unfold irq_done_handling. rewrite (bool_decide_eq_true_2 _ Htw).
        apply nonzero_true in Htx. by rewrite Htx. }
      apply irq_block_done. by destruct a. }
    by destruct a.
  - intros Hr. exists (link_state_receive s).
    assert (link_state_switch s = link_state_receive s) as Hsw
      by (unfold link_state_switch; by rewrite Hr).
    assert (irq_status (link (link_state_receive s)) = 0
            ∧ irq2_status (link (link_state_receive s)) = 0) as (Hi1 & Hi2)
      by (by rewrite link_state_receive_link).
    split.
    { unfold sx_handling. cbv zeta. rewrite Hsw.
      rewrite !irq_block_not_pending by done.
      destruct USE_ANTENNA1, USE_ANTENNA2; cbn [and_then];
        rewrite ?irq_block_not_pending by done; done. }
    rewrite link_state_receive_link.
    destruct (link_state_receive_frame s) as (_&_&_&_&Hf&Hst).
    split; [done|]. split; [done|]. split; [done|].
    split. { unfold link_state_receive. by destruct USE_ANTENNA1, USE_ANTENNA2. }
    split. { unfold link_state_receive. by destruct USE_ANTENNA1, USE_ANTENNA2. }
    done.
Qed.

Lemma foldl_put_serial_byte_sched l s : sched (foldl put_serial_byte s l) = sched s.
Proof.
  revert s. induction l as [|c l IH]; intros s; [done|].
  simpl. rewrite IH. unfold put_serial_byte. by case_match.
Qed.

Lemma process_received_frame_sched do_payload frame s :
  sched (process_received_frame do_payload frame s) = sched s.
Proof.
  unfold process_received_frame, process_received_cmd_rx_frame. cbv zeta.
  repeat case_match; try done. tx_red. by rewrite foldl_put_serial_byte_sched.
Qed.

Lemma pre_transmit_receive_sched s : sched (pre_transmit_receive s) = sched s.
Proof.
  unfold pre_transmit_receive. case_match; [|done].
  unfold handle_receive. cbv zeta. case_match; [|done].
  tx_red. apply process_received_frame_sched.
Qed.

Lemma pre_transmit_doPreTransmit s : doPreTransmit (sched (pre_transmit s)) = false.
Proof.
  unfold pre_transmit. cbv zeta.
  set (s0 := upd_sched (set_doPreTransmit false) s).
  pose proof (pre_transmit_receive_sched s0) as Hs.
  set (s1 := pre_transmit_receive s0) in *.
  unfold pre_transmit_finish. cbv zeta. tx_red.
  repeat case_match; tx_red; by rewrite Hs.
Qed.

(** X21: the pre-transmit block always schedules the transmission. When
    [doPreTransmit] is set, the rest of the pass leaves the link in
    Transmit with both rx statuses None and the flag cleared, whatever the
    link state was; and from Transmit the SX handling sends the frame,
    discards what the IRQ slots held, ends in TransmitWait and never stops
    in a blink loop. *)
Theorem pre_transmit_schedules_the_transmission (s : tTx) :
  (∀ i,
     doPreTransmit (sched s) = true →
     let s' := loop_tail i s in
     link_state (link s') = LINK_STATE_TRANSMIT
     ∧ link_rx1_status (link s') = RX_STATUS_NONE
     ∧ link_rx2_status (link s') = RX_STATUS_NONE
     ∧ doPreTransmit (sched s') = false)
  ∧ (link_state (link s) = LINK_STATE_TRANSMIT →
     sx_handling s = Running (link_state_transmit s)
     ∧ link_state (link (link_state_transmit s)) = LINK_STATE_TRANSMIT_WAIT
     ∧ irq_status (link (link_state_transmit s)) = 0
     ∧ irq2_status (link (link_state_transmit s)) = 0).
Proof.
  split.
  - intros i Hp. cbv zeta. rewrite loop_tail_link, Hp, pre_transmit_link.
    split; [done|]. split; [done|]. split; [done|].
    unfold loop_tail. cbv zeta.
    destruct (while_transmit_do_frame
                (upd_dev (λ d, set_mavlink (mavlink_Do (mavlink d)) d)
                   (handset_handling i (pre_transmit_step s))))
      as (_&_&_&_&_&->&_).
    destruct (handset_handling_frame i (pre_transmit_step s))
      as (_&_&_&_&_&Hs&_).
    tx_red. rewrite Hs. unfold pre_transmit_step. rewrite Hp.
    apply pre_transmit_doPreTransmit.
  - intros Ht.
    assert (link_state_switch s = link_state_transmit s) as Hsw
      by (unfold link_state_switch; by rewrite Ht).
    assert (irq_status (link (link_state_transmit s)) = 0
            ∧ irq2_status (link (link_state_transmit s)) = 0) as (Hi1 & Hi2)
      by (by rewrite link_state_transmit_link).
    split.
    { unfold sx_handling. cbv zeta. rewrite Hsw.
      destruct USE_ANTENNA1, USE_ANTENNA2; cbn [and_then];
        rewrite ?irq_block_not_pending by done; cbn [and_then];
        rewrite ?irq_block_not_pending by done; done. }
    by rewrite link_state_transmit_link.
Qed.

(** ** The DIO interrupt handlers, continued *)

(** X22: an interrupt handler writes the IRQ slot and the modem object of
    its own antenna and nothing else: the link state, the rx statuses, the
    slot and the modem of the other antenna, scheduler, connection,
    frames, statistics and hop state are as before. The slot receives the
    16 status bits read from the modem, or 0: the bits are kept when
    RX_DONE is not among them (the buffer is then not read) and when the
    first two buffer bytes are the own sync word. *)
Theorem isr_writes_only_its_slot_and_modem (a : ANTENNA_ENUM) (s : tTx) :
  let r := sx_GetAndClearIrqStatus SX12xx_IRQ_ALL (sx_of a s) in
  let s' := DIO_EXTI_IRQHandler a s in
  (irq_of (other_antenna a) s' = irq_of (other_antenna a) s
   ∧ sx_of (other_antenna a) s' = sx_of (other_antenna a) s
   ∧ link_state (link s') = link_state (link s)
   ∧ link_rx1_status (link s') = link_rx1_status (link s)
   ∧ link_rx2_status (link s') = link_rx2_status (link s)
   ∧ sched s' = sched s ∧ conn s' = conn s ∧ frames s' = frames s
   ∧ stats s' = stats s ∧ fhss s' = fhss s
   ∧ whileTransmit s' = whileTransmit s ∧ rcData s' = rcData s)
  ∧ (irq_of a s' = wrap16 r.1 ∨ irq_of a s' = 0)
  ∧ (Z.land (wrap16 r.1) SX12xx_IRQ_RX_DONE = 0 →
     irq_of a s' = wrap16 r.1 ∧ sx_of a s' = r.2)
  ∧ (u16_of_bytes (sx_ReadBuffer 0 2 r.2).1 = FrameSyncWord (Config s) →
     irq_of a s' = wrap16 r.1).
Proof.
  cbv zeta. unfold DIO_EXTI_IRQHandler. cbv zeta.
  set (r := sx_GetAndClearIrqStatus SX12xx_IRQ_ALL (sx_of a s)).
  rewrite irq_of_set_irq_of, sx_of_set_irq_of, sx_of_set_sx_of.
  rewrite Config_set_sx_of, Config_set_irq_of, Config_set_sx_of.
  set (b := sx_ReadBuffer 0 2 r.2).
  destruct (nonzero (Z.land (wrap16 r.1) SX12xx_IRQ_RX_DONE)) eqn:Hrx.
  - apply nonzero_true in Hrx.
    destruct (u16_of_bytes b.1 =? FrameSyncWord (Config s)) eqn:Hsw; cbn [negb].
    + split; [by destruct a|]. split; [left; by destruct a|].
      split; [done|]. intros _. by destruct a.
    + apply Z.eqb_neq in Hsw.
      split; [by destruct a|]. split; [right; by destruct a|].
      split; [done|]. done.
  - apply nonzero_false in Hrx.
    split; [by destruct a|]. split; [left; by destruct a|].
    split; [intros _; by destruct a|]. intros _. by destruct a.
Qed.

(** ** Start-up *)

(** X23: start-up needs both modems. [main_main] enters a blink loop
    before any modem is started when [sx] or [sx2] does not answer with a
    plausible firmware revision, also for the modem of an antenna that is
    not in use; otherwise it reaches the loop with the link Idle, both rx
    statuses None, the connection in Listen with both counters 0, the
    deferred-task engine initialised, no pre-transmit pending, and
    [serialport] as [Setup.Tx.SerialDestination] selects it. *)
Theorem main_init_needs_both_modems
    (mbridge_port serial_port : Serial) (boot : tTx) :
  (sx_isOk (sx (dev boot)) && sx_isOk (sx2 (dev boot)) = false →
   main_init mbridge_port serial_port boot
   = Halted (init_serialport mbridge_port serial_port boot))
  ∧ (sx_isOk (sx (dev boot)) && sx_isOk (sx2 (dev boot)) = true →
     ∃ s,
       main_init mbridge_port serial_port boot = Running s
       ∧ link_state (link s) = LINK_STATE_IDLE
       ∧ rx_status_ok s = true
       ∧ link_rx1_status (link s) = RX_STATUS_NONE
       ∧ link_rx2_status (link s) = RX_STATUS_NONE
       ∧ conn s = mkConnect CONNECT_STATE_LISTEN 0 0
       ∧ whileTransmit s = WhileTransmit.Init
       ∧ doPreTransmit (sched s) = false
       ∧ serialport (dev s)
         = match Tx_SerialDestination (Setup boot) with
           | SERIAL_DESTINATION_MBRDIGE => Some mbridge_port
           | SERIAL_DESTINATION_SERIAL_PORT => Some serial_port
           | SERIAL_DESTINATION_NONE => None
           end).
Proof.
  assert (sx (dev (init_serialport mbridge_port serial_port boot)) = sx (dev boot)
          ∧ sx2 (dev (init_serialport mbridge_port serial_port boot)) = sx2 (dev boot)
          ∧ serialport (dev (init_serialport mbridge_port serial_port boot))
            = match Tx_SerialDestination (Setup boot) with
              | SERIAL_DESTINATION_MBRDIGE => Some mbridge_port
              | SERIAL_DESTINATION_SERIAL_PORT => Some serial_port
              | SERIAL_DESTINATION_NONE => None
              end) as (Hx1 & Hx2 & Hsp).
  { unfold init_serialport. by destruct (Tx_SerialDestination (Setup boot)). }
  unfold main_init. cbv zeta. rewrite Hx1, Hx2.
  set (s0 := init_serialport mbridge_port serial_port boot) in *.
  split.
  - intros Hok. destruct (sx_isOk (sx (dev boot))); cbn [negb andb] in *; [|done].
    by rewrite Hok.
  - intros Hok. apply andb_true_iff in Hok as [-> ->]. cbn [negb].
    eexists. split; [reflexivity|].
    destruct USE_ANTENNA1, USE_ANTENNA2; tx_red; rewrite Hsp; done.
Qed.

End LinkProperties.

(** ** JR pin5 bridge *)

Section Pin5BridgeProperties.
Context {V : Pin5Bridge.Virtual}.

Lemma Pin5Bridge_uart_rx_callback_state c b :
  Pin5Bridge.state (Pin5Bridge.uart_rx_callback c b)
  = let p := Pin5Bridge.parse_nextchar c b in
    if Pin5Bridge.state p <? Pin5Bridge.STATE_TRANSMIT_START
    then Pin5Bridge.state p
    else if (Pin5Bridge.state p =? Pin5Bridge.STATE_TRANSMIT_START)
            && (Pin5Bridge.transmit_start p).1
         then Pin5Bridge.STATE_TRANSMITING
         else Pin5Bridge.STATE_IDLE.
Proof.
  unfold Pin5Bridge.uart_rx_callback. cbv zeta.
  destruct (_ <? _); [done|].
  destruct (_ =? _); cbn [negb andb]; [|done].
  by destruct (Pin5Bridge.transmit_start _).1.
Qed.

(** X24: the receive interrupt never leaves the bridge in
    STATE_TRANSMIT_START. After [uart_rx_callback], with [p] the object as
    the parser left it: in a receive state the object is [p]; the state is
    STATE_TRANSMITING exactly when the parser ended in STATE_TRANSMIT_START
    and [transmit_start] answered true; a parser state above
    STATE_TRANSMIT_START is reset to STATE_IDLE; and a state that fits in
    eight bits ends as one of the enumerated states. *)
Theorem uart_rx_callback_resolves_transmit_start
    (c : Z) (b : Pin5Bridge.tBridge) :
  let p := Pin5Bridge.parse_nextchar c b in
  let b' := Pin5Bridge.uart_rx_callback c b in
  Pin5Bridge.state b' ≠ Pin5Bridge.STATE_TRANSMIT_START
  ∧ (Pin5Bridge.state p < Pin5Bridge.STATE_TRANSMIT_START → b' = p)
  ∧ (Pin5Bridge.state b' = Pin5Bridge.STATE_TRANSMITING
     ↔ Pin5Bridge.state p = Pin5Bridge.STATE_TRANSMIT_START
       ∧ (Pin5Bridge.transmit_start p).1 = true)
  ∧ (Pin5Bridge.STATE_TRANSMIT_START < Pin5Bridge.state p →
     Pin5Bridge.state b' = Pin5Bridge.STATE_IDLE)
  ∧ (0 ≤ Pin5Bridge.state p →
     0 ≤ Pin5Bridge.state b' ≤ Pin5Bridge.STATE_TRANSMITING).
Proof.
  cbv zeta. rewrite Pin5Bridge_uart_rx_callback_state. cbv zeta.
  unfold Pin5Bridge.uart_rx_callback. cbv zeta.
  unfold Pin5Bridge.STATE_TRANSMIT_START, Pin5Bridge.STATE_TRANSMITING,
    Pin5Bridge.STATE_IDLE.
  set (p := Pin5Bridge.parse_nextchar c b).
  destruct (Pin5Bridge.state p <? 9) eqn:Hlt;
    [apply Z.ltb_lt in Hlt|apply Z.ltb_ge in Hlt].
  { split; [lia|]. split; [done|]. split; [split; [lia|intros [? _]; lia]|].
    split; [lia|]. lia. }
  destruct (Pin5Bridge.state p =? 9) eqn:Heq;
    [apply Z.eqb_eq in Heq|apply Z.eqb_neq in Heq]; cbn [andb negb].
  - destruct (Pin5Bridge.transmit_start p).1 eqn:Hts.
    + split; [lia|]. split; [lia|]. split; [done|]. split; [lia|]. lia.
    + split; [lia|]. split; [lia|].
      split; [split; [lia|intros [_ ?]; discriminate]|]. split; [lia|]. lia.
  - split; [lia|]. split; [lia|].
    split; [split; [lia|intros [? _]; lia]|]. split; [lia|]. lia.
Qed.

Lemma Pin5Bridge_call_state b c :
  Pin5Bridge.state b ≠ Pin5Bridge.STATE_TRANSMIT_START →
  Pin5Bridge.state (Pin5Bridge.call b c) ≠ Pin5Bridge.STATE_TRANSMIT_START.
Proof.
  intros Hb. destruct c as [| | |c|]; cbn [Pin5Bridge.call]; try done.
  rewrite Pin5Bridge_uart_rx_callback_state. cbv zeta.
  unfold Pin5Bridge.STATE_TRANSMIT_START, Pin5Bridge.STATE_TRANSMITING,
    Pin5Bridge.STATE_IDLE in *.
  destruct (_ <? 9) eqn:Hlt; [apply Z.ltb_lt in Hlt; lia|].
  by destruct (_ && _).
Qed.

(** X25: from [Init] on, whatever calls follow one another ([Init],
    [TelemetryStart], [CheckAndRescue], the receive interrupt with any
    character, the transmit-complete interrupt), the bridge is never left
    in STATE_TRANSMIT_START, and a transmit-complete interrupt at any point
    puts it into STATE_IDLE. *)
Theorem bridge_never_rests_in_transmit_start
    (cs : list Pin5Bridge.tCall) (b : Pin5Bridge.tBridge) :
  Pin5Bridge.state (Pin5Bridge.calls cs (Pin5Bridge.Init b))
  ≠ Pin5Bridge.STATE_TRANSMIT_START
  ∧ Pin5Bridge.state
      (Pin5Bridge.calls (cs ++ [Pin5Bridge.CallUartTc]) (Pin5Bridge.Init b))
    = Pin5Bridge.STATE_IDLE.
Proof.
  split.
  - assert (Pin5Bridge.state (Pin5Bridge.Init b)
            ≠ Pin5Bridge.STATE_TRANSMIT_START) as H0 by done.
    revert H0. generalize (Pin5Bridge.Init b). clear b.
    induction cs as [|c cs IH]; intros b Hb; [done|].
    unfold Pin5Bridge.calls in *. cbn [foldl]. apply IH.
    by apply Pin5Bridge_call_state.
  - unfold Pin5Bridge.calls. rewrite foldl_app. done.
Qed.

End Pin5BridgeProperties.

(** ** MSP interface of the receiver *)

Section RxMspProperties.
Context {E : RxMsp.Env}.

(** The serial loop of [Do] reads every waiting byte and writes neither to
    the serial port nor to the timing fields nor to the parser of the link
    input. *)
Lemma RxMsp_parse_serial_in_frame pending : ∀ m,
  let m' := RxMsp.parse_serial_in pending m in
  RxMsp.serial_tx m' = RxMsp.serial_tx m
  ∧ RxMsp.msp_request_tlast_ms m' = RxMsp.msp_request_tlast_ms m
  ∧ RxMsp.tick_tlast_ms m' = RxMsp.tick_tlast_ms m
  ∧ RxMsp.tick m' = RxMsp.tick m
  ∧ RxMsp.status_link_in m' = RxMsp.status_link_in m
  ∧ RxMsp.msp_msg_link_in m' = RxMsp.msp_msg_link_in m
  ∧ RxMsp.serial_rx m' = match pending with [] => RxMsp.serial_rx m | _ => [] end
  ∧ (RxMsp.msp_msg_ser_in m', RxMsp.status_ser_in m')
    = foldl RxMsp.parse_step (RxMsp.msp_msg_ser_in m, RxMsp.status_ser_in m) pending.
Proof.
  induction pending as [|c pending IH]; intros m; [done|].
  cbn [RxMsp.parse_serial_in foldl]. cbv zeta.
  match goal with |- context [RxMsp.parse_serial_in pending ?m1] =>
    destruct (IH m1) as (->&->&->&->&->&->&Hrx&->) end.
  rewrite Hrx.
  destruct (RxMsp.msp_parse_to_msg _ _ c).1.1; destruct pending; done.
Qed.

Lemma RxMsp_Do_serial_in_frame connected m :
  let m' := RxMsp.Do_serial_in connected m in
  RxMsp.serial_tx m' = RxMsp.serial_tx m
  ∧ RxMsp.msp_request_tlast_ms m' = RxMsp.msp_request_tlast_ms m
  ∧ RxMsp.tick_tlast_ms m' = RxMsp.tick_tlast_ms m
  ∧ RxMsp.tick m' = RxMsp.tick m
  ∧ RxMsp.status_link_in m' = RxMsp.status_link_in m
  ∧ RxMsp.msp_msg_link_in m' = RxMsp.msp_msg_link_in m.
Proof.
  unfold RxMsp.Do_serial_in. cbv zeta.
  match goal with |- context [RxMsp.parse_serial_in ?l ?m1] =>
    destruct (RxMsp_parse_serial_in_frame l m1) as (H1&H2&H3&H4&H5&H6&_) end.
  cbv zeta in *.
  destruct (RxMsp.fifo_HasSpace _ _); [|by destruct connected].
  rewrite H1, H2, H3, H4, H5, H6. by destruct connected.
Qed.

Lemma RxMsp_Do_tick_frame tnow_ms m :
  let m' := RxMsp.Do_tick tnow_ms m in
  RxMsp.serial_tx m' = RxMsp.serial_tx m
  ∧ RxMsp.msp_request_tlast_ms m' = RxMsp.msp_request_tlast_ms m
  ∧ RxMsp.tick_tlast_ms m'
    = (if RxMsp.Do_ticked tnow_ms m then tnow_ms else RxMsp.tick_tlast_ms m).
Proof. unfold RxMsp.Do_tick. by destruct (RxMsp.Do_ticked tnow_ms m). Qed.

Lemma RxMsp_inject_request_frame function with_dbg m :
  let m' := RxMsp.inject_request function with_dbg m in
  RxMsp.serial_tx m'
  = RxMsp.serial_tx m
    ++ RxMsp.msp_generate_request_to_frame_buf RxMsp.MSP_TYPE_REQUEST function
  ∧ RxMsp.msp_request_tlast_ms m' = RxMsp.msp_request_tlast_ms m
  ∧ RxMsp.tick_tlast_ms m' = RxMsp.tick_tlast_ms m.
Proof. unfold RxMsp.inject_request. by destruct with_dbg. Qed.

(** What the last part of [Do] puts to the serial port. *)
Lemma RxMsp_Do_inject_cases ticked tnow_ms m :
  let m' := RxMsp.Do_inject ticked tnow_ms m in
  RxMsp.msp_request_tlast_ms m' = RxMsp.msp_request_tlast_ms m
  ∧ RxMsp.tick_tlast_ms m' = RxMsp.tick_tlast_ms m
  ∧ (RxMsp.serial_tx m' = RxMsp.serial_tx m
     ∨ (ticked = true
        ∧ 1500 < wrap32 (tnow_ms - RxMsp.msp_request_tlast_ms m)
        ∧ ∃ function,
            (function = RxMsp.MSP_ATTITUDE ∨ function = RxMsp.MSP_ALTITUDE
             ∨ function = RxMsp.MSP_INAV_STATUS)
            ∧ RxMsp.serial_tx m'
              = RxMsp.serial_tx m
                ++ RxMsp.msp_generate_request_to_frame_buf
                     RxMsp.MSP_TYPE_REQUEST function)).
Proof.
  unfold RxMsp.Do_inject. cbv zeta.
  destruct (1500 <? _) eqn:Hreq; [apply Z.ltb_lt in Hreq|by auto].
  destruct ticked; [|by auto].
  repeat match goal with
  | |- context [if ?b then RxMsp.inject_request ?f ?d m else _] =>
      destruct b;
      [destruct (RxMsp_inject_request_frame f d m) as (->&->&->);
       split; [done|]; split; [done|]; right;
       split; [done|]; split; [done|]; exists f; split; [tauto|done]|]
  end.
  by auto.
Qed.

(** X26: [Do] puts a request to the serial port only when it is due. The
    bytes written to the serial port are as before, or one request frame
    for MSP_ATTITUDE, MSP_ALTITUDE or MSP_INAV_STATUS was appended, and then
    at least 100 ms have passed since the last tick and more than 1500 ms
    since the last request of a ground station, both differences taken
    modulo 2^32. [Do] itself never moves the time of the last request. *)
Theorem request_injection_is_gated (tnow_ms : Z) (connected : bool) (m : RxMsp.t) :
  let m' := RxMsp.Do tnow_ms connected m in
  RxMsp.msp_request_tlast_ms m' = RxMsp.msp_request_tlast_ms m
  ∧ (RxMsp.serial_tx m' = RxMsp.serial_tx m
     ∨ (100 ≤ wrap32 (tnow_ms - RxMsp.tick_tlast_ms m)
        ∧ 1500 < wrap32 (tnow_ms - RxMsp.msp_request_tlast_ms m)
        ∧ RxMsp.tick_tlast_ms m' = tnow_ms
        ∧ ∃ function,
            (function = RxMsp.MSP_ATTITUDE ∨ function = RxMsp.MSP_ALTITUDE
             ∨ function = RxMsp.MSP_INAV_STATUS)
            ∧ RxMsp.serial_tx m'
              = RxMsp.serial_tx m
                ++ RxMsp.msp_generate_request_to_frame_buf
                     RxMsp.MSP_TYPE_REQUEST function)).
Proof.
  cbv zeta. unfold RxMsp.Do. cbv zeta.
  destruct (RxMsp_Do_serial_in_frame connected m) as (Htx&Hrq&Htl&_).
  set (m1 := RxMsp.Do_serial_in connected m) in *.
  destruct (RxMsp_Do_tick_frame tnow_ms m1) as (Htx2&Hrq2&Htl2).
  set (m2 := RxMsp.Do_tick tnow_ms m1) in *.
  destruct (RxMsp_Do_inject_cases (RxMsp.Do_ticked tnow_ms m1) tnow_ms m2)
    as (Hrq3&Htl3&Hcases).
  rewrite Hrq3, Hrq2, Hrq. split; [done|].
  destruct Hcases as [Hsame|(Htick&Hreq&f&Hf&Hout)].
  - left. by rewrite Hsame, Htx2, Htx.
  - right. rewrite Hout, Htx2, Htx, Htl3, Htl2, Htick.
    unfold RxMsp.Do_ticked in Htick. rewrite Htl in Htick.
    apply Z.leb_le in Htick. rewrite Hrq2, Hrq in Hreq.
    split; [done|]. split; [done|]. split; [done|].
    exists f. by split.
Qed.

(** X27: two injected requests are at least 100 ms apart. When a call of
    [Do] at time [t1] has put a request to the serial port, a call at a
    time [t2] less than 100 ms later (modulo 2^32) puts none. *)
Theorem injected_requests_are_100_ms_apart
    (t1 t2 : Z) (connected1 connected2 : bool) (m : RxMsp.t) :
  let m1 := RxMsp.Do t1 connected1 m in
  RxMsp.serial_tx m1 ≠ RxMsp.serial_tx m →
  wrap32 (t2 - t1) < 100 →
  RxMsp.serial_tx (RxMsp.Do t2 connected2 m1) = RxMsp.serial_tx m1.
Proof.
  cbv zeta. intros Hinj Hnear.
  assert (RxMsp.tick_tlast_ms (RxMsp.Do t1 connected1 m) = t1) as Ht1.
  { unfold RxMsp.Do in *. cbv zeta in *.
    destruct (RxMsp_Do_serial_in_frame connected1 m) as (Htx&_).
    set (m1 := RxMsp.Do_serial_in connected1 m) in *.
    destruct (RxMsp_Do_tick_frame t1 m1) as (Htx2&_&Htl2).
    set (m2 := RxMsp.Do_tick t1 m1) in *.
    destruct (RxMsp_Do_inject_cases (RxMsp.Do_ticked t1 m1) t1 m2)
      as (_&Htl3&[Hsame|(Htick&_)]).
    - exfalso. apply Hinj. by rewrite Hsame, Htx2, Htx.
    - by rewrite Htl3, Htl2, Htick. }
  set (m1 := RxMsp.Do t1 connected1 m) in *.
  unfold RxMsp.Do. cbv zeta.
  destruct (RxMsp_Do_serial_in_frame connected2 m1) as (Htx&_&Htl&_).
  set (m2 := RxMsp.Do_serial_in connected2 m1) in *.
  destruct (RxMsp_Do_tick_frame t2 m2) as (Htx2&_).
  assert (RxMsp.Do_ticked t2 m2 = false) as Hnt.
  { unfold RxMsp.Do_ticked. rewrite Htl, Ht1. apply Z.leb_gt. exact Hnear. }
  rewrite Hnt.
  destruct (RxMsp_Do_inject_cases false t2 (RxMsp.Do_tick t2 m2))
    as (_&_&[Hsame|(Hf&_)]); [|discriminate].
  by rewrite Hsame, Htx2, Htx.
Qed.

(** X28: a request of the ground station silences the injection for
    1500 ms. When a byte put to the link input completes a message of type
    MSP_TYPE_REQUEST at time [t1], [putc] writes the frame of that message
    to the serial port and records the time, and no call of [Do] at a time
    [t2] at most 1500 ms later (modulo 2^32) puts a request to the serial
    port. *)
Theorem gcs_request_silences_injection (t1 t2 c : Z) (m : RxMsp.t) :
  let r := RxMsp.msp_parse_to_msg (RxMsp.msp_msg_link_in m) (RxMsp.status_link_in m) c in
  r.1.1 = true →
  RxMsp.msp_msg_type r.1.2 = RxMsp.MSP_TYPE_REQUEST →
  wrap32 (t2 - t1) ≤ 1500 →
  let m1 := RxMsp.putc t1 c m in
  RxMsp.serial_tx m1 = RxMsp.serial_tx m ++ RxMsp.msp_msg_to_frame_buf r.1.2
  ∧ RxMsp.msp_request_tlast_ms m1 = t1
  ∧ ∀ connected,
      RxMsp.serial_tx (RxMsp.Do t2 connected m1) = RxMsp.serial_tx m1.
Proof.
  cbv zeta. intros Hdone Hreq Hnear.
  assert (RxMsp.serial_tx (RxMsp.putc t1 c m)
          = RxMsp.serial_tx m
            ++ RxMsp.msp_msg_to_frame_buf
                 (RxMsp.msp_parse_to_msg (RxMsp.msp_msg_link_in m)
                    (RxMsp.status_link_in m) c).1.2
          ∧ RxMsp.msp_request_tlast_ms (RxMsp.putc t1 c m) = t1) as (Hp1 & Hp2).
  { unfold RxMsp.putc. cbv zeta. rewrite Hdone.
    cbn [RxMsp.msp_msg_link_in RxMsp.set_status_link_in RxMsp.set_msp_msg_link_in
         RxMsp.set_serial_tx].
    apply Z.eqb_eq in Hreq. rewrite Hreq. done. }
  split; [exact Hp1|]. split; [exact Hp2|].
  intros connected.
  set (m1 := RxMsp.putc t1 c m) in *.
  unfold RxMsp.Do. cbv zeta.
  destruct (RxMsp_Do_serial_in_frame connected m1) as (Htx&Hrq&_).
  set (m2 := RxMsp.Do_serial_in connected m1) in *.
  destruct (RxMsp_Do_tick_frame t2 m2) as (Htx2&Hrq2&_).
  destruct (RxMsp_Do_inject_cases (RxMsp.Do_ticked t2 m2) t2 (RxMsp.Do_tick t2 m2))
    as (_&_&[Hsame|(_&Hlate&_)]).
  - by rewrite Hsame, Htx2, Htx.
  - rewrite Hrq2, Hrq, Hp2 in Hlate. lia.
Qed.

(** X29: the serial input is read completely or not at all. When the link
    fifo, emptied first if the link is not connected, has no space for a
    full MSP message, [Do] takes no byte from the serial port and leaves
    the parser of the serial input as it is; when it has, [Do] takes every
    waiting byte and has fed them to that parser one by one in their
    order. In both cases the parser of the link input is left alone. *)
Theorem serial_input_is_read_completely_or_not_at_all
    (tnow_ms : Z) (connected : bool) (m : RxMsp.t) :
  let fifo := if connected then RxMsp.fifo_link_out m
              else RxMsp.fifo_Flush (RxMsp.fifo_link_out m) in
  let m' := RxMsp.Do tnow_ms connected m in
  (if RxMsp.fifo_HasSpace (RxMsp.MSP_FRAME_LEN_MAX + 16) fifo then
     RxMsp.serial_rx m' = []
     ∧ (RxMsp.msp_msg_ser_in m', RxMsp.status_ser_in m')
       = foldl RxMsp.parse_step (RxMsp.msp_msg_ser_in m, RxMsp.status_ser_in m)
           (RxMsp.serial_rx m)
   else
     RxMsp.serial_rx m' = RxMsp.serial_rx m
     ∧ RxMsp.msp_msg_ser_in m' = RxMsp.msp_msg_ser_in m
     ∧ RxMsp.status_ser_in m' = RxMsp.status_ser_in m
     ∧ RxMsp.fifo_link_out m' = fifo)
  ∧ RxMsp.status_link_in m' = RxMsp.status_link_in m
  ∧ RxMsp.msp_msg_link_in m' = RxMsp.msp_msg_link_in m.
Proof.
  cbv zeta.
  assert (∀ m2,
    let m3 := RxMsp.Do_inject (RxMsp.Do_ticked tnow_ms m2) tnow_ms
                (RxMsp.Do_tick tnow_ms m2) in
    RxMsp.serial_rx m3 = RxMsp.serial_rx m2
    ∧ RxMsp.msp_msg_ser_in m3 = RxMsp.msp_msg_ser_in m2
    ∧ RxMsp.status_ser_in m3 = RxMsp.status_ser_in m2
    ∧ RxMsp.fifo_link_out m3 = RxMsp.fifo_link_out m2
    ∧ RxMsp.status_link_in m3 = RxMsp.status_link_in m2
    ∧ RxMsp.msp_msg_link_in m3 = RxMsp.msp_msg_link_in m2) as Htail.
  { intros m2. cbv zeta.
    unfold RxMsp.Do_inject, RxMsp.Do_tick, RxMsp.inject_request. cbv zeta.
    repeat case_match; done. }
  unfold RxMsp.Do. cbv zeta.
  destruct (Htail (RxMsp.Do_serial_in connected m)) as (->&->&->&->&->&->).
  unfold RxMsp.Do_serial_in. cbv zeta.
  set (m0 := if negb connected then _ else m).
  assert (RxMsp.fifo_link_out m0
          = (if connected then RxMsp.fifo_link_out m
             else RxMsp.fifo_Flush (RxMsp.fifo_link_out m))
          ∧ RxMsp.serial_rx m0 = RxMsp.serial_rx m
          ∧ RxMsp.msp_msg_ser_in m0 = RxMsp.msp_msg_ser_in m
          ∧ RxMsp.status_ser_in m0 = RxMsp.status_ser_in m
          ∧ RxMsp.status_link_in m0 = RxMsp.status_link_in m
          ∧ RxMsp.msp_msg_link_in m0 = RxMsp.msp_msg_link_in m)
    as (Hf0&Hr0&Hm0&Hs0&Hl0&Hk0) by (subst m0; by destruct connected).
  rewrite <- Hf0.
  destruct (RxMsp_parse_serial_in_frame (RxMsp.serial_rx m0) m0)
    as (_&_&_&_&Hl&Hk&Hrx&Hfold).
  cbv zeta in *.
  destruct (RxMsp.fifo_HasSpace _ (RxMsp.fifo_link_out m0)).
  - rewrite Hl, Hk, Hrx, Hfold, Hr0, Hm0, Hs0, Hl0, Hk0.
    split; [|done]. split; [|done]. by destruct (RxMsp.serial_rx m).
  - by rewrite Hr0, Hm0, Hs0, Hl0, Hk0.
Qed.

End RxMspProperties.

(** ** SX1280 driver: the busy wait *)

Lemma SxDriver_wait_loop_ends pre : ∀ c post d,
  Forall (λ x, wrap32 (x - SxDriver.timer_us_start_tick d)
               < SxDriver.timer_us_tmo d) pre →
  SxDriver.timer_us_tmo d ≤ wrap32 (c - SxDriver.timer_us_start_tick d) →
  SxDriver.wait_loop (pre ++ c :: post) d = Some post.
Proof.
  induction pre as [|x pre IH]; intros c post d Hpre Hc; cbn [app SxDriver.wait_loop].
  - apply Z.ltb_ge in Hc. by rewrite Hc.
  - apply Forall_cons in Hpre as [Hx Hpre].
    apply Z.ltb_lt in Hx. rewrite Hx. by apply IH.
Qed.

(** X30: a delay is waited out once, across the wrap of the cycle counter.
    After [SetDelay] of [tmo_us] microseconds at counter value [c0], with
    [tmo_us * (SystemCoreClock / 1000000)] cycles not zero (the product
    does not overflow 32 bits), [WaitOnBusy] ends at the first counter
    reading that lies at least that many cycles after [c0] modulo 2^32 and
    clears the delay, so that the next [WaitOnBusy] returns without reading
    the counter. *)
Theorem busy_wait_ends_at_the_first_late_reading
    (SystemCoreClock tmo_us c0 c : Z) (pre post : list Z) (d : SxDriver.t) :
  0 ≤ tmo_us < 65536 →
  0 ≤ SystemCoreClock < 4294967296 →
  let cycles := tmo_us * (SystemCoreClock / 1000000) in
  cycles ≠ 0 →
  Forall (λ x, wrap32 (x - c0) < cycles) pre →
  cycles ≤ wrap32 (c - c0) →
  let d1 := SxDriver.SetDelay SystemCoreClock tmo_us c0 d in
  SxDriver.timer_us_tmo d1 = cycles
  ∧ SxDriver.WaitOnBusy (pre ++ c :: post) d1 = Some (post, SxDriver.mk 0 c0)
  ∧ SxDriver.WaitOnBusy post (SxDriver.mk 0 c0) = Some (post, SxDriver.mk 0 c0).
Proof.
  intros Htmo Hclk. cbv zeta. intros Hnz Hpre Hc.
  assert (0 ≤ SystemCoreClock / 1000000 < 4295) as Hmhz.
  { split; [apply Z.div_pos; lia|]. apply Z.div_lt_upper_bound; lia. }
  assert (wrap32 (tmo_us * (SystemCoreClock / 1000000))
          = tmo_us * (SystemCoreClock / 1000000)) as Hw.
  { unfold wrap32. apply Z.mod_small. nia. }
  unfold SxDriver.SetDelay. cbv zeta. rewrite (wrap16_small tmo_us) by exact Htmo.
  split; [exact Hw|]. split; [|done].
  unfold SxDriver.WaitOnBusy.
  cbn [SxDriver.timer_us_tmo SxDriver.timer_us_start_tick].
  rewrite Hw. apply nonzero_true in Hnz. rewrite Hnz.
  rewrite (SxDriver_wait_loop_ends pre c post); [done| |];
    cbn [SxDriver.timer_us_tmo SxDriver.timer_us_start_tick]; assumption.
Qed.


(** X3 on the vector [1000; 1200; 1400; 1600] after the orders AETR, ETAR,
    AETR. *)
Lemma ChannelOrder_Apply_permutes_witness :
  (4 ≤ length [1000; 1200; 1400; 1600])%nat
  ∧ ChannelOrder.Apply
      (ChannelOrder_Set_all
         [CHANNEL_ORDER_AETR; CHANNEL_ORDER_ETAR; CHANNEL_ORDER_AETR]
         ChannelOrder.init)
      [1000; 1200; 1400; 1600]
    ≡ₚ [1000; 1200; 1400; 1600].
Proof.
  assert (4 ≤ length [1000; 1200; 1400; 1600])%nat as Hlen by (simpl; lia).
  split; [exact Hlen|].
  exact (ChannelOrder_Apply_permutes
           [CHANNEL_ORDER_AETR; CHANNEL_ORDER_ETAR; CHANNEL_ORDER_AETR]
           [1000; 1200; 1400; 1600] Hlen).
Defined.

(** X5 on the demo state that is Connected with a valid frame received. *)
Lemma connected_after_pre_transmit_has_timeout_left_witness :
  connected (pre_transmit (B := Demo.diversity) Scenario.connected_valid_frame) = true
  ∧ connect_tmo_cnt
      (conn (pre_transmit (B := Demo.diversity) Scenario.connected_valid_frame)) ≠ 0.
Proof.
  assert (connected (pre_transmit (B := Demo.diversity)
                       Scenario.connected_valid_frame) = true) as Hc
    by (vm_compute; reflexivity).
  split; [exact Hc|].
  exact (connected_after_pre_transmit_has_timeout_left (B := Demo.diversity)
           Scenario.connected_valid_frame Hc).
Defined.

(** X6 with [CONNECT_SYNC_CNT = 2]: two valid frames with a tick and a lost
    frame in between, then the third valid frame. *)
Lemma connect_sync_tolerates_lost_frames_witness :
  1 ≤ CONNECT_SYNC_CNT (Build := Demo.diversity) ≤ 255
  ∧ wrap16 (CONNECT_TMO_SYSTICKS (Build := Demo.diversity)) ≠ 0
  ∧ connect_state
      (connect_run (B := Demo.diversity)
         ([PreTransmit true; SysTick; PreTransmit false; PreTransmit true]
          ++ [PreTransmit true])
         (mkConnect CONNECT_STATE_LISTEN 0 0))
    = CONNECT_STATE_CONNECTED.
Proof.
  assert (1 ≤ CONNECT_SYNC_CNT (Build := Demo.diversity) ≤ 255) as HK
    by (vm_compute; split; discriminate).
  assert (wrap16 (CONNECT_TMO_SYSTICKS (Build := Demo.diversity)) ≠ 0) as HT
    by (vm_compute; discriminate).
  split; [exact HK|]. split; [exact HT|].
  apply (connect_sync_tolerates_lost_frames (B := Demo.diversity) HK HT
           [PreTransmit true; SysTick; PreTransmit false; PreTransmit true]
           (mkConnect CONNECT_STATE_LISTEN 0 0) eq_refl).
  reflexivity.
Defined.

(** X7 with [CONNECT_SYNC_CNT = 2], after a valid frame and two ticks. *)
Lemma connect_counters_stay_in_range_witness :
  1 ≤ CONNECT_SYNC_CNT (Build := Demo.diversity)
  ∧ 0 ≤ connect_tmo_cnt
          (connect_run (B := Demo.diversity) [PreTransmit true; SysTick; SysTick]
             (mkConnect CONNECT_STATE_LISTEN 0 0))
      ≤ wrap16 (CONNECT_TMO_SYSTICKS (Build := Demo.diversity)).
Proof.
  assert (1 ≤ CONNECT_SYNC_CNT (Build := Demo.diversity)) as HK
    by (vm_compute; discriminate).
  split; [exact HK|].
  exact (proj1 (connect_counters_stay_in_range (B := Demo.diversity) HK
                  [PreTransmit true; SysTick; SysTick])).
Defined.

(** X8 on the demo state that waits for the frame with RX_DONE in the slot
    of antenna 1. *)
Lemma rx_done_reads_the_frame_of_its_antenna_only_witness :
  link_state (link Scenario.rx_done_pending) = LINK_STATE_RECEIVE_WAIT
  ∧ Z.land (irq_of ANTENNA_1 Scenario.rx_done_pending)
           (SX12xx_IRQ_RX_DONE (Build := Demo.diversity)) ≠ 0
  ∧ ∃ s',
      irq_block (B := Demo.diversity) ANTENNA_1 Scenario.rx_done_pending = Running s'
      ∧ link_state (link s') = LINK_STATE_RECEIVE_WAIT
      ∧ irq_of ANTENNA_1 s' = 0
      ∧ link_rx_status_of ANTENNA_1 s' = RX_STATUS_VALID.
Proof.
  assert (link_state (link Scenario.rx_done_pending) = LINK_STATE_RECEIVE_WAIT)
    as H1 by reflexivity.
  assert (Z.land (irq_of ANTENNA_1 Scenario.rx_done_pending)
            (SX12xx_IRQ_RX_DONE (Build := Demo.diversity)) ≠ 0)
    as H2 by (vm_compute; discriminate).
  split; [exact H1|]. split; [exact H2|].
  destruct (rx_done_reads_the_frame_of_its_antenna_only (B := Demo.diversity)
              ANTENNA_1 Scenario.rx_done_pending H1 H2)
    as (s' & Hrun & Hst & Hirq & Hrx & _).
  exists s'. split; [exact Hrun|]. split; [exact Hst|]. split; [exact Hirq|].
  exact Hrx.
Defined.

(** X9 on the pass of the loop that starts in the demo state with the ack
    frame received. *)
Lemma rx_statuses_stay_in_range_witness :
  rx_status_ok Demo.ack_received = true
  ∧ rx_status_ok
      (state_of (main_loop (B := Demo.diversity) Demo.idle_handset
                   Demo.ack_received)) = true.
Proof.
  assert (rx_status_ok Demo.ack_received = true) as Hok by reflexivity.
  split; [exact Hok|].
  exact (rx_statuses_stay_in_range (B := Demo.diversity) Demo.idle_handset
           Demo.ack_received Hok).
Defined.

(** X10 on the demo state with both antennas Valid. *)
Lemma select_antenna_elects_a_valid_frame_witness :
  rx_status_ok Demo.diversity_tie = true
  ∧ valid_frame_received (B := Demo.diversity) Demo.diversity_tie = true
  ∧ link_rx_status_of (select_antenna (B := Demo.diversity) Demo.diversity_tie)
      Demo.diversity_tie = RX_STATUS_VALID.
Proof.
  assert (rx_status_ok Demo.diversity_tie = true) as Hok by reflexivity.
  assert (valid_frame_received (B := Demo.diversity) Demo.diversity_tie = true)
    as Hv by reflexivity.
  split; [exact Hok|]. split; [exact Hv|].
  exact (proj2 (select_antenna_elects_a_valid_frame (B := Demo.diversity)
                  Demo.diversity_tie Hok Hv)).
Defined.

(** X11 on the demo state with the ack frame, sequence number 7, in the
    buffer of antenna 1. *)
Lemma handle_receive_accepts_frame_witness :
  link_rx_status_of ANTENNA_1 Demo.ack_received ≠ RX_STATUS_INVALID
  ∧ received_seq_no_last
      (stats (handle_receive (B := Demo.diversity) ANTENNA_1 Demo.ack_received))
    = 7.
Proof.
  assert (link_rx_status_of ANTENNA_1 Demo.ack_received ≠ RX_STATUS_INVALID)
    as Hne by (vm_compute; discriminate).
  split; [exact Hne|].
  exact (proj1 (handle_receive_accepts_frame (B := Demo.diversity)
                  ANTENNA_1 Demo.ack_received Hne)).
Defined.

(** X12 on the demo state with None on antenna 1 at -60 dBm and Invalid on
    antenna 2 at -80 dBm. *)
Lemma antenna_without_frame_can_be_elected_witness :
  USE_ANTENNA1 (Build := Demo.diversity) = true
  ∧ USE_ANTENNA2 (Build := Demo.diversity) = true
  ∧ link_rx1_status (link Scenario.none_and_invalid) = RX_STATUS_NONE
  ∧ link_rx2_status (link Scenario.none_and_invalid) = RX_STATUS_INVALID
  ∧ last_rx_rssi1 (stats Scenario.none_and_invalid)
    > last_rx_rssi2 (stats Scenario.none_and_invalid)
  ∧ select_antenna (B := Demo.diversity) Scenario.none_and_invalid = ANTENNA_1
  ∧ valid_frame_received (B := Demo.diversity) Scenario.none_and_invalid = false.
Proof.
  assert (last_rx_rssi1 (stats Scenario.none_and_invalid)
          > last_rx_rssi2 (stats Scenario.none_and_invalid)) as Hr
    by (vm_compute; reflexivity).
  destruct (antenna_without_frame_can_be_elected (B := Demo.diversity)
              Scenario.none_and_invalid eq_refl eq_refl eq_refl eq_refl Hr)
    as (_ & Hv & Hsel & _).
  split; [reflexivity|]. split; [reflexivity|]. split; [reflexivity|].
  split; [reflexivity|]. split; [exact Hr|]. split; [exact Hsel|exact Hv].
Defined.

(** X13 on a frame with the payload bytes 65, 66, 67 and the serial port as
    destination. *)
Lemma received_payload_is_forwarded_in_order_witness :
  FrameStatus.frame_type (status Scenario.serial_frame)
  = FRAME_TYPE_RX (Build := Demo.diversity)
  ∧ serialport (dev Scenario.serial_open) = Some Demo.port0
  ∧ length ((λ i, rx_payload Scenario.serial_frame !!! i) <$> seq 0 3) = 3%nat.
Proof.
  assert (FrameStatus.frame_type (status Scenario.serial_frame)
          = FRAME_TYPE_RX (Build := Demo.diversity)) as Hty by reflexivity.
  assert (serialport (dev Scenario.serial_open) = Some Demo.port0) as Hp
    by reflexivity.
  split; [exact Hty|]. split; [exact Hp|].
  exact (proj1 (received_payload_is_forwarded_in_order (B := Demo.diversity)
                  (C := Demo.collab) Scenario.serial_frame Demo.port0
                  Scenario.serial_open Hty Hp)).
Defined.

(** X14 on the demo state after start-up, which has no serial port. *)
Lemma no_serial_destination_no_serial_traffic_witness :
  serialport (dev Demo.started) = None
  ∧ mavlink (dev (process_transmit_frame (B := Demo.diversity) ANTENNA_1 1
                    Demo.started))
    = mavlink (dev Demo.started).
Proof.
  assert (serialport (dev Demo.started) = None) as Hn by reflexivity.
  split; [exact Hn|].
  destruct (no_serial_destination_no_serial_traffic (B := Demo.diversity)
              Demo.started Hn) as (Htx & _).
  exact (proj1 (proj2 (Htx ANTENNA_1 1))).
Defined.

(** X15 on the demo build, whose payload buffer has 8 bytes, connected and
    with ten bytes waiting on the serial port: the frame takes the first
    eight, the last two stay on the port. *)
Lemma transmit_payload_stays_within_buffer_witness :
  (FRAME_TX_PAYLOAD_LEN (Build := Demo.diversity) ≤ 255)%nat
  ∧ connected Scenario.serial_waiting = true
  ∧ transmit_frame_type
      (frames (process_transmit_frame (B := Demo.diversity) ANTENNA_1 1
                 Scenario.serial_waiting))
    = TRANSMIT_FRAME_TYPE_NORMAL
  ∧ payload (frames (process_transmit_frame (B := Demo.diversity) ANTENNA_1 1
                       Scenario.serial_waiting))
    = [1; 2; 3; 4; 5; 6; 7; 8]
  ∧ payload_len (frames (process_transmit_frame (B := Demo.diversity) ANTENNA_1 1
                           Scenario.serial_waiting))
    = 8
  ∧ serialport (dev (process_transmit_frame (B := Demo.diversity) ANTENNA_1 1
                       Scenario.serial_waiting))
    = Some (Demo.mkPort [9; 10] [])
  ∧ 0 ≤ payload_len (frames (process_transmit_frame (B := Demo.diversity)
                               ANTENNA_1 1 Scenario.serial_waiting))
      ≤ Z.of_nat (FRAME_TX_PAYLOAD_LEN (Build := Demo.diversity)).
Proof.
  assert (FRAME_TX_PAYLOAD_LEN (Build := Demo.diversity) ≤ 255)%nat as HN
    by (vm_compute; lia).
  assert (transmit_frame_type
            (frames (process_transmit_frame (B := Demo.diversity) ANTENNA_1 1
                       Scenario.serial_waiting))
          = TRANSMIT_FRAME_TYPE_NORMAL) as Hn by reflexivity.
  split; [exact HN|]. split; [reflexivity|]. split; [exact Hn|].
  split; [reflexivity|]. split; [reflexivity|]. split; [reflexivity|].
  exact (proj1 (proj2 (transmit_payload_stays_within_buffer (B := Demo.diversity)
                         ANTENNA_1 1 Scenario.serial_waiting HN Hn))).
Defined.

(** X16 on the demo state with a parameter change pending and a free
    slot. *)
Lemma pending_param_change_waits_for_free_slot_witness :
  setup_rx_param_changed (frames Scenario.param_change_pending) = true
  ∧ transmit_frame_type (frames Scenario.param_change_pending)
    = TRANSMIT_FRAME_TYPE_NORMAL
  ∧ transmit_frame_type
      (frames (process_transmit_frame (B := Demo.diversity) ANTENNA_1 1
                 Scenario.param_change_pending))
    = TRANSMIT_FRAME_TYPE_CMD_SET_RX_PARAMS.
Proof.
  assert (setup_rx_param_changed (frames Scenario.param_change_pending) = true)
    as Hf by reflexivity.
  assert (transmit_frame_type (frames Scenario.param_change_pending)
          = TRANSMIT_FRAME_TYPE_NORMAL) as Hn by reflexivity.
  split; [exact Hf|]. split; [exact Hn|].
  exact (proj1 (proj1 (pending_param_change_waits_for_free_slot
                         (B := Demo.diversity) ANTENNA_1 1
                         Scenario.param_change_pending Hf) Hn)).
Defined.

(** X18 on the demo state that is about to transmit. *)
Lemma transmit_retunes_both_modems_and_sends_on_one_witness :
  link_state (link Demo.about_to_transmit) = LINK_STATE_TRANSMIT
  ∧ last_tx_antenna
      (stats (link_state_switch (B := Demo.diversity) Demo.about_to_transmit))
    = ANTENNA_1.
Proof.
  assert (link_state (link Demo.about_to_transmit) = LINK_STATE_TRANSMIT)
    as Ht by reflexivity.
  split; [exact Ht|].
  exact (proj2 (proj2 (transmit_retunes_both_modems_and_sends_on_one
                         (B := Demo.diversity) Demo.about_to_transmit Ht))).
Defined.

(** X19 on the demo state that is Idle with TX_DONE in the slot of
    antenna 1. *)
Lemma unawaited_done_cause_stops_the_loop_witness :
  Z.land (irq_of ANTENNA_1 Scenario.stray_tx_done)
         (SX12xx_IRQ_TIMEOUT (Build := Demo.diversity)) = 0
  ∧ Z.land (irq_of ANTENNA_1 Scenario.stray_tx_done)
           (SX12xx_IRQ_TX_DONE (Build := Demo.diversity)) ≠ 0
  ∧ link_state (link Scenario.stray_tx_done) = LINK_STATE_IDLE
  ∧ irq_block (B := Demo.diversity) ANTENNA_1 Scenario.stray_tx_done
    = Halted Scenario.stray_tx_done
  ∧ main_loop (B := Demo.diversity) Demo.idle_handset Scenario.stray_tx_done
    = Halted (sys_task (B := Demo.diversity) Scenario.stray_tx_done).
Proof.
  assert (Z.land (irq_of ANTENNA_1 Scenario.stray_tx_done)
            (SX12xx_IRQ_TIMEOUT (Build := Demo.diversity)) = 0) as H1
    by reflexivity.
  assert (Z.land (irq_of ANTENNA_1 Scenario.stray_tx_done)
            (SX12xx_IRQ_TX_DONE (Build := Demo.diversity)) ≠ 0) as H2
    by (vm_compute; discriminate).
  assert (link_state (link Scenario.stray_tx_done) = LINK_STATE_IDLE) as H3
    by reflexivity.
  destruct (unawaited_done_cause_stops_the_loop (B := Demo.diversity)
              ANTENNA_1 Scenario.stray_tx_done H1 (or_intror H2)
              ltac:(rewrite H3; discriminate) ltac:(rewrite H3; discriminate))
    as (Hb & Hm).
  split; [exact H1|]. split; [exact H2|]. split; [exact H3|].
  split; [exact Hb|].
  apply (Hm eq_refl eq_refl); rewrite H3; discriminate.
Defined.

(** X20 on the demo states that wait for the end of the transmission with
    TX_DONE in the slot of antenna 1. *)
Lemma tx_done_opens_the_receive_window_witness :
  link_state (link Scenario.tx_done) = LINK_STATE_TRANSMIT_WAIT
  ∧ Z.land (irq_of ANTENNA_1 Scenario.tx_done)
           (SX12xx_IRQ_TX_DONE (Build := Demo.diversity)) ≠ 0
  ∧ ∃ s',
      irq_block (B := Demo.diversity) ANTENNA_1 Scenario.tx_done = Running s'
      ∧ link_state (link s') = LINK_STATE_RECEIVE.
Proof.
  assert (link_state (link Scenario.tx_done) = LINK_STATE_TRANSMIT_WAIT) as H1
    by reflexivity.
  assert (Z.land (irq_of ANTENNA_1 Scenario.tx_done)
            (SX12xx_IRQ_TX_DONE (Build := Demo.diversity)) ≠ 0) as H2
    by (vm_compute; discriminate).
  split; [exact H1|]. split; [exact H2|].
  destruct (proj1 (tx_done_opens_the_receive_window (B := Demo.diversity)
                     Scenario.tx_done) ANTENNA_1 H1 H2)
    as (s' & Hrun & Hst & _).
  exists s'. split; [exact Hrun|exact Hst].
Defined.

(** X21 on the demo states at the frame tick and about to transmit. *)
Lemma pre_transmit_schedules_the_transmission_witness :
  doPreTransmit (sched Demo.ack_received) = true
  ∧ link_state
      (link (loop_tail (B := Demo.diversity) Demo.idle_handset Demo.ack_received))
    = LINK_STATE_TRANSMIT.
Proof.
  assert (doPreTransmit (sched Demo.ack_received) = true) as Hp by reflexivity.
  split; [exact Hp|].
  exact (proj1 (proj1 (pre_transmit_schedules_the_transmission
                         (B := Demo.diversity) Demo.ack_received)
                  Demo.idle_handset Hp)).
Defined.

(** X23 on the demo start-up, where both modems are ok. *)
Lemma main_init_needs_both_modems_witness :
  sx_isOk (sx (dev Demo.started)) && sx_isOk (sx2 (dev Demo.started)) = true
  ∧ ∃ s,
      main_init (B := Demo.diversity) (C := Demo.collab) Demo.port0 Demo.port0
        Demo.started
      = Running s
      ∧ link_state (link s) = LINK_STATE_IDLE.
Proof.
  assert (sx_isOk (sx (dev Demo.started)) && sx_isOk (sx2 (dev Demo.started))
          = true) as Hok by reflexivity.
  split; [exact Hok|].
  destruct (proj2 (main_init_needs_both_modems (B := Demo.diversity)
                     (C := Demo.collab) Demo.port0 Demo.port0 Demo.started) Hok)
    as (s & Hrun & Hidle & _).
  exists s. split; [exact Hrun|exact Hidle].
Defined.

(** The bridge model on concrete inputs: a start byte and a second byte
    end in STATE_TRANSMITING, as a reply waits; the transmit-complete
    interrupt brings STATE_IDLE back. *)
Example Pin5Bridge_frame_then_reply :
  Pin5Bridge.state
    (Pin5Bridge.calls (V := Pin5Bridge.demo_virtual)
       [Pin5Bridge.CallUartRx 2; Pin5Bridge.CallUartRx 5]
       (Pin5Bridge.Init (V := Pin5Bridge.demo_virtual) Pin5Bridge.demo_bridge))
  = Pin5Bridge.STATE_TRANSMITING
  ∧ Pin5Bridge.state
      (Pin5Bridge.calls (V := Pin5Bridge.demo_virtual)
         [Pin5Bridge.CallUartRx 2; Pin5Bridge.CallUartRx 5; Pin5Bridge.CallUartTc]
         (Pin5Bridge.Init (V := Pin5Bridge.demo_virtual) Pin5Bridge.demo_bridge))
    = Pin5Bridge.STATE_IDLE.
Proof. by vm_compute. Qed.

(** The MSP model on concrete inputs: 2000 ms after [Init], on a tick that
    moves the counter from 4 to 5, [Do] puts the request for MSP_ATTITUDE
    to the serial port. *)
Example RxMsp_Do_injects_attitude_request :
  RxMsp.serial_tx (RxMsp.Do (E := RxMsp.demo_env) 2000 true RxMsp.demo_msp_due)
  = [60; 108; 10]
  ∧ RxMsp.tick (RxMsp.Do (E := RxMsp.demo_env) 2000 true RxMsp.demo_msp_due) = 5.
Proof. by vm_compute. Qed.

(** X27 on the demo object: a request injected at 2000 ms, the next call at
    2050 ms. *)
Lemma injected_requests_are_100_ms_apart_witness :
  RxMsp.serial_tx (RxMsp.Do (E := RxMsp.demo_env) 2000 true RxMsp.demo_msp_due)
  ≠ RxMsp.serial_tx RxMsp.demo_msp_due
  ∧ wrap32 (2050 - 2000) < 100
  ∧ RxMsp.serial_tx
      (RxMsp.Do (E := RxMsp.demo_env) 2050 true
         (RxMsp.Do (E := RxMsp.demo_env) 2000 true RxMsp.demo_msp_due))
    = RxMsp.serial_tx (RxMsp.Do (E := RxMsp.demo_env) 2000 true RxMsp.demo_msp_due).
Proof.
  assert (RxMsp.serial_tx (RxMsp.Do (E := RxMsp.demo_env) 2000 true
                             RxMsp.demo_msp_due)
          ≠ RxMsp.serial_tx RxMsp.demo_msp_due) as Hinj
    by (vm_compute; discriminate).
  assert (wrap32 (2050 - 2000) < 100) as Hnear by (vm_compute; reflexivity).
  split; [exact Hinj|]. split; [exact Hnear|].
  exact (injected_requests_are_100_ms_apart (E := RxMsp.demo_env)
           2000 2050 true true RxMsp.demo_msp_due Hinj Hnear).
Defined.

(** X28 on the demo object: the byte 10 completes a request at 3000 ms,
    [Do] is called at 4500 ms. *)
Lemma gcs_request_silences_injection_witness :
  (RxMsp.msp_parse_to_msg (Env := RxMsp.demo_env)
     (RxMsp.msp_msg_link_in RxMsp.demo_msp_request_coming)
     (RxMsp.status_link_in RxMsp.demo_msp_request_coming) 10).1.1 = true
  ∧ wrap32 (4500 - 3000) ≤ 1500
  ∧ RxMsp.serial_tx (RxMsp.putc (E := RxMsp.demo_env) 3000 10
                       RxMsp.demo_msp_request_coming)
    = [60; 108; 10]
  ∧ RxMsp.serial_tx
      (RxMsp.Do (E := RxMsp.demo_env) 4500 true
         (RxMsp.putc (E := RxMsp.demo_env) 3000 10 RxMsp.demo_msp_request_coming))
    = RxMsp.serial_tx (RxMsp.putc (E := RxMsp.demo_env) 3000 10
                         RxMsp.demo_msp_request_coming).
Proof.
  assert (wrap32 (4500 - 3000) ≤ 1500) as Hnear by (vm_compute; discriminate).
  destruct (gcs_request_silences_injection (E := RxMsp.demo_env)
              3000 4500 10 RxMsp.demo_msp_request_coming eq_refl eq_refl Hnear)
    as (Hout & _ & Hdo).
  split; [reflexivity|]. split; [exact Hnear|].
  split; [exact Hout|]. exact (Hdo true).
Defined.

(** X30 at 72 MHz with a delay of 100 us set 296 cycles before the counter
    wraps. *)
Lemma busy_wait_ends_at_the_first_late_reading_witness :
  0 ≤ 100 < 65536
  ∧ 0 ≤ 72000000 < 4294967296
  ∧ 100 * (72000000 / 1000000) ≠ 0
  ∧ Forall (λ x, wrap32 (x - 4294967000) < 100 * (72000000 / 1000000))
      [4294967100; 100]
  ∧ 100 * (72000000 / 1000000) ≤ wrap32 (7000 - 4294967000)
  ∧ SxDriver.WaitOnBusy ([4294967100; 100] ++ 7000 :: [7100])
      (SxDriver.SetDelay 72000000 100 4294967000 (SxDriver.mk 0 0))
    = Some ([7100], SxDriver.mk 0 4294967000).
Proof.
  assert (0 ≤ 100 < 65536) as H1 by lia.
  assert (0 ≤ 72000000 < 4294967296) as H2 by lia.
  assert (100 * (72000000 / 1000000) ≠ 0) as H3 by (vm_compute; discriminate).
  assert (Forall (λ x, wrap32 (x - 4294967000) < 100 * (72000000 / 1000000))
            [4294967100; 100]) as H4
    by (repeat constructor; vm_compute; reflexivity).
  assert (100 * (72000000 / 1000000) ≤ wrap32 (7000 - 4294967000)) as H5
    by (vm_compute; discriminate).
  split; [exact H1|]. split; [exact H2|]. split; [exact H3|].
  split; [exact H4|]. split; [exact H5|].
  exact (proj1 (proj2 (busy_wait_ends_at_the_first_late_reading
                         72000000 100 4294967000 7000 [4294967100; 100] [7100]
                         (SxDriver.mk 0 0) H1 H2 H3 H4 H5))).
Defined.
